(** * Viral-clip generation service: the selection engine, the caption
      timing path and the job plumbing, embedded from the Python sources.

    Conventions of the embedding
    - a Python [str] is the list of its Unicode code points ([pystr]);
    - a Python [float] is an exact rational ([Q]); [int(x)] truncates toward
      zero, [divmod] and [//] take the floor;
    - a function that can raise returns a [result]: [Return v] or [Raise e];
    - what an external program or model answers (the downloader, the media
      toolchain, the face detector, the sentiment classifier) is an input of
      the function that consults it. *)

From Stdlib Require Import ZArith NArith QArith Qround Qabs List Bool Lia Lqa String Ascii.
From Stdlib Require Import Sorting.Sorted Sorting.Permutation DecimalN.
From stdpp Require Import base gmap strings.
Import ListNotations.

Local Open Scope Z_scope.

(** ** Python strings *)

Module PyStr.

Definition pystr := list N.

(** An ASCII literal of the source, as code points. *)
Definition lit (s : string) : pystr :=
  List.map N_of_ascii (list_ascii_of_string s).

Fixpoint startswith (s p : pystr) : bool :=
  match p, s with
  | [], _ => true
  | _ :: _, [] => false
  | c :: p', d :: s' => N.eqb c d && startswith s' p'
  end.

Definition endswith (s p : pystr) : bool :=
  startswith (rev s) (rev p).

(** [s == t] *)
Fixpoint str_eqb (s t : pystr) : bool :=
  match s, t with
  | [], [] => true
  | c :: s', d :: t' => N.eqb c d && str_eqb s' t'
  | _, _ => false
  end.

(** [p in s] *)
Fixpoint contains (s p : pystr) : bool :=
  startswith s p ||
  match s with
  | [] => false
  | _ :: s' => contains s' p
  end.

(** [str.isspace] on one character (CPython's whitespace table). *)
Definition is_space (c : N) : bool :=
  ((9 <=? c) && (c <=? 13) || (28 <=? c) && (c <=? 32) ||
   (c =? 133) || (c =? 160) || (c =? 5760) ||
   (8192 <=? c) && (c <=? 8202) || (c =? 8232) || (c =? 8233) ||
   (c =? 8239) || (c =? 8287) || (c =? 12288))%N.

Fixpoint lstrip (s : pystr) : pystr :=
  match s with
  | c :: s' => if is_space c then lstrip s' else s
  | [] => []
  end.

Definition rstrip (s : pystr) : pystr := rev (lstrip (rev s)).

Definition strip (s : pystr) : pystr := rstrip (lstrip s).

(** [s.split(sep)] for a one-character separator: the pieces between the
    occurrences of [sep]; never the empty list. *)
Fixpoint split_on (sep : N) (s : pystr) : list pystr :=
  match s with
  | [] => [[]]
  | c :: s' =>
      if N.eqb c sep then [] :: split_on sep s'
      else match split_on sep s' with
           | w :: ws => (c :: w) :: ws
           | [] => [[c]]
           end
  end.

(** [s.split()]: the maximal runs of non-whitespace characters. *)
Fixpoint split_ws_aux (cur : pystr) (s : pystr) : list pystr :=
  match s with
  | [] => match cur with [] => [] | _ => [rev cur] end
  | c :: s' =>
      if is_space c
      then match cur with
           | [] => split_ws_aux [] s'
           | _ => rev cur :: split_ws_aux [] s'
           end
      else split_ws_aux (c :: cur) s'
  end.

Definition split_ws (s : pystr) : list pystr := split_ws_aux [] s.

(** [str.lower] on text whose cased characters are all ASCII. *)
Definition ascii_lower (s : pystr) : pystr :=
  List.map (fun c => if ((65 <=? c) && (c <=? 90))%N then (c + 32)%N else c) s.

End PyStr.
Import PyStr.

(** ** Results of code that may raise *)

Inductive exn : Type :=
| ValueError (msg : pystr)
| FileNotFoundError (msg : pystr)
| RuntimeError (msg : pystr)
| ZeroDivisionError (msg : pystr)
| IndexError (msg : pystr)
| AttributeError (msg : pystr)
| TypeError (msg : pystr)
| NameError (msg : pystr)
| KeyError (msg : pystr)
| CalledProcessError (stderr : pystr)
| TimeoutExpired
| Exception (msg : pystr).

Inductive result (A : Type) : Type :=
| Return (v : A)
| Raise (e : exn).
Arguments Return {A} v.
Arguments Raise {A} e.

(** ** Python numbers: floats as rationals, integer formatting and parsing *)

Module PyNum.

Local Open Scope Q_scope.

Definition qleb (x y : Q) : bool := Qle_bool x y.
Definition qltb (x y : Q) : bool := negb (Qle_bool y x).

(** [min(x, y)] *)
Definition qmin (x y : Q) : Q := if qleb x y then x else y.

(** [int(x)]: truncation toward zero. *)
Definition py_int (x : Q) : Z := Z.quot (Qnum x) (Zpos (Qden x)).

(** Rounding to the nearest integer, ties to the even one ([round],
    [timedelta] and the [%.2f] conversion all round this way). *)
Definition round_half_even (x : Q) : Z :=
  let f := Qfloor x in
  let r := x - inject_Z f in
  if qltb r (1 # 2) then f
  else if qltb (1 # 2) r then (f + 1)%Z
  else if Z.even f then f else (f + 1)%Z.

(** [round(x, ndigits)] *)
Definition py_round (x : Q) (ndigits : nat) : Q :=
  let p := (10 ^ Z.of_nat ndigits)%Z in
  inject_Z (round_half_even (x * inject_Z p)) / inject_Z p.

(** [divmod(x, y)] on floats, for a positive [y]: the floor quotient and
    the remainder. *)
Definition py_divmod (x y : Q) : Q * Q :=
  let q := inject_Z (Qfloor (x / y)) in (q, x - q * y).

(** Decimal digits of a natural number, as characters. *)
Fixpoint cps_of_uint (d : Decimal.uint) : pystr :=
  match d with
  | Decimal.Nil => []
  | Decimal.D0 d' => 48%N :: cps_of_uint d'
  | Decimal.D1 d' => 49%N :: cps_of_uint d'
  | Decimal.D2 d' => 50%N :: cps_of_uint d'
  | Decimal.D3 d' => 51%N :: cps_of_uint d'
  | Decimal.D4 d' => 52%N :: cps_of_uint d'
  | Decimal.D5 d' => 53%N :: cps_of_uint d'
  | Decimal.D6 d' => 54%N :: cps_of_uint d'
  | Decimal.D7 d' => 55%N :: cps_of_uint d'
  | Decimal.D8 d' => 56%N :: cps_of_uint d'
  | Decimal.D9 d' => 57%N :: cps_of_uint d'
  end.

Definition digits (n : N) : pystr := cps_of_uint (N.to_uint n).

(** An ASCII digit. *)
Definition is_digit (c : N) : Prop := (48 <= c /\ c <= 57)%N.

Definition zfill (width : nat) (s : pystr) : pystr :=
  repeat 48%N (width - List.length s) ++ s.

(** [f"{z:0{width}d}"]: sign first, then zeros up to the width. *)
Definition format_d (width : nat) (z : Z) : pystr :=
  if (z <? 0)%Z
  then 45%N :: zfill (width - 1) (digits (Z.to_N (- z)))
  else zfill width (digits (Z.to_N z)).

(** The value of a run of ASCII digits; [None] when a character is not a
    digit or the run is empty. *)
Definition digit_val (c : N) : option N :=
  if ((48 <=? c) && (c <=? 57))%N then Some (c - 48)%N else None.

Fixpoint parse_digits (acc : N) (s : pystr) : option N :=
  match s with
  | [] => Some acc
  | c :: s' =>
      match digit_val c with
      | Some d => parse_digits (10 * acc + d)%N s'
      | None => None
      end
  end.

Definition parse_nat (s : pystr) : option N :=
  match s with
  | [] => None
  | _ => parse_digits 0%N s
  end.

(** [int(s)] for a decimal literal with an optional sign (surrounding
    blanks are stripped as Python does). *)
Definition int_of_str (s : pystr) : result Z :=
  let bad := Raise (ValueError (lit "invalid literal for int()")) in
  match strip s with
  | [] => bad
  | c :: ds =>
      if N.eqb c 45                                   (* '-' *)
      then match parse_nat ds with
           | Some n => Return (- Z.of_N n)%Z
           | None => bad
           end
      else if N.eqb c 43                              (* '+' *)
      then match parse_nat ds with
           | Some n => Return (Z.of_N n)
           | None => bad
           end
      else match parse_nat (c :: ds) with
           | Some n => Return (Z.of_N n)
           | None => bad
           end
  end.

(** [l[:n]] *)
Definition slice_to {A : Type} (n : Z) (l : list A) : list A :=
  if (0 <=? n)%Z then firstn (Z.to_nat n) l
  else firstn (Z.to_nat (Z.of_nat (List.length l) + n)) l.

(** [sorted(l, key=...)] is stable: [before y x] says that [y]'s key sorts
    strictly before [x]'s; equal keys keep the order of the input. *)
Fixpoint insert_stable {A : Type} (before : A -> A -> bool) (x : A) (l : list A) : list A :=
  match l with
  | [] => [x]
  | y :: l' => if before y x then y :: insert_stable before x l' else x :: l
  end.

Fixpoint sorted_stable {A : Type} (before : A -> A -> bool) (l : list A) : list A :=
  match l with
  | [] => []
  | x :: l' => insert_stable before x (sorted_stable before l')
  end.

(** [sorted(l, key=key)] and [sorted(l, key=key, reverse=True)] *)
Definition sorted_by {A : Type} (key : A -> Q) (l : list A) : list A :=
  sorted_stable (fun y x => qltb (key y) (key x)) l.

Definition sorted_by_reverse {A : Type} (key : A -> Q) (l : list A) : list A :=
  sorted_stable (fun y x => qltb (key x) (key y)) l.

End PyNum.
Import PyNum.

(** The Python values that travel through the queue. *)
Inductive pyval : Type :=
| PyNone
| PyInt (z : Z)
| PyStr (s : pystr)
| PyJson (text : pystr).       (* a decoded JSON document, kept as its text *)

(** [str(v)], as an f-string prints a value. *)
Definition py_str (v : pyval) : pystr :=
  match v with
  | PyNone => lit "None"
  | PyInt z => format_d 0 z
  | PyStr s => s
  | PyJson text => text
  end.

(** ** Regular expressions ([re]), as far as processing.py uses them *)

Module Re.

Inductive regex : Type :=
| Lit (s : pystr)                 (* a literal run of characters *)
| Class (p : N -> bool)           (* a character class *)
| Cat (r1 r2 : regex)
| Alt (r1 r2 : regex)             (* r1|r2 *)
| Opt (r : regex)                 (* r? , greedy *)
| Times (n : nat) (r : regex)     (* r{n} *)
| Group (r : regex).              (* capturing group 1 *)

(** Backtracking matcher in continuation-passing style.  [k] receives the
    rest of the subject and the text captured so far. *)
Fixpoint rmatch {A : Type} (r : regex) (s : pystr) (cap : option pystr)
         (k : pystr -> option pystr -> option A) {struct r} : option A :=
  match r with
  | Lit l => if startswith s l then k (skipn (List.length l) s) cap else None
  | Class p =>
      match s with
      | c :: s' => if p c then k s' cap else None
      | [] => None
      end
  | Cat r1 r2 => rmatch r1 s cap (fun s' cap' => rmatch r2 s' cap' k)
  | Alt r1 r2 =>
      match rmatch r1 s cap k with
      | Some x => Some x
      | None => rmatch r2 s cap k
      end
  | Opt r1 =>
      match rmatch r1 s cap k with
      | Some x => Some x
      | None => k s cap
      end
  | Times n r1 =>
      (fix rep (n : nat) (s : pystr) (cap : option pystr)
           (k : pystr -> option pystr -> option A) : option A :=
         match n with
         | O => k s cap
         | S n' => rmatch r1 s cap (fun s' cap' => rep n' s' cap' k)
         end) n s cap k
  | Group r1 =>
      rmatch r1 s cap
        (fun s' _ => k s' (Some (firstn (List.length s - List.length s') s)))
  end.

(** [re.match(r, s)]: a match anchored at the start; the result is group 1
    (the empty string when the pattern has no group). *)
Definition re_match (r : regex) (s : pystr) : option pystr :=
  rmatch r s None (fun _ cap => Some (default [] cap)).

(** [re.search(r, s)]: the leftmost position at which [r] matches. *)
Fixpoint re_search (r : regex) (s : pystr) : option pystr :=
  match re_match r s with
  | Some g => Some g
  | None =>
      match s with
      | [] => None
      | _ :: s' => re_search r s'
      end
  end.

(** [^r$] under [re.match]: the match must reach the end of the subject
    (or stop before one final newline). *)
Definition re_fullmatch (r : regex) (s : pystr) : bool :=
  match rmatch r s None
          (fun rest _ => match rest with
                         | [] => Some tt
                         | [10%N] => Some tt
                         | _ => None
                         end) with
  | Some _ => true
  | None => false
  end.

End Re.
Import Re.

(** ** processing.py: URL validation and the download step *)

Module Processing.

(** [[a-zA-Z0-9_-]] *)
Definition id_char (c : N) : bool :=
  ((97 <=? c) && (c <=? 122) || (65 <=? c) && (c <=? 90) ||
   (48 <=? c) && (c <=? 57) || (c =? 95) || (c =? 45))%N.

(** [(?:https?://)?(?:www\.)?] *)
Definition scheme_www : regex :=
  Cat (Opt (Cat (Lit (lit "http")) (Cat (Opt (Lit (lit "s"))) (Lit (lit "://")))))
      (Opt (Lit (lit "www."))).

Definition video_id_group : regex := Group (Times 11 (Class id_char)).

Definition youtube_pattern (marker : string) : regex :=
  Cat scheme_www (Cat (Lit (lit marker)) video_id_group).

Definition youtube_patterns : list regex :=
  [ youtube_pattern "youtube.com/watch?v=";
    youtube_pattern "youtu.be/";
    youtube_pattern "youtube.com/embed/";
    youtube_pattern "youtube.com/v/" ].

(** The [for pattern in youtube_patterns] loop with its [break]. *)
Fixpoint first_match (ps : list regex) (url : pystr) : option pystr :=
  match ps with
  | [] => None
  | p :: ps' =>
      match re_search p url with
      | Some g => Some g
      | None => first_match ps' url
      end
  end.

Definition validate_youtube_url (url : pyval) : bool * pystr :=
  match url with
  | PyStr ((_ :: _) as url) =>
      match first_match youtube_patterns url with
      | None => (false, lit "Invalid YouTube URL format.")
      | Some video_id =>
          match video_id with
          | [] => (false, lit "Invalid YouTube URL format.")
          | _ =>
              if negb (Nat.eqb (List.length video_id) 11)
              then (false, lit "Invalid video ID length: "
                             ++ digits (N.of_nat (List.length video_id)) ++ lit ".")
              else if startswith video_id (lit "--")
              then (false, lit "Malformed video ID: " ++ video_id ++ lit ".")
              else if negb (re_fullmatch (Times 11 (Class id_char)) video_id)
              then (false, lit "Invalid video ID characters: " ++ video_id ++ lit ".")
              else (true, lit "Valid YouTube URL")
          end
      end
  | _ => (false, lit "URL must be a non-empty string")
  end.

End Processing.

(** ** Transcript data (faster-whisper segments, dictionaries, and the
       detector's own records) *)

(** A word token of the recogniser. *)
Record Word : Type := mkWord {
  word_word : pystr;
  word_start : Q;
  word_end : Q
}.

(** A recogniser segment object ([segment.start], [segment.end],
    [segment.text], [segment.words]). *)
Record Segment : Type := mkSegment {
  sg_start : Q;
  sg_end : Q;
  sg_text : pystr;
  sg_words : list Word
}.

(** An element of a transcript: a segment object, or the dictionary form
    [{"start": .., "end": .., "text": ..}]. *)
Inductive raw_segment : Type :=
| SegObject (s : Segment)
| SegDict (d_start d_end : Q) (d_text : pystr).

Record TranscriptSegment : Type := mkTranscriptSegment {
  ts_start_time : Q;
  ts_end_time : Q;
  ts_text : pystr;
  ts_confidence : Q;
  ts_original_segment : option raw_segment
}.

Record VideoClip : Type := mkVideoClip {
  vc_start_time : Q;
  vc_end_time : Q;
  vc_duration : Q;
  vc_transcript : pystr;
  vc_viral_score : Q;
  vc_hook_keywords : list pystr;
  vc_has_question : bool;
  vc_emotion_score : Q;
  vc_length_bonus : Q;
  vc_segments : list TranscriptSegment
}.

(** One element of the list a sentiment pipeline returns. *)
Inductive analyzer_result : Type :=
| ResultDict (label : option pystr) (score : option Q)
    (* a dictionary with its ['label'] and its ['score']; None: no such key *)
| ResultOther.
    (* anything without [get]: a pipeline made with [return_all_scores=True]
       returns a list of lists *)

(** What a call of the sentiment pipeline can produce. *)
Inductive analyzer_output : Type :=
| AnalyzerRaises
| AnalyzerList (results : list analyzer_result)
| AnalyzerOther.                              (* anything that is not a list *)

(** ** hook_detector.py *)

Module HookDetector.

Local Open Scope Q_scope.

(** The fields of [self]. *)
Record t : Type := mk {
  target_length : Q;
  min_length : Q;
  max_length : Q;
  sentiment_analyzer : option (pystr -> analyzer_output)
}.

Definition HOOK_KEYWORDS : list pystr := List.map lit
  [ "secret"; "secrets"; "hidden"; "revealed"; "expose"; "exposed"; "truth about";
    "nobody told you"; "nobody tells you"; "they don't want you to know";
    "mistake"; "mistakes"; "wrong"; "error"; "problem"; "issue"; "fail"; "failure";
    "biggest mistake"; "common mistake"; "avoid this";
    "crazy"; "insane"; "shocking"; "unbelievable"; "incredible"; "amazing";
    "you won't believe"; "mind-blowing"; "jaw-dropping";
    "this is why"; "here's why"; "the reason"; "because"; "how to"; "watch this";
    "look at this"; "check this out"; "pay attention";
    "right now"; "immediately"; "before it's too late"; "limited time";
    "don't miss"; "last chance"; "urgent";
    "love"; "hate"; "angry"; "frustrated"; "excited"; "scared"; "worried" ]%string.

Definition QUESTION_STARTERS : list pystr := List.map lit
  [ "what"; "why"; "how"; "when"; "where"; "who"; "which"; "whose";
    "can you"; "do you"; "have you"; "are you"; "will you"; "would you";
    "is it"; "are they"; "did you know" ]%string.

Section WithUnicode.

(** [str.lower], from the Unicode character database of the runtime. *)
Variable str_lower : pystr -> pystr.

Definition _is_sentence_boundary (text : pystr) : bool :=
  let text := strip text in
  endswith text (lit ".") || endswith text (lit "!") ||
  endswith text (lit "?") || endswith text (lit "...") ||
  Nat.ltb 10 (List.length (split_ws text)).

(** The state of the inner [while j < len(segments)] loop. *)
Record inner_state : Type := mkInner {
  clip_text : pystr;
  clip_segments : list TranscriptSegment;
  best_clip : option (Q * list TranscriptSegment * pystr)
    (* best_clip_end, best_clip_segments, best_clip_text *)
}.

Definition inner_init : inner_state := mkInner [] [] None.

(** The inner loop, over [segments[j:]]. *)
Fixpoint inner_loop (self : t) (clip_start : Q) (rest : list TranscriptSegment)
         (st : inner_state) : inner_state :=
  match rest with
  | [] => st
  | segment :: rest' =>
      let potential_duration := ts_end_time segment - clip_start in
      if qltb (max_length self) potential_duration then st   (* break *)
      else
        let clip_segments' := clip_segments st ++ [segment] in
        let clip_text' := clip_text st ++ lit " " ++ ts_text segment in
        if qleb (min_length self) potential_duration
           && _is_sentence_boundary (ts_text segment)
        then
          let best' :=
            match best_clip st with
            | None => Some (ts_end_time segment, clip_segments', strip clip_text')
            | Some (best_clip_end, _, _) =>
                if qltb (Qabs (potential_duration - target_length self))
                        (Qabs ((best_clip_end - clip_start) - target_length self))
                then Some (ts_end_time segment, clip_segments', strip clip_text')
                else best_clip st
            end in
          if qleb (target_length self) potential_duration
          then mkInner clip_text' clip_segments' best'   (* break *)
          else inner_loop self clip_start rest' (mkInner clip_text' clip_segments' best')
        else inner_loop self clip_start rest' (mkInner clip_text' clip_segments' (best_clip st))
  end.

(** The outer [while i < len(segments)] loop; [fuel] bounds the number of
    iterations ([i] grows by at least one each time). *)
Fixpoint outer_loop (self : t) (fuel : nat) (segments : list TranscriptSegment)
         (i : nat) : list VideoClip :=
  match fuel with
  | O => []
  | S fuel' =>
      match nth_error segments i with
      | None => []                                    (* i >= len(segments) *)
      | Some first =>
          let clip_start := ts_start_time first in
          let st := inner_loop self clip_start (skipn i segments) inner_init in
          match best_clip st with
          | Some (best_clip_end, best_clip_segments, best_clip_text) =>
              let clip := {|
                vc_start_time := clip_start;
                vc_end_time := best_clip_end;
                vc_duration := best_clip_end - clip_start;
                vc_transcript := best_clip_text;
                vc_viral_score := 0;
                vc_hook_keywords := [];
                vc_has_question := false;
                vc_emotion_score := 0;
                vc_length_bonus := 0;
                vc_segments := best_clip_segments |} in
              clip :: outer_loop self fuel' segments
                        (i + Nat.max 1 (Nat.div (List.length best_clip_segments) 2))
          | None => outer_loop self fuel' segments (i + 1)
          end
      end
  end.

Definition segment_transcript (self : t) (transcript_segments : list TranscriptSegment)
  : list VideoClip :=
  let segments := sorted_by ts_start_time transcript_segments in
  outer_loop self (List.length segments) segments 0.

Definition _detect_hook_keywords (text : pystr) : list pystr :=
  let text_lower := str_lower text in
  List.filter (fun keyword => contains text_lower keyword) HOOK_KEYWORDS.

Definition _detect_question_hook (text : pystr) : bool :=
  let text_lower := strip (str_lower text) in
  if List.existsb (fun starter => startswith text_lower starter) QUESTION_STARTERS
  then true
  else
    match split_on 46%N text with
    | first :: _ => contains first (lit "?")
    | [] => false
    end.

Definition label_in (label : pystr) (names : list string) : bool :=
  List.existsb (fun n => str_eqb label (lit n)) names.

Definition _analyze_emotion (self : t) (text : pystr) : Q :=
  match sentiment_analyzer self with
  | None => 0
  | Some analyzer =>
      let text := strip text in
      match text with
      | [] => 0
      | _ =>
          match analyzer text with
          | AnalyzerRaises => 0
          | AnalyzerList (ResultDict label score :: _) =>
              (* result.get('label', '').lower() and result.get('score', 0.0) *)
              let label := str_lower (default [] label) in
              let score := default 0 score in
              if label_in label ["positive"; "pos"]%string then qmin 1 (score * (12 # 10))
              else if label_in label ["negative"; "neg"]%string then qmin 1 (score * (13 # 10))
              else if label_in label ["neutral"]%string then score * (5 # 10)
              else score
          | AnalyzerList (ResultOther :: _) => 0    (* [result.get] raises; the handler gives 0.0 *)
          | AnalyzerList [] => 5 # 10
          | AnalyzerOther => 5 # 10
          end
      end
  end.

Definition _calculate_length_bonus (self : t) (duration : Q) : Q :=
  let target := target_length self in
  let tolerance := target * (1 # 10) in
  if qleb (Qabs (duration - target)) tolerance then 1 else 0.

(** Returns the clip with its analysis fields filled in (the source assigns
    them on the clip object) and the score. *)
Definition _calculate_viral_score (self : t) (clip : VideoClip) : VideoClip * Q :=
  let score := 0 in
  let hook_keywords := _detect_hook_keywords (vc_transcript clip) in
  let score := score + inject_Z (Z.of_nat (List.length hook_keywords) * 2) in
  let has_question := _detect_question_hook (vc_transcript clip) in
  let score := if has_question then score + 2 else score in
  let emotion_score := _analyze_emotion self (vc_transcript clip) in
  let score := score + emotion_score * 2 in
  let length_bonus := _calculate_length_bonus self (vc_duration clip) in
  let score := score + length_bonus in
  ({| vc_start_time := vc_start_time clip;
      vc_end_time := vc_end_time clip;
      vc_duration := vc_duration clip;
      vc_transcript := vc_transcript clip;
      vc_viral_score := vc_viral_score clip;
      vc_hook_keywords := hook_keywords;
      vc_has_question := has_question;
      vc_emotion_score := emotion_score;
      vc_length_bonus := length_bonus;
      vc_segments := vc_segments clip |}, score).

Definition set_viral_score (clip : VideoClip) (score : Q) : VideoClip :=
  {| vc_start_time := vc_start_time clip;
     vc_end_time := vc_end_time clip;
     vc_duration := vc_duration clip;
     vc_transcript := vc_transcript clip;
     vc_viral_score := score;
     vc_hook_keywords := vc_hook_keywords clip;
     vc_has_question := vc_has_question clip;
     vc_emotion_score := vc_emotion_score clip;
     vc_length_bonus := vc_length_bonus clip;
     vc_segments := vc_segments clip |}.

Definition score_clips (self : t) (clips : list VideoClip) : list VideoClip :=
  let scored :=
    List.map (fun clip => let '(clip', s) := _calculate_viral_score self clip in
                          set_viral_score clip' s) clips in
  sorted_by_reverse vc_viral_score scored.

(** [timedelta(seconds=s).total_seconds()]: the duration is kept in whole
    microseconds.  This is the value for the durations a [timedelta] can
    hold, which end below 86400 x 10^9 s; from there on the constructor
    raises [OverflowError]. *)
Definition timedelta_total_seconds (seconds : Q) : Q :=
  inject_Z (round_half_even (seconds * 1000000)) / 1000000.

(** [VideoClip._format_timestamp]: seconds to [HH:MM:SS]. *)
Definition _format_timestamp (seconds : Q) : pystr :=
  let total := timedelta_total_seconds seconds in
  let '(hours, remainder) := py_divmod total 3600 in
  let '(minutes, seconds) := py_divmod remainder 60 in
  format_d 2 (py_int hours) ++ lit ":" ++ format_d 2 (py_int minutes)
    ++ lit ":" ++ format_d 2 (py_int seconds).

(** The dictionary [VideoClip.to_dict] builds. *)
Record ClipDict : Type := mkClipDict {
  cd_start_time : pystr;
  cd_end_time : pystr;
  cd_duration : Q;
  cd_score : Q;
  cd_transcript : pystr;
  cd_segments : list TranscriptSegment;
  cd_hook_keywords : list pystr;
  cd_has_question : bool;
  cd_emotion_score : Q;
  cd_length_bonus : Q
}.

Definition to_dict (clip : VideoClip) : ClipDict :=
  {| cd_start_time := _format_timestamp (vc_start_time clip);
     cd_end_time := _format_timestamp (vc_end_time clip);
     cd_duration := py_round (vc_duration clip) 2;
     cd_score := py_round (vc_viral_score clip) 3;
     cd_transcript := strip (vc_transcript clip);
     cd_segments := vc_segments clip;
     cd_hook_keywords := vc_hook_keywords clip;
     cd_has_question := vc_has_question clip;
     cd_emotion_score := py_round (vc_emotion_score clip) 3;
     cd_length_bonus := vc_length_bonus clip |}.

Definition find_viral_clips (self : t) (transcript_segments : list TranscriptSegment)
           (top_n : Z) : list ClipDict :=
  let clips := segment_transcript self transcript_segments in
  let scored_clips := score_clips self clips in
  let top_clips := slice_to top_n scored_clips in
  List.map to_dict top_clips.

End WithUnicode.

Definition parse_whisper_segments (whisper_segments : list raw_segment)
  : list TranscriptSegment :=
  List.map (fun segment =>
    match segment with
    | SegObject s =>
        mkTranscriptSegment (sg_start s) (sg_end s) (strip (sg_text s)) 0 (Some segment)
    | SegDict d_start d_end d_text =>
        mkTranscriptSegment d_start d_end (strip d_text) 0 (Some segment)
    end) whisper_segments.

End HookDetector.

(** ** opus_processor.py: the timing side of the caption compiler *)

Module OpusProcessor.

Local Open Scope Q_scope.

(** [f"{s:05.2f}"] *)
Definition format_05_2f (s : Q) : pystr :=
  let cs := round_half_even (Qabs s * 100) in
  let body := digits (Z.to_N (cs / 100)) ++ lit "." ++ zfill 2 (digits (Z.to_N (cs mod 100))) in
  if qltb s 0 then 45%N :: zfill 4 body else zfill 5 body.

(** [format_time]: seconds to the subtitle time format [0:00:00.00]. *)
Definition format_time (seconds : Q) : pystr :=
  let '(m, s) := py_divmod seconds 60 in
  let '(h, m) := py_divmod m 60 in
  format_d 0 (py_int h) ++ lit ":" ++ format_d 2 (py_int m) ++ lit ":" ++ format_05_2f s.

(** [{'word': .., 'start': .., 'end': ..}] *)
Record word_info : Type := mkWordInfo {
  wi_word : pystr;
  wi_start : Q;
  wi_end : Q
}.

(** The estimated words of the fallback branch: the segment's duration is
    divided equally among the words of its text. *)
Fixpoint estimated_words (seg_start word_duration : Q) (i : nat) (words : list pystr)
  : list word_info :=
  match words with
  | [] => []
  | word :: words' =>
      let word_start := seg_start + inject_Z (Z.of_nat i) * word_duration in
      mkWordInfo word word_start (word_start + word_duration)
        :: estimated_words seg_start word_duration (S i) words'
  end.

Definition extract_word_timestamps (segment : raw_segment) : list word_info :=
  match segment with
  | SegObject s =>
      match sg_words s with
      | _ :: _ =>
          List.map (fun w => mkWordInfo (word_word w) (word_start w) (word_end w)) (sg_words s)
      | [] =>
          let words := split_ws (strip (sg_text s)) in
          match words with
          | [] => []
          | _ =>
              let segment_duration := sg_end s - sg_start s in
              let word_duration := segment_duration / inject_Z (Z.of_nat (List.length words)) in
              estimated_words (sg_start s) word_duration 0 words
          end
      end
  | SegDict _ _ _ => []      (* a dictionary has neither attribute *)
  end.

(** [all_words[i:i + chunk_size]] for [i] in [range(0, len(all_words), chunk_size)],
    for a positive [chunk_size]. *)
Fixpoint chunks_of {A : Type} (fuel : nat) (chunk_size : nat) (l : list A) : list (list A) :=
  match fuel, l with
  | _, [] => []
  | O, _ => []
  | S fuel', _ => firstn chunk_size l :: chunks_of fuel' chunk_size (skipn chunk_size l)
  end.

Definition chunk_words (segments : list raw_segment) (chunk_size : nat)
  : list (list word_info) :=
  let all_words :=
    List.concat (List.map (fun segment =>
      match segment with
      | SegDict d_start d_end d_text => [mkWordInfo d_text d_start d_end]
      | SegObject _ => extract_word_timestamps segment
      end) segments) in
  chunks_of (List.length all_words) chunk_size all_words.

(** One [Dialogue:] line of a script that shows one word per line: its
    start and end fields and the transcript word it is made for (the line
    shows the word stripped, in upper case, between override tags). *)
Record ass_event : Type := mkEvent {
  ev_start : pystr;
  ev_end : pystr;
  ev_word : pystr
}.

(** The [TikTokViral] recipe of [generate_karaoke_captions]: one event per
    word, in chunks of the template's [words_per_line] (4). *)
Definition tiktok_viral_events (segments : list raw_segment) : list ass_event :=
  let word_chunks := chunk_words segments 4 in
  List.concat (List.map (fun chunk =>
    List.map (fun wi =>
      mkEvent (format_time (wi_start wi)) (format_time (wi_end wi)) (wi_word wi)) chunk)
    word_chunks).

(** *** The times of the lines [generate_karaoke_captions] writes *)

Local Close Scope Q_scope.
Local Open Scope nat_scope.

(** The entries of a template of [OPUS_TEMPLATES] that decide how the words
    are cut into lines. *)
Record template : Type := mkTemplate {
  words_per_line : nat;
  random_chunking : bool;               (* template.get('random_chunking') *)
  min_words_per_line : option nat;
  max_words_per_line : option nat
}.

(** [self.templates]: [OPUS_TEMPLATES], where the second entry under the
    name PodcastPro replaces the first, with the BeastMode entry that
    [__init__] puts in. *)
Definition templates : list (string * template) :=
  [ ("OpusClipStyle", mkTemplate 3 false None None);
    ("SwipeUp", mkTemplate 3 false None None);
    ("Karaoke", mkTemplate 6 false None None);
    ("BeastMode", mkTemplate 2 false None None);
    ("TikTokViral", mkTemplate 4 false None None);
    ("PodcastPro", mkTemplate 5 false None None);
    ("GamerRage", mkTemplate 3 false None None);
    ("MinimalChic", mkTemplate 7 false None None);
    ("RetroWave", mkTemplate 4 false None None);
    ("NewsBreaking", mkTemplate 6 false None None);
    ("ComedyGold", mkTemplate 5 false None None);
    ("TechReview", mkTemplate 6 false None None);
    ("Glitch", mkTemplate 3 true (Some 1) (Some 3));
    ("Cinematic", mkTemplate 4 true (Some 2) (Some 4));
    ("ComicPop", mkTemplate 3 true (Some 1) (Some 3));
    ("NeonPulse", mkTemplate 4 true (Some 2) (Some 4));
    ("NeonSign", mkTemplate 4 true (Some 2) (Some 4));
    ("TypeWriter", mkTemplate 5 true (Some 4) (Some 6));
    ("BubblePop", mkTemplate 4 true (Some 3) (Some 5));
    ("BoldPop", mkTemplate 3 true (Some 1) (Some 3));
    ("BounceBox", mkTemplate 2 true (Some 1) (Some 2));
    ("HighlightSweep", mkTemplate 3 true (Some 2) (Some 3));
    ("CodeFlow", mkTemplate 4 true (Some 2) (Some 5));
    ("RageMode", mkTemplate 3 true (Some 1) (Some 4));
    ("HypeTrain", mkTemplate 4 true (Some 2) (Some 5));
    ("GlitchStreamer", mkTemplate 3 true (Some 1) (Some 4)) ]%string.

(** [self.templates.get(template_name)] *)
Definition templates_get (template_name : pystr) : option template :=
  match List.find (fun entry => str_eqb template_name (lit (fst entry))) templates with
  | Some (_, template) => Some template
  | None => None
  end.

(** The loop of [chunk_words_variable]: [draw k] is the size (3, 2 or 1)
    that [random.choices] gives in turn [k].  The fuel is the number of
    words, which is enough when [min_w] is positive. *)
Fixpoint variable_chunks (fuel : nat) (draw : nat -> nat) (k : nat) (prev_size : option nat)
         (min_w max_w : nat) (all_words : list word_info) : list (list word_info) :=
  match fuel, all_words with
  | _, [] => []
  | O, _ => []
  | S fuel', _ =>
      let size := draw k in
      let size :=
        match prev_size with
        | Some 1%nat => if Nat.eqb size 1 then 2%nat else size
        | _ => size
        end in
      let size := Nat.max min_w (Nat.min max_w size) in
      let chunk := firstn size all_words in
      let rest :=
        variable_chunks fuel' draw (S k) (Some size) min_w max_w (skipn size all_words) in
      match chunk with
      | [] => rest
      | _ => chunk :: rest
      end
  end.

Definition chunk_words_variable (draw : nat -> nat) (segments : list raw_segment)
           (min_w max_w : nat) : list (list word_info) :=
  let all_words := List.concat (List.map extract_word_timestamps segments) in
  variable_chunks (List.length all_words) draw 0 None min_w max_w all_words.

Local Close Scope nat_scope.
Local Open Scope Q_scope.

(** The [Start] and [End] fields of a [Dialogue:] line. *)
Definition line_times : Type := pystr * pystr.

Definition event_times (ev : ass_event) : line_times := (ev_start ev, ev_end ev).

(** One line per word, from the start of the word to its end. *)
Definition word_lines (chunk : list word_info) : list line_times :=
  List.map (fun word_info => (format_time (wi_start word_info), format_time (wi_end word_info)))
    chunk.

(** Karaoke: the transition lines of a chunk, one for every gap between a
    word and the next. *)
Fixpoint gap_lines (chunk : list word_info) : list line_times :=
  match chunk with
  | current_word :: (next_word :: _) as rest =>
      (if qltb (wi_end current_word) (wi_start next_word)
       then [(format_time (wi_end current_word), format_time (wi_start next_word))]
       else [])
        ++ gap_lines rest
  | _ => []
  end.

(** TypeWriter and BubblePop: a word is shown until the next word of the
    chunk starts, or the first word of the next chunk, or for half a second
    after its end when it is the last word. *)
Fixpoint until_next_lines (chunk : list word_info) (next_chunk_start : option Q)
  : list line_times :=
  match chunk with
  | [] => []
  | word_info :: rest =>
      let end_time :=
        match rest with
        | next_word :: _ => format_time (wi_start next_word - (1 # 100))
        | [] =>
            match next_chunk_start with
            | Some start => format_time (start - (1 # 100))
            | None => format_time (wi_end word_info + (1 # 2))
            end
        end in
      (format_time (wi_start word_info), end_time) :: until_next_lines rest next_chunk_start
  end.

Fixpoint until_next_events (word_chunks : list (list word_info)) : list line_times :=
  match word_chunks with
  | [] => []
  | chunk :: rest =>
      let next_chunk_start :=
        match rest with
        | (first_word :: _) :: _ => Some (wi_start first_word)
        | _ => None                  (* no next chunk; a chunk is never empty *)
        end in
      until_next_lines chunk next_chunk_start ++ until_next_events rest
  end.

(** GlitchStreamer: three lines per word (red, green and blue layer). *)
Definition rgb_lines (chunk : list word_info) : list line_times :=
  List.concat (List.map (fun word_info =>
    let times := (format_time (wi_start word_info), format_time (wi_end word_info)) in
    [times; times; times]) chunk).

(** OpusClipStyle and the templates without a recipe of their own: one line
    per chunk, from the start of its first word to the end of its last. *)
Definition chunk_line (chunk : list word_info) : list line_times :=
  match chunk with
  | [] => []                         (* a chunk is never empty *)
  | first_word :: _ =>
      [(format_time (wi_start first_word), format_time (wi_end (List.last chunk first_word)))]
  end.

Section WithRandom.

(** The sizes [random.choices] draws during one call. *)
Variable draw : nat -> nat.

(** The times of the [Dialogue:] lines of the script that
    [generate_karaoke_captions] returns, in the order of the script. *)
Definition generate_karaoke_captions (segments : list raw_segment) (template_name : pystr)
  : result (list line_times) :=
  match templates_get template_name with
  | None => Raise (ValueError (lit "Template '" ++ template_name ++ lit "' not found."))
  | Some template =>
      let named name := str_eqb template_name (lit name) in
      (* Default chunking *)
      let word_chunks := chunk_words segments (words_per_line template) in
      (* [chunk_words_variable] for a template with [random_chunking];
         otherwise the branch calls [chunk_words_by_line], which the class
         does not define *)
      let variable_or_by_line (min_default max_default : nat)
        : result (list (list word_info)) :=
        if random_chunking template
        then Return (chunk_words_variable draw segments
                       (default min_default (min_words_per_line template))
                       (default max_default (max_words_per_line template)))
        else Raise (AttributeError
                      (lit "'OpusProcessor' object has no attribute 'chunk_words_by_line'")) in
      let variable_or_fixed (min_default max_default : nat) : list (list word_info) :=
        if random_chunking template
        then chunk_words_variable draw segments
               (default min_default (min_words_per_line template))
               (default max_default (max_words_per_line template))
        else chunk_words segments (words_per_line template) in
      let per_word (chunks : result (list (list word_info))) : result (list line_times) :=
        match chunks with
        | Return word_chunks => Return (List.concat (List.map word_lines word_chunks))
        | Raise e => Raise e
        end in
      let until_next (chunks : result (list (list word_info))) : result (list line_times) :=
        match chunks with
        | Return word_chunks => Return (until_next_events word_chunks)
        | Raise e => Raise e
        end in
      if named "Karaoke"%string then
        Return (List.concat (List.map (fun chunk => word_lines chunk ++ gap_lines chunk)
                               word_chunks))
      else if named "Glitch"%string then
        per_word (Return (chunk_words segments (words_per_line template)))
      else if named "Cinematic"%string then per_word (variable_or_by_line 2%nat 4%nat)
      else if named "ComicPop"%string then per_word (variable_or_by_line 1%nat 3%nat)
      else if named "NeonPulse"%string then per_word (variable_or_by_line 2%nat 4%nat)
      else if named "TypeWriter"%string then until_next (variable_or_by_line 4%nat 6%nat)
      else if named "BubblePop"%string then until_next (variable_or_by_line 3%nat 5%nat)
      else if named "BoldPop"%string then per_word (variable_or_by_line 1%nat 3%nat)
      else if named "BounceBox"%string then per_word (variable_or_by_line 1%nat 2%nat)
      else if named "HighlightSweep"%string then per_word (variable_or_by_line 2%nat 3%nat)
      else if named "PodcastPro"%string then
        (* the chunks are cut from the segments themselves *)
        match segments with
        | [] => Return []
        | SegObject _ :: _ =>        (* chunk[0]['start'] *)
            Raise (TypeError (lit "'Segment' object is not subscriptable"))
        | SegDict _ _ _ :: _ =>      (* word['word'] *)
            Raise (KeyError (lit "'word'"))
        end
      else if named "CodeFlow"%string then
        per_word (Return (chunk_words segments (words_per_line template)))
      else if named "RageMode"%string then per_word (Return (variable_or_fixed 1%nat 4%nat))
      else if named "HypeTrain"%string then per_word (Return (variable_or_fixed 2%nat 5%nat))
      else if named "GlitchStreamer"%string then
        Return (List.concat (List.map rgb_lines (variable_or_fixed 1%nat 4%nat)))
      else if named "BeastMode"%string then
        per_word (Return (chunk_words segments (words_per_line template)))
      else if named "TikTokViral"%string then per_word (Return word_chunks)
      else if named "OpusClipStyle"%string then
        Return (List.concat (List.map chunk_line word_chunks))
      else
        Return (List.concat (List.map chunk_line word_chunks))
  end.

End WithRandom.

End OpusProcessor.

(** ** complete_viral_clip_generator.py: selection, cleanup of Hindi
       transcripts, and the timing of a clip's captions *)

Module CompleteViralClipGenerator.

Local Open Scope Q_scope.

Record t : Type := mk {
  hook_detector : HookDetector.t
}.

(** [video_duration_seconds], from the first and last transcript entries. *)
Definition video_duration_seconds (transcript_data : list raw_segment) : result Q :=
  match transcript_data with
  | [] => Return 600
  | first :: _ =>
      match List.last transcript_data first, first with
      | SegObject l, SegObject f => Return (sg_end l - sg_start f)
      | SegObject _, SegDict _ _ _ => Raise (AttributeError (lit "'dict' object has no attribute 'start'"))
      | SegDict _ d_end _, SegDict d_start _ _ => Return (d_end - d_start)
      | SegDict _ _ _, SegObject _ => Raise (TypeError (lit "'Segment' object is not subscriptable"))
      end
  end.

Definition smart_max_of (video_duration_minutes : Q) (theoretical_max : Z) : Z :=
  if qleb 20 video_duration_minutes then Z.min 10 theoretical_max
  else if qleb 10 video_duration_minutes then Z.min 8 theoretical_max
  else if qleb 5 video_duration_minutes then Z.min 5 theoretical_max
  else if qleb 2 video_duration_minutes then Z.min 3 theoretical_max
  else Z.min 2 theoretical_max.

Section WithUnicode.

Variable str_lower : pystr -> pystr.

Definition _find_viral_moments (self : t) (transcript_data : list raw_segment)
           (max_clips : Z) (min_score : Q) (min_length max_length : Q)
  : result (list HookDetector.ClipDict) :=
  let segments := HookDetector.parse_whisper_segments transcript_data in
  let all_viral_clips :=
    HookDetector.find_viral_clips str_lower (hook_detector self) segments (max_clips * 3) in
  match video_duration_seconds transcript_data with
  | Raise e => Raise e
  | Return video_duration_seconds =>
      let video_duration_minutes := video_duration_seconds / 60 in
      let average_clip_length := (min_length + max_length) / 2 in
      if Qeq_bool average_clip_length 0
      then Raise (ZeroDivisionError (lit "float division by zero"))
      else
        let theoretical_max := py_int (video_duration_seconds / average_clip_length) in
        let smart_max := smart_max_of video_duration_minutes theoretical_max in
        let actual_clips_to_return :=
          Z.min (Z.min max_clips smart_max) (Z.of_nat (List.length all_viral_clips)) in
        let top_clips :=
          slice_to actual_clips_to_return
            (sorted_by_reverse HookDetector.cd_score all_viral_clips) in
        Return top_clips
  end.

End WithUnicode.

Definition _parse_timestamp (timestamp_str : pystr) : result Z :=
  match split_on 58%N timestamp_str with
  | p0 :: p1 :: p2 :: _ =>
      match int_of_str p0 with
      | Raise e => Raise e
      | Return hours =>
          match int_of_str p1 with
          | Raise e => Raise e
          | Return minutes =>
              match int_of_str p2 with
              | Raise e => Raise e
              | Return seconds => Return (hours * 3600 + minutes * 60 + seconds)%Z
              end
          end
      end
  | [p0] => match int_of_str p0 with
            | Raise e => Raise e
            | Return _ => Raise (IndexError (lit "list index out of range"))
            end
  | [p0; p1] =>
      match int_of_str p0 with
      | Raise e => Raise e
      | Return _ =>
          match int_of_str p1 with
          | Raise e => Raise e
          | Return _ => Raise (IndexError (lit "list index out of range"))
          end
      end
  | [] => Raise (IndexError (lit "list index out of range"))
  end.

(** The local predicate of [_clean_hindi_segment]. *)
Definition is_devanagari_or_allowed (code : N) : bool :=
  (* Arabic / Urdu *)
  if ((0x0600 <=? code) && (code <=? 0x06FF))%N then false
  (* Hangul syllables and Jamo *)
  else if ((0xAC00 <=? code) && (code <=? 0xD7AF) || (0x1100 <=? code) && (code <=? 0x11FF))%N
  then false
  (* CJK *)
  else if ((0x4E00 <=? code) && (code <=? 0x9FFF))%N then false
  (* Latin letters *)
  else if ((0x0041 <=? code) && (code <=? 0x005A) || (0x0061 <=? code) && (code <=? 0x007A))%N
  then false
  (* Devanagari *)
  else if ((0x0900 <=? code) && (code <=? 0x097F))%N then true
  (* [char in ' .,!?' + danda + double danda + '0123456789'] *)
  else if List.existsb (N.eqb code)
            ([0x0964; 0x0965]%N ++ lit " .,!?0123456789")
  then true
  else false.

(** [re.sub(r'\s+', ' ', s)] *)
Fixpoint collapse_ws (in_run : bool) (s : pystr) : pystr :=
  match s with
  | [] => []
  | c :: s' =>
      if is_space c
      then if in_run then collapse_ws true s' else 32%N :: collapse_ws true s'
      else c :: collapse_ws false s'
  end.

(** The loop over [cleaned_segment.words]. *)
Fixpoint clean_words (words : list Word) : list Word :=
  match words with
  | [] => []
  | word :: words' =>
      let original_word := word_word word in
      let cleaned_word_text := strip (List.filter is_devanagari_or_allowed original_word) in
      match cleaned_word_text with
      | [] => clean_words words'
      | _ => mkWord cleaned_word_text (word_start word) (word_end word) :: clean_words words'
      end
  end.

Definition _clean_hindi_segment (segment : Segment) : Segment :=
  let original_text := sg_text segment in
  let cleaned_text := List.filter is_devanagari_or_allowed original_text in
  let cleaned_text := strip (collapse_ws false cleaned_text) in
  let text := match cleaned_text with [] => original_text | _ => cleaned_text end in
  let words := match sg_words segment with
               | [] => []
               | ws => clean_words ws
               end in
  mkSegment (sg_start segment) (sg_end segment) text words.

(** Step 3 of [_process_complete_clip], first branch: copies of the
    original segments, shifted so that the clip starts at 0. *)
Definition shift_word (start_time : Q) (word : Word) : Word :=
  mkWord (word_word word) (word_start word - start_time) (word_end word - start_time).

Fixpoint adjusted_caption_segments (start_time : Q) (clip_segments : list TranscriptSegment)
  : list raw_segment :=
  match clip_segments with
  | [] => []
  | seg :: rest =>
      match ts_original_segment seg with
      | Some (SegObject o) =>
          SegObject (mkSegment (sg_start o - start_time) (sg_end o - start_time) (sg_text o)
                       (List.map (shift_word start_time) (sg_words o)))
            :: adjusted_caption_segments start_time rest
      | Some (SegDict d_start d_end d_text) =>        (* no attribute [start]: appended as it is *)
          SegDict d_start d_end d_text :: adjusted_caption_segments start_time rest
      | None => adjusted_caption_segments start_time rest
      end
  end.

(** Step 3, fallback branch: one dictionary per word of the transcript text,
    evenly spread over the clip. *)
Fixpoint fallback_caption_segments (words_per_second : Q) (i : nat) (words : list pystr)
  : list raw_segment :=
  match words with
  | [] => []
  | word :: words' =>
      SegDict (inject_Z (Z.of_nat i) / words_per_second)
              (inject_Z (Z.of_nat (i + 1)) / words_per_second) word
        :: fallback_caption_segments words_per_second (S i) words'
  end.

Definition caption_segments_of (start_time end_time : Q) (transcript_text : pystr)
           (clip_segments : list TranscriptSegment) : list raw_segment :=
  let duration := end_time - start_time in
  match clip_segments with
  | _ :: _ => adjusted_caption_segments start_time clip_segments
  | [] =>
      let words := split_ws transcript_text in
      let words_per_second :=
        if qltb 0 duration then inject_Z (Z.of_nat (List.length words)) / duration else 1 in
      fallback_caption_segments words_per_second 0 words
  end.

(** The times of the caption lines of one selected clip, as
    [_generate_complete_clips] and [_process_complete_clip] compute them
    when the captions are kept in the language of the transcript: the
    clip's [start_time] and [end_time] strings are parsed back, the segments
    shifted, and the script compiled with the caller's template; [draw]
    gives the line sizes that are drawn at random. *)
Definition clip_caption_events (draw : nat -> nat) (clip : HookDetector.ClipDict)
           (template : pystr) : result (list OpusProcessor.line_times) :=
  match _parse_timestamp (HookDetector.cd_start_time clip) with
  | Raise e => Raise e
  | Return start_time =>
      match _parse_timestamp (HookDetector.cd_end_time clip) with
      | Raise e => Raise e
      | Return end_time =>
          let caption_segments :=
            caption_segments_of (inject_Z start_time) (inject_Z end_time)
              (HookDetector.cd_transcript clip) (HookDetector.cd_segments clip) in
          OpusProcessor.generate_karaoke_captions draw caption_segments template
      end
  end.

End CompleteViralClipGenerator.

(** ** face_detection.py *)

Module FaceDetector.

Local Open Scope Q_scope.

(** One detection of the face model: the relative bounding box and the
    confidence [detection.score[0]]. *)
Record detection : Type := mkDetection {
  bbox_xmin : Q;
  bbox_ymin : Q;
  bbox_width : Q;
  bbox_height : Q;
  det_score : Q
}.

(** A decoded frame with what the face model answers on it ([None]: the
    model call raises on this frame). *)
Record frame : Type := mkFrame {
  fr_h : Z;
  fr_w : Z;
  fr_detections : option (list detection)
}.

(** What [cv2.VideoCapture(video_path)] finds: [None] when the capture
    cannot be opened, otherwise the frames it will read. *)
Definition video : Type := option (list frame).

Record face : Type := mkFace {
  center : Z * Z;
  size : Q;
  confidence : Q;
  prominence : Q
}.

Definition face_of (fr : frame) (d : detection) : face :=
  let face_x := py_int ((bbox_xmin d + bbox_width d / 2) * inject_Z (fr_w fr)) in
  let face_y := py_int ((bbox_ymin d + bbox_height d / 2) * inject_Z (fr_h fr)) in
  let face_size := bbox_width d * bbox_height d in
  let conf := det_score d in
  mkFace (face_x, face_y) face_size conf (face_size * conf).

(** The sampling loop: frames are read while [frame_count < 300]; every
    30th frame is given to the face model. *)
Fixpoint sample_loop (frames : list frame) (frame_count : nat) (face_centers : list face)
  : result (list face) :=
  if Nat.leb 300 frame_count then Return face_centers
  else
    match frames with
    | [] => Return face_centers                       (* ret is False *)
    | fr :: frames' =>
        if Nat.eqb (Nat.modulo frame_count 30) 0
        then match fr_detections fr with
             | None => Raise (Exception (lit "face detection failed"))
             | Some ds =>
                 sample_loop frames' (S frame_count)
                   (face_centers ++ List.map (face_of fr) ds)
             end
        else sample_loop frames' (S frame_count) face_centers
    end.

(** [max(faces, key=lambda f: f['prominence'])]: the first maximal one. *)
Fixpoint max_by_prominence (best : face) (faces : list face) : face :=
  match faces with
  | [] => best
  | f :: faces' =>
      max_by_prominence (if qltb (prominence best) (prominence f) then f else best) faces'
  end.

(** [int(np.mean(xs))]; the mean of no values is NaN, which [int] refuses. *)
Definition int_mean (xs : list Z) : result Z :=
  match xs with
  | [] => Raise (ValueError (lit "cannot convert float NaN to integer"))
  | _ =>
      Return (py_int (inject_Z (List.fold_right Z.add 0%Z xs)
                      / inject_Z (Z.of_nat (List.length xs))))
  end.

Definition select_target_faces (prefer_left_side : bool) (segment_time : option Q)
           (face_centers left_faces right_faces : list face) : list face :=
  let by_preference :=
    if prefer_left_side && negb (Nat.eqb (List.length left_faces) 0) then left_faces
    else if negb prefer_left_side && negb (Nat.eqb (List.length right_faces) 0) then right_faces
    else face_centers in
  match segment_time with
  | Some t =>
      let current_speaker := (Qfloor (t / 10) mod 2)%Z in
      if (current_speaker =? 0)%Z && negb (Nat.eqb (List.length left_faces) 0) then left_faces
      else if (current_speaker =? 1)%Z && negb (Nat.eqb (List.length right_faces) 0)
      then right_faces
      else by_preference
  | None => by_preference
  end.

Definition detect_face_center (v : video) (prefer_left_side : bool)
           (segment_time : option Q) : result (Z * Z) :=
  match v with
  | None => Raise (ValueError (lit "Could not open video"))
  | Some frames =>
      match sample_loop frames 0 [] with
      | Raise e => Raise e
      | Return [] =>
          (* no faces detected: the centre of the first frame *)
          match frames with
          | fr :: _ => Return ((fr_w fr / 2)%Z, (fr_h fr / 2)%Z)
          | [] => Raise (ValueError (lit "Could not read video frames"))
          end
      | Return face_centers =>
          let frame_width :=
            match frames with
            | fr :: _ => fr_w fr
            | [] => 1080%Z
            end in
          let half := inject_Z frame_width * (5 # 10) in
          let left_faces :=
            List.filter (fun f => qltb (inject_Z (fst (center f))) half) face_centers in
          let right_faces :=
            List.filter (fun f => qleb half (inject_Z (fst (center f)))) face_centers in
          let target_faces :=
            select_target_faces prefer_left_side segment_time face_centers left_faces right_faces in
          match target_faces with
          | [] => Raise (ValueError (lit "max() arg is an empty sequence"))
          | f0 :: fs =>
              let best_face := max_by_prominence f0 fs in
              let similar_faces :=
                List.filter (fun f => qltb (prominence best_face * (5 # 10)) (prominence f))
                  target_faces in
              match int_mean (List.map (fun f => fst (center f)) similar_faces) with
              | Raise e => Raise e
              | Return avg_x =>
                  match int_mean (List.map (fun f => snd (center f)) similar_faces) with
                  | Raise e => Raise e
                  | Return avg_y => Return (avg_x, avg_y)
                  end
              end
          end
      end
  end.

End FaceDetector.

(** ** queue_manager.py and app.py: what a submission puts on the queue *)

(** The parameters of [processing.run_opus_transcription]. *)
Record run_params : Type := mkRunParams {
  p_youtube_url : pyval;
  p_opus_template : pyval;
  p_clip_duration : pyval;
  p_exports_dir : pyval;
  p_original_filename : pyval;
  p_layout_mode : pyval;
  p_timeframe_start : pyval;
  p_timeframe_end : pyval;
  p_min_clip_length : pyval;
  p_max_clip_length : pyval;
  p_target_clip_length : pyval
}.

Module QueueManager.

(** What [q.enqueue] stores for a job. *)
Record job : Type := mkJob {
  job_id : pyval;
  job_args : list pyval;
  job_kwargs : gmap string pyval
}.

(** [kwargs.get(key, default)] *)
Definition kwargs_get (kwargs : gmap string pyval) (key : string) (default : pyval) : pyval :=
  match kwargs !! key with
  | Some v => v
  | None => default
  end.

Section WithQueue.

(** [q.enqueue(func, args=.., job_id=.., job_timeout=..)] on the queue of
    the module: [None] when rq stores the job, otherwise the exception it
    raises (Redis cannot be reached, or rq refuses the job id). *)
Variable q_enqueue : job -> option exn.

Definition enqueue_processing_job (kwargs : gmap string pyval) : result job :=
  (* job_id = kwargs.pop('job_id', None) *)
  let job_id := kwargs_get kwargs "job_id" PyNone in
  let kwargs := delete "job_id" kwargs in
  let job :=
    {| job_id := job_id;
       job_args := [ kwargs_get kwargs "youtube_url" PyNone;
                     kwargs_get kwargs "opus_template" PyNone;
                     kwargs_get kwargs "clip_duration" PyNone;
                     kwargs_get kwargs "exports_dir" PyNone;
                     kwargs_get kwargs "original_filename" PyNone;
                     kwargs_get kwargs "layout" (PyStr (lit "fit")) ];
       job_kwargs := ∅ |} in
  match q_enqueue job with
  | None => Return job
  | Some e => Raise e
  end.

End WithQueue.

(** How the worker's call of the job's function on [job.args] and [job.kwargs] binds the
    parameters of [run_opus_transcription]: positional arguments in order,
    then keywords, then the defaults of the signature. *)
Definition param_names : list string :=
  [ "youtube_url"; "opus_template"; "clip_duration"; "exports_dir"; "original_filename";
    "layout_mode"; "timeframe_start"; "timeframe_end"; "min_clip_length";
    "max_clip_length"; "target_clip_length" ]%string.

Definition param_default (name : string) : option pyval :=
  if String.eqb name "original_filename" then Some PyNone
  else if String.eqb name "layout_mode" then Some (PyStr (lit "auto"))
  else if String.eqb name "timeframe_start" then Some PyNone
  else if String.eqb name "timeframe_end" then Some PyNone
  else if String.eqb name "min_clip_length" then Some (PyInt 30)
  else if String.eqb name "max_clip_length" then Some (PyInt 90)
  else if String.eqb name "target_clip_length" then Some (PyInt 60)
  else None.

Fixpoint bind_params (names : list string) (args : list pyval) (kwargs : gmap string pyval)
  : result (list pyval) :=
  match names with
  | [] =>
      match args with
      | [] => Return []
      | _ => Raise (TypeError (lit "too many positional arguments"))
      end
  | name :: names' =>
      match args with
      | a :: args' =>
          match kwargs !! name with
          | Some _ => Raise (TypeError (lit "got multiple values for argument"))
          | None =>
              match bind_params names' args' kwargs with
              | Raise e => Raise e
              | Return vs => Return (a :: vs)
              end
          end
      | [] =>
          match kwargs !! name, param_default name with
          | Some v, _ | None, Some v =>
              match bind_params names' [] kwargs with
              | Raise e => Raise e
              | Return vs => Return (v :: vs)
              end
          | None, None => Raise (TypeError (lit "missing a required positional argument"))
          end
      end
  end.

Definition worker_call (j : job) : result run_params :=
  if List.forallb (fun key => List.existsb (String.eqb key) param_names)
       (List.map fst (map_to_list (job_kwargs j)))
  then
    match bind_params param_names (job_args j) (job_kwargs j) with
    | Raise e => Raise e
    | Return [a0; a1; a2; a3; a4; a5; a6; a7; a8; a9; a10] =>
        Return (mkRunParams a0 a1 a2 a3 a4 a5 a6 a7 a8 a9 a10)
    | Return _ => Raise (TypeError (lit "wrong number of parameters"))
    end
  else Raise (TypeError (lit "got an unexpected keyword argument")).

End QueueManager.

Module App.

(** A response of the endpoint: the status code and, with 200, the job; with
    400, the error text; with 500, the exception whose text is sent as the
    details of "Failed to create job". *)
Inductive response : Type :=
| Ok200 (j : QueueManager.job)
| Error400 (msg : pystr)
| Error500 (cause : exn).

Definition EXPORTS_DIR : pystr := lit "exports".

(** [int(s) if s else default] *)
Definition int_field (field : option pystr) (default : pyval) : result pyval :=
  match field with
  | None | Some [] => Return default
  | Some s =>
      match int_of_str s with
      | Return z => Return (PyInt z)
      | Raise e => Raise e
      end
  end.

Definition truthy (field : option pystr) : bool :=
  match field with
  | None | Some [] => false
  | Some _ => true
  end.

Definition str_or_none (field : option pystr) : pyval :=
  match field with
  | None => PyNone
  | Some s => PyStr s
  end.

Section WithJson.

(** [json.loads]: [None] when the text is not a JSON document. *)
Variable json_loads : pystr -> option pyval.

(** [q.enqueue] of queue_manager.py: the exception it raises, if any. *)
Variable q_enqueue : QueueManager.job -> option exn.

(** [create_job_endpoint], on the submitted form fields. *)
Definition create_job_endpoint (form : gmap string pystr) : response :=
  let job_id := form !! "job_id" in
  let youtube_url := form !! "youtube_url" in
  let video_url := form !! "video_url" in
  let opus_template_str := form !! "opus_template" in
  let clip_duration_str := form !! "clip_duration" in
  let original_filename := form !! "original_filename" in
  let layout := default (lit "fit") (form !! "layout") in
  let timeframe_start_str := form !! "timeframe_start" in
  let timeframe_end_str := form !! "timeframe_end" in
  let min_clip_length_str := form !! "min_clip_length" in
  let max_clip_length_str := form !! "max_clip_length" in
  let target_clip_length_str := form !! "target_clip_length" in
  if negb (truthy job_id) then Error400 (lit "job_id is required")
  else if negb (truthy youtube_url) && negb (truthy video_url)
  then Error400 (lit "youtube_url or video_url is required")
  else if negb (truthy opus_template_str) then Error400 (lit "opus_template is required")
  else
    match json_loads (default [] opus_template_str),
          int_field clip_duration_str (PyInt 30),
          int_field timeframe_start_str PyNone,
          int_field timeframe_end_str PyNone,
          int_field min_clip_length_str (PyInt 30),
          int_field max_clip_length_str (PyInt 90),
          int_field target_clip_length_str (PyInt 60) with
    | Some opus_template, Return clip_duration, Return timeframe_start, Return timeframe_end,
      Return min_clip_length, Return max_clip_length, Return target_clip_length =>
        let kwargs : gmap string pyval :=
          <["job_id" := str_or_none job_id]>
          (<["youtube_url" := str_or_none (if truthy youtube_url then youtube_url else video_url)]>
          (<["opus_template" := opus_template]>
          (<["clip_duration" := clip_duration]>
          (<["exports_dir" := PyStr EXPORTS_DIR]>
          (<["original_filename" := str_or_none original_filename]>
          (<["layout" := PyStr layout]>
          (<["timeframe_start" := timeframe_start]>
          (<["timeframe_end" := timeframe_end]>
          (<["min_clip_length" := min_clip_length]>
          (<["max_clip_length" := max_clip_length]>
          (<["target_clip_length" := target_clip_length]> ∅))))))))))) in
        match QueueManager.enqueue_processing_job q_enqueue kwargs with
        | Return job => Ok200 job
        | Raise e => Error500 e
        end
    | _, _, _, _, _, _, _ => Error400 (lit "Invalid template or duration")
    end.

End WithJson.

End App.

(** ** The world of a worker: files on disk, child processes, progress *)

Module World.

Record world : Type := mkWorld {
  fs : gset pystr;                    (* the paths that exist *)
  spawned : list pystr;               (* child processes started, oldest first *)
  progress : list (Z * pystr)         (* progress updates, oldest first *)
}.

Definition empty_world : world := mkWorld ∅ [] [].

(** A computation that reads and changes the world and may raise. *)
Definition M (A : Type) : Type := world -> result A * world.

Definition ret {A : Type} (v : A) : M A := fun w => (Return v, w).

Definition raise {A : Type} (e : exn) : M A := fun w => (Raise e, w).

Definition bind {A B : Type} (m : M A) (k : A -> M B) : M B :=
  fun w =>
    match m w with
    | (Return v, w') => k v w'
    | (Raise e, w') => (Raise e, w')
    end.

(** [try: m  except Exception as e: handler(e)] *)
Definition try_except {A : Type} (m : M A) (handler : exn -> M A) : M A :=
  fun w =>
    match m w with
    | (Return v, w') => (Return v, w')
    | (Raise e, w') => handler e w'
    end.

(** [try: m  finally: fin] *)
Definition try_finally {A : Type} (m : M A) (fin : M unit) : M A :=
  fun w =>
    match m w with
    | (r, w') =>
        match fin w' with
        | (Return _, w'') => (r, w'')
        | (Raise e, w'') => (Raise e, w'')
        end
    end.

Declare Scope world_scope.
Delimit Scope world_scope with W.
Notation "x <- m ;; k" := (bind m (fun x => k))
  (at level 100, m at next level, right associativity) : world_scope.
Notation "m ;;; k" := (bind m (fun _ => k))
  (at level 100, right associativity) : world_scope.

(** [os.path.join(a, b)] *)
Definition path_join (a b : pystr) : pystr := a ++ lit "/" ++ b.

(** [p] is [dir] or lies below it. *)
Definition under (dir p : pystr) : bool :=
  str_eqb p dir || startswith p (dir ++ lit "/").

Definition exists_path (p : pystr) : M bool :=
  fun w => (Return (bool_decide (p ∈ fs w)), w).

(** A file (or directory) comes into being. *)
Definition create (p : pystr) : M unit :=
  fun w => (Return tt, mkWorld ({[ p ]} ∪ fs w) (spawned w) (progress w)).

Fixpoint create_all (ps : list pystr) : M unit :=
  match ps with
  | [] => ret tt
  | p :: ps' => bind (create p) (fun _ => create_all ps')
  end.

(** [os.remove(p)] of an existing file. *)
Definition remove (p : pystr) : M unit :=
  fun w => (Return tt, mkWorld (fs w ∖ {[ p ]}) (spawned w) (progress w)).

(** [shutil.rmtree(dir, ignore_errors=True)] *)
Definition rmtree (dir : pystr) : M unit :=
  fun w => (Return tt,
            mkWorld (filter (fun p => under dir p = false) (fs w)) (spawned w) (progress w)).

(** A child process is started. *)
Definition spawn (program : pystr) : M unit :=
  fun w => (Return tt, mkWorld (fs w) (spawned w ++ [program]) (progress w)).

Definition update_job_progress (percentage : Z) (stage : pystr) : M unit :=
  fun w => (Return tt, mkWorld (fs w) (spawned w) (progress w ++ [(percentage, stage)])).

(** What a run of an external program did: its exit status, its error
    output, and whether it wrote its output file. *)
Record proc_result : Type := mkProc {
  returncode_ok : bool;
  stderr : pystr;
  wrote_output : bool
}.

(** [subprocess.run(cmd)] of a program whose output file is [out]. *)
Definition run_process (program : pystr) (r : proc_result) (out : pystr) : M proc_result :=
  (spawn program ;;;
   (if wrote_output r then create out else ret tt) ;;;
   ret r)%W.

(** [subprocess.run(cmd, check=True)] *)
Definition run_process_checked (program : pystr) (r : proc_result) (out : pystr) : M unit :=
  (r' <- run_process program r out ;;
   if returncode_ok r' then ret tt else raise (CalledProcessError (stderr r')))%W.

End World.

(** ** processing.py: the download step and the job function *)

Module ProcessingJob.
Import World Processing.

(** A run of the downloader: it exits (with the files it left behind,
    given by their suffixes after [downloaded_video_<session>]) or it is
    killed at the timeout. *)
Inductive ytdlp_outcome : Type :=
| YtExit (r : proc_result) (files : list pystr)
| YtTimeout (files : list pystr).

(** What the environment of one job run answers. *)
Record toolchain : Type := mkToolchain {
  tc_temp_dir : pystr;                    (* tempfile.mkdtemp() *)
  tc_session_id : pystr;                  (* str(uuid.uuid4()) *)
  tc_time : N;                            (* int(time.time()) *)
  tc_yt_dlp : ytdlp_outcome;
  tc_extract_audio : proc_result;
  tc_transcribe : option (list Segment);  (* None: the recogniser raises *)
  tc_layout : proc_result;                (* process_video_for_vertical *)
  tc_template_name : pystr;               (* the name of the decoded template *)
  tc_captions : option pystr;             (* generate_karaoke_captions; None: it raises *)
  tc_burn : proc_result;
  tc_fallback : proc_result;
  tc_ffprobe_duration : option Q          (* None: ffprobe fails *)
}.

(** [(?:v=|/)([a-zA-Z0-9_-]{11})] *)
Definition video_id_search : regex :=
  Cat (Alt (Lit (lit "v=")) (Lit (lit "/"))) video_id_group.

Definition download_youtube_video (tc : toolchain) (url : pyval) (temp_dir : pystr)
  : M (pystr * pystr) :=
  let '(is_valid, validation_error) := validate_youtube_url url in
  if negb is_valid
  then raise (ValueError (lit "Invalid YouTube URL: " ++ validation_error
                          ++ lit ". URL: " ++ py_str url))
  else
    let base := lit "downloaded_video_" ++ tc_session_id tc in
    let left_behind files := create_all (List.map (fun f => path_join temp_dir (base ++ f)) files) in
    try_except
      (match tc_yt_dlp tc with
       | YtTimeout files =>
           (spawn (lit "yt-dlp") ;;; left_behind files ;;; raise TimeoutExpired)%W
       | YtExit r files =>
           (spawn (lit "yt-dlp") ;;; left_behind files ;;;
            if returncode_ok r
            then
              match files with
              | [] => raise (FileNotFoundError (lit "yt-dlp success but file not found."))
              | f :: _ =>
                  let downloaded_path := path_join temp_dir (base ++ f) in
                  let original_filename :=
                    match url with
                    | PyStr u =>
                        match re_search video_id_search u with
                        | Some video_id => lit "youtube_" ++ video_id
                        | None => lit "youtube_video"
                        end
                    | _ => lit "youtube_video"
                    end in
                  ret (downloaded_path, original_filename)
              end
            else raise (CalledProcessError (stderr r)))%W
       end)
      (fun e =>
         match e with
         | CalledProcessError _ => raise (Exception (lit "YouTube download failed"))
         | TimeoutExpired => raise (Exception (lit "YouTube download timed out."))
         | _ => raise e
         end).

(** The timeframe filter on the transcribed segments. *)
Definition timeframe_filter (timeframe_start timeframe_end : pyval) (segments : list Segment)
  : result (list Segment) :=
  match timeframe_start, timeframe_end with
  | PyNone, _ | _, PyNone => Return segments
  | PyInt a, PyInt b =>
      Return (List.filter (fun seg => qleb (inject_Z a) (sg_end seg)
                                      && qleb (sg_start seg) (inject_Z b)) segments)
  | _, _ => Raise (TypeError (lit "'>=' not supported between instances"))
  end.

Definition lift {A : Type} (r : result A) : M A :=
  match r with
  | Return v => ret v
  | Raise e => raise e
  end.

Section WithUnicode.

Variable str_lower : pystr -> pystr.

Definition lower_of (v : pyval) : M pystr :=
  match v with
  | PyStr s => ret (str_lower s)
  | _ => raise (AttributeError (lit "object has no attribute 'lower'"))
  end.

Definition path_of (v : pyval) : M pystr :=
  match v with
  | PyStr s => ret s
  | _ => raise (TypeError (lit "expected str, bytes or os.PathLike object"))
  end.

(** [s.replace(' ', '_')] *)
Definition spaces_to_underscores (s : pystr) : pystr :=
  List.map (fun c => if N.eqb c 32 then 95%N else c) s.

(** The subtitle-burning block: [try: .. except CalledProcessError: ..
    finally: ..]. *)
Definition burn_subtitles (tc : toolchain) (abs_final_export_path simple_ass_path : pystr)
  : M unit :=
  try_finally
    (try_except
       (run_process_checked (lit "ffmpeg") (tc_burn tc) abs_final_export_path ;;;
        found <- exists_path abs_final_export_path ;;
        if found
        then update_job_progress 85 (lit "Video Processing Complete")
        else raise (FileNotFoundError (lit "Expected output file not found after 3 attempts")))%W
       (fun e =>
          match e with
          | CalledProcessError err =>
              if contains err (lit "No space left on device")
              then raise (RuntimeError (lit "Disk space full - cannot complete video processing"))
              else
                (run_process_checked (lit "ffmpeg") (tc_fallback tc) abs_final_export_path ;;;
                 update_job_progress 85 (lit "Video Processing Complete"))%W
          | _ => raise e
          end))
    (found <- exists_path simple_ass_path ;;
     if found then remove simple_ass_path else ret tt)%W.

(** [run_opus_transcription]: the function the background worker executes.
    It returns the name of the exported file and its duration. *)
Definition run_opus_transcription (tc : toolchain) (p : run_params) : M (pystr * Q) :=
  (let temp_dir := tc_temp_dir tc in
   create temp_dir ;;;
   try_finally
     (try_except
        (update_job_progress 5 (lit "Downloading") ;;;
         dl <- download_youtube_video tc (p_youtube_url p) temp_dir ;;
         let '(original_file_path, original_filename) := dl in
         update_job_progress 15 (lit "Download Complete") ;;;
         let extracted_audio_path := path_join temp_dir (lit "extracted_audio.wav") in
         let ass_file_path := path_join temp_dir (lit "opus_subtitles.ass") in
         update_job_progress 20 (lit "Audio Extraction") ;;;
         run_process_checked (lit "ffmpeg") (tc_extract_audio tc) extracted_audio_path ;;;
         update_job_progress 30 (lit "Audio Extraction Complete") ;;;
         update_job_progress 35 (lit "Transcription") ;;;
         transcription_segments <-
           match tc_transcribe tc with
           | Some segments => ret segments
           | None => raise (RuntimeError (lit "transcription failed"))
           end ;;
         transcription_segments <-
           lift (timeframe_filter (p_timeframe_start p) (p_timeframe_end p)
                   transcription_segments) ;;
         update_job_progress 60 (lit "Transcription Complete") ;;;
         layout <- lower_of (p_layout_mode p) ;;
         processed_video_path <-
           (if str_eqb layout (lit "auto") then ret original_file_path
            else
              update_job_progress 45 (lit "Video Layout Processing") ;;;
              let processed := path_join temp_dir
                                 (lit "layout_processed_" ++ default [] (match p_layout_mode p with
                                                                          | PyStr s => Some s
                                                                          | _ => None
                                                                          end) ++ lit ".mp4") in
              r <- run_process (lit "ffmpeg") (tc_layout tc) processed ;;
              if returncode_ok r
              then update_job_progress 55 (lit "Video Layout Complete") ;;; ret processed
              else raise (Exception (lit "Video layout processing failed"))) ;;
         spawn (lit "ffprobe") ;;;                      (* get_video_dimensions *)
         update_job_progress 65 (lit "Subtitle Generation") ;;;
         ass_content <-
           match tc_captions tc with
           | Some content => ret content
           | None => raise (ValueError (lit "Template not found."))
           end ;;
         create ass_file_path ;;;
         update_job_progress 70 (lit "Subtitle Generation Complete") ;;;
         let template_name := tc_template_name tc in
         let base_name := lit "processed_" ++ original_filename in
         let timestamp := digits (tc_time tc) in
         let final_export_filename :=
           base_name ++ lit "_opus_" ++ spaces_to_underscores (str_lower template_name)
             ++ lit "_" ++ timestamp ++ lit ".mp4" in
         exports_dir <- path_of (p_exports_dir p) ;;
         let final_export_path := path_join exports_dir final_export_filename in
         create exports_dir ;;;
         let simple_ass_name := lit "temp_subs_" ++ timestamp ++ lit ".ass" in
         let simple_ass_path := path_join exports_dir simple_ass_name in
         create simple_ass_path ;;;                      (* shutil.copy2 *)
         update_job_progress 75 (lit "Video Processing") ;;;
         burn_subtitles tc final_export_path simple_ass_path ;;;
         update_job_progress 95 (lit "Finalizing") ;;;
         spawn (lit "ffprobe") ;;;
         total_duration <-
           match tc_ffprobe_duration tc with
           | Some d => ret d
           | None => raise (CalledProcessError [])
           end ;;
         update_job_progress 100 (lit "Complete") ;;;
         ret (final_export_filename, py_round total_duration 2))
        (fun e => update_job_progress 100 (lit "Failed") ;;; raise e))
     (rmtree temp_dir))%W.

End WithUnicode.

End ProcessingJob.

(** ** complete_viral_clip_generator.py: rendering the selected clips *)

Module ClipRenderer.
Import World.

(** What the environment answers while one clip is rendered. *)
Record clip_toolchain : Type := mkClipToolchain {
  ct_cwd : pystr;                  (* os.getcwd() *)
  ct_extract : proc_result;        (* the cut of the segment *)
  ct_layout : proc_result;         (* process_video_for_vertical; a failure raises *)
  ct_captions : list raw_segment -> option pystr;
                                   (* generate_karaoke_captions on the caption
                                      segments, as text; None: it raises *)
  ct_burn : proc_result            (* the burn of the subtitles *)
}.

(** [os.path.dirname] *)
Fixpoint drop_last_component (rev_path : pystr) : pystr :=
  match rev_path with
  | [] => []
  | c :: rest => if N.eqb c 47 then rest else drop_last_component rest
  end.

Definition dirname (p : pystr) : pystr := rev (drop_last_component (rev p)).

(** [os.makedirs(d, exist_ok=True)] *)
Definition makedirs (d : pystr) : M unit :=
  match d with
  | [] => raise (FileNotFoundError (lit "No such file or directory: ''"))
  | _ => create d
  end.

Fixpoint remove_existing (ps : list pystr) : M unit :=
  match ps with
  | [] => ret tt
  | p :: ps' =>
      (found <- exists_path p ;;
       (if found then remove p else ret tt) ;;;
       remove_existing ps')%W
  end.

Definition _process_complete_clip (ct : clip_toolchain)
           (source_video : pystr) (start_time end_time : Z) (output_path : pystr)
           (layout_mode template transcript_text temp_dir : pystr)
           (clip_segments : list TranscriptSegment) : M bool :=
  let stamp := format_d 0 start_time ++ lit "_" ++ format_d 0 end_time in
  try_except
    ((* Step 1: extract the video segment *)
     let segment_path := path_join temp_dir (lit "segment_" ++ stamp ++ lit ".mp4") in
     r <- run_process (lit "ffmpeg") (ct_extract ct) segment_path ;;
     found <- exists_path segment_path ;;
     if negb (returncode_ok r) || negb found then ret false
     else
       (* Step 2: layout processing *)
       let layout_processed_path :=
         path_join temp_dir (lit "layout_" ++ layout_mode ++ lit "_" ++ stamp ++ lit ".mp4") in
       r <- run_process (lit "ffmpeg") (ct_layout ct) layout_processed_path ;;
       if negb (returncode_ok r) then ret false
       else
         (* Step 3: captions, from the segments shifted to the clip's start
            (no translation requested) *)
         let caption_segments :=
           CompleteViralClipGenerator.caption_segments_of
             (inject_Z start_time) (inject_Z end_time) transcript_text clip_segments in
         match ct_captions ct caption_segments with
         | None => ret false
         | Some ass_content =>
             let ass_path := path_join temp_dir (lit "captions_" ++ stamp ++ lit ".ass") in
             create ass_path ;;;
             let debug_ass_path := path_join (ct_cwd ct) (lit "debug_swipeup_captions.ass") in
             create debug_ass_path ;;;
             (* Step 4: burn the captions *)
             try_except
               (let output_dir := dirname output_path in
                found <- exists_path output_dir ;;
                (if found then ret tt else makedirs output_dir) ;;;
                let temp_output_dir := path_join (path_join temp_dir (lit "exports")) (lit "clips") in
                found <- exists_path temp_output_dir ;;
                (if found then ret tt else makedirs temp_output_dir) ;;;
                let simple_ass_path := path_join temp_dir (lit "captions.ass") in
                found <- exists_path ass_path ;;
                (if found then create simple_ass_path else ret tt) ;;;
                r <- run_process (lit "ffmpeg") (ct_burn ct) output_path ;;
                if returncode_ok r
                then
                  found <- exists_path output_path ;;
                  if found
                  then
                    remove_existing [segment_path; layout_processed_path; ass_path; simple_ass_path] ;;;
                    ret true
                  else ret false
                else ret false)
               (fun _ => ret false)
         end)%W
    (fun _ => ret false).

(** A clip as [_generate_complete_clips] receives it, and what it reports. *)
Record generated_clip : Type := mkGenerated {
  gc_clip_id : nat;
  gc_filename : pystr;
  gc_output_path : pystr
}.

Section WithUnicode.

Variable str_lower : pystr -> pystr.

(** [str(clip['score']).replace('.', '_')], the score being given as the
    text [str] prints for it. *)
Definition safe_score (score_text : pystr) : pystr :=
  List.map (fun c => if N.eqb c 46 then 95%N else c) score_text.

(** The loop of [_generate_complete_clips]; [tcs] gives the environment of
    each clip in turn and [i] counts the clips from 0. *)
Fixpoint generate_loop (tcs : list clip_toolchain)
         (clips : list (HookDetector.ClipDict * pystr))
         (source_video_path temp_dir : pystr) (job_id : option pystr)
         (layout_mode template output_dir : pystr) (i : nat) : M (list generated_clip) :=
  match clips, tcs with
  | (clip, score_text) :: clips', ct :: tcs' =>
      (this <-
         try_except
           (start_time <- ProcessingJob.lift
               (CompleteViralClipGenerator._parse_timestamp (HookDetector.cd_start_time clip)) ;;
            end_time <- ProcessingJob.lift
               (CompleteViralClipGenerator._parse_timestamp (HookDetector.cd_end_time clip)) ;;
            let tail := lit "clip_" ++ digits (N.of_nat (i + 1)) ++ lit "_score_"
                          ++ safe_score score_text ++ lit "_" ++ layout_mode ++ lit "_"
                          ++ str_lower template ++ lit ".mp4" in
            let clip_filename :=
              match job_id with
              | Some (_ :: _ as j) => j ++ lit "_" ++ tail
              | _ => lit "viral_" ++ tail
              end in
            let clip_path := path_join output_dir clip_filename in
            result <- _process_complete_clip ct source_video_path start_time end_time
                        clip_path layout_mode template (HookDetector.cd_transcript clip)
                        temp_dir (HookDetector.cd_segments clip) ;;
            if result : bool
            then ret [mkGenerated (i + 1) clip_filename clip_path]
            else ret [])
           (fun _ => ret []) ;;
       rest <- generate_loop tcs' clips' source_video_path temp_dir job_id
                 layout_mode template output_dir (S i) ;;
       ret (this ++ rest))%W
  | _, _ => ret []
  end.

Definition _generate_complete_clips (tcs : list clip_toolchain)
           (viral_clips : list (HookDetector.ClipDict * pystr))
           (source_video_path temp_dir : pystr) (job_id : option pystr)
           (layout_mode template output_dir : pystr) : M (list generated_clip) :=
  (makedirs output_dir ;;;
   generate_loop tcs viral_clips source_video_path temp_dir job_id
     layout_mode template output_dir 0)%W.

End WithUnicode.

End ClipRenderer.

(** * The specification's wording

    Definitions that follow the sentences of the specification, to be
    compared with the code above. *)

Module Spec.

Local Open Scope Q_scope.

(** An 11-character id of letters, digits, '_' or '-'. *)
Definition is_video_id (x : pystr) : bool :=
  Nat.eqb (List.length x) 11 && List.forallb Processing.id_char x.

(** Somewhere in [url], [marker] is followed by a video id. *)
Definition marker_followed_by_id (marker url : pystr) : bool :=
  List.existsb
    (fun i => let t := skipn i url in
              startswith t marker && is_video_id (firstn 11 (skipn (List.length marker) t)))
    (List.seq 0 (S (List.length url))).

(** The four accepted URL forms. *)
Definition accepted_url_form (url : pystr) : bool :=
  List.existsb (fun marker => marker_followed_by_id (lit marker) url)
    [ "youtube.com/watch?v="; "youtu.be/"; "youtube.com/embed/"; "youtube.com/v/" ]%string.

(** The number of hook phrases of the curated list found in the text,
    letter case ignored. *)
Fixpoint phrases_found (text_lower : pystr) (phrases : list pystr) : nat :=
  match phrases with
  | [] => 0
  | phrase :: rest =>
      ((if contains text_lower phrase then 1 else 0) + phrases_found text_lower rest)%nat
  end.

(** The first sentence: the text up to its first full stop. *)
Fixpoint first_sentence (text : pystr) : pystr :=
  match text with
  | [] => []
  | c :: rest => if N.eqb c 46 then [] else c :: first_sentence rest
  end.

(** "The text begins with an interrogative starter or the first sentence
    contains a question mark". *)
Definition is_question (str_lower : pystr -> pystr) (text : pystr) : bool :=
  List.existsb (startswith (strip (str_lower text))) HookDetector.QUESTION_STARTERS
  || List.existsb (N.eqb 63) (first_sentence text).

(** "Length bonus of 1 if |duration - target_length| <= 0.1 x target_length
    and 0 otherwise". *)
Definition length_bonus (duration target_length : Q) : Q :=
  if Qle_bool (Qabs (duration - target_length)) ((1 # 10) * target_length) then 1 else 0.

(** The hook score: keyword points, question points, emotion points and
    the length bonus, for a sentiment intensity [e]. *)
Definition hook_score (str_lower : pystr -> pystr) (e : Q)
           (text : pystr) (duration target_length : Q) : Q :=
  2 * inject_Z (Z.of_nat (phrases_found (str_lower text) HookDetector.HOOK_KEYWORDS))
  + (if is_question str_lower text then 2 else 0)
  + 2 * e
  + length_bonus duration target_length.

(** The normalized sentiment intensity of a label and a confidence:
    "positive sentiment scaled x1.2, negative x1.3, neutral x0.5; any unknown
    label contributes its raw confidence", a scaled-up value being kept at
    1.  The label is given in lower case; the sentiment models write
    positive or pos, negative or neg, and neutral. *)
Definition sentiment_intensity (label_lower : pystr) (confidence : Q) : Q :=
  let at_most_1 (x : Q) : Q := if Qle_bool x 1 then x else 1 in
  if str_eqb label_lower (lit "positive") || str_eqb label_lower (lit "pos")
  then at_most_1 (confidence * (12 # 10))
  else if str_eqb label_lower (lit "negative") || str_eqb label_lower (lit "neg")
  then at_most_1 (confidence * (13 # 10))
  else if str_eqb label_lower (lit "neutral")
  then confidence * (5 # 10)
  else confidence.

(** The sentiment classifier reports confidences between 0 and 1. *)
Definition confidences_in_unit_interval (self : HookDetector.t) : Prop :=
  forall analyzer text label score rest,
    HookDetector.sentiment_analyzer self = Some analyzer ->
    analyzer text = AnalyzerList (ResultDict label (Some score) :: rest) ->
    0 <= score /\ score <= 1.

(** The automatic ceiling on the number of clips, by video duration. *)
Definition automatic_ceiling (video_duration_minutes : Q) : Z :=
  if Qle_bool 20 video_duration_minutes then 10
  else if Qle_bool 10 video_duration_minutes then 8
  else if Qle_bool 5 video_duration_minutes then 5
  else if Qle_bool 2 video_duration_minutes then 3
  else 2.

(** The floor of [total_duration / avg_clip_length]. *)
Definition feasible_ceiling (total_duration avg_clip_length : Q) : Z :=
  Qfloor (total_duration / avg_clip_length).

(** min(requested_max, automatic_ceiling, feasible_ceiling, available) *)
Definition expected_clip_count (requested_max : Z) (total_duration min_length max_length : Q)
           (available : nat) : Z :=
  Z.min (Z.min (Z.min requested_max (automatic_ceiling (total_duration / 60)))
               (feasible_ceiling total_duration ((min_length + max_length) / 2)))
        (Z.of_nat available).

(** The number of ranked candidates of a transcript. *)
Definition available (str_lower : pystr -> pystr) (self : CompleteViralClipGenerator.t)
           (transcript_data : list raw_segment) : nat :=
  List.length
    (HookDetector.score_clips str_lower (CompleteViralClipGenerator.hook_detector self)
       (HookDetector.segment_transcript (CompleteViralClipGenerator.hook_detector self)
          (HookDetector.parse_whisper_segments transcript_data))).

(** C3 as stated: for every transcript and every requested maximum, the
    selection returns min(requested_max, automatic_ceiling,
    feasible_ceiling, available) clips, the duration being the one the code
    takes from the transcript. *)
Definition selection_count_for_every_request : Prop :=
  forall (str_lower : pystr -> pystr) (self : CompleteViralClipGenerator.t)
         (transcript_data : list raw_segment) (max_clips : Z)
         (min_score min_length max_length total_duration : Q),
    CompleteViralClipGenerator.video_duration_seconds transcript_data = Return total_duration ->
    exists top_clips,
      CompleteViralClipGenerator._find_viral_moments str_lower self transcript_data max_clips
        min_score min_length max_length = Return top_clips /\
      Z.of_nat (List.length top_clips)
      = expected_clip_count max_clips total_duration min_length max_length
          (available str_lower self transcript_data).

(** The frames the face model is shown: every 30th of the first 300. *)
Fixpoint sampled_from (frame_count : nat) (frames : list FaceDetector.frame)
  : list FaceDetector.frame :=
  match frames with
  | [] => []
  | fr :: rest =>
      if Nat.leb 300 frame_count then []
      else if Nat.eqb (Nat.modulo frame_count 30) 0
           then fr :: sampled_from (S frame_count) rest
           else sampled_from (S frame_count) rest
  end.

(** "No face is detected": the model finds nothing on any sampled frame. *)
Definition no_face_detected (frames : list FaceDetector.frame) : Prop :=
  Forall (fun fr => FaceDetector.fr_detections fr = Some []) (sampled_from 0 frames).

(** C7 as stated: the operation never raises. *)
Definition face_center_never_raises : Prop :=
  forall (v : FaceDetector.video) (prefer_left_side : bool),
  exists c, FaceDetector.detect_face_center v prefer_left_side None = Return c.

(** A token has only code points the cleanup allows. *)
Definition only_allowed (w : Word) : bool :=
  List.forallb CompleteViralClipGenerator.is_devanagari_or_allowed (word_word w).

(** A token has at least one allowed code point that is not a blank. *)
Definition has_allowed_content (w : Word) : bool :=
  List.existsb (fun c => CompleteViralClipGenerator.is_devanagari_or_allowed c
                         && negb (is_space c)) (word_word w).

Definition timing (w : Word) : Q * Q := (word_start w, word_end w).

(** A token with the foreign code points and the surrounding blanks removed
    from its text, its times kept. *)
Definition cleaned_token (w : Word) : Word :=
  mkWord (strip (List.filter CompleteViralClipGenerator.is_devanagari_or_allowed (word_word w)))
         (word_start w) (word_end w).

(** C8 as stated: every token with a foreign code point is discarded, so
    the surviving tokens are among those without one, and they keep their
    times. *)
Definition hindi_cleanup_discards_mixed_tokens : Prop :=
  forall seg : Segment,
  exists kept : list Word,
    sublist kept (List.filter only_allowed (sg_words seg)) /\
    List.map timing (sg_words (CompleteViralClipGenerator._clean_hindi_segment seg))
    = List.map timing kept.

(** The time a subtitle time field [h:mm:ss.cc] denotes, in seconds. *)
Definition ass_time_value (stamp : pystr) : option Q :=
  match split_on 58%N stamp with
  | [h; m; s] =>
      match split_on 46%N s with
      | [whole; frac] =>
          match parse_nat h, parse_nat m, parse_nat whole, parse_nat frac with
          | Some h, Some m, Some a, Some b =>
              Some (inject_Z (Z.of_N h) * 3600 + inject_Z (Z.of_N m) * 60
                    + inject_Z (Z.of_N a)
                    + inject_Z (Z.of_N b) / inject_Z (10 ^ Z.of_nat (List.length frac)))
          | _, _, _, _ => None
          end
      | _ => None
      end
  | _ => None
  end.

(** The word tokens of a clip: those of the recogniser segments it spans. *)
Definition clip_words (c : VideoClip) : list Word :=
  List.concat (List.map (fun seg => match ts_original_segment seg with
                                    | Some (SegObject o) => sg_words o
                                    | _ => []
                                    end) (vc_segments c)).

(** Every segment of the clip is a recogniser segment with word tokens. *)
Definition word_timed (c : VideoClip) : Prop :=
  vc_segments c <> [] /\
  Forall (fun seg => exists o, ts_original_segment seg = Some (SegObject o) /\ sg_words o <> [])
         (vc_segments c).






(** The second at which the clip is cut: its start, kept in microseconds
    and truncated to whole seconds by the [HH:MM:SS] form. *)
Definition cut_start (c : VideoClip) : Z :=
  Qfloor (HookDetector.timedelta_total_seconds (vc_start_time c)).

(** A clip of the data model, as far as the caption timing needs it: times
    not negative (and within the range of a [timedelta]), word-timed
    segments, no word before the cut. *)
Definition well_formed_clip (c : VideoClip) : Prop :=
  0 <= vc_start_time c /\ 0 <= vc_end_time c /\
  vc_start_time c < 86400 * 1000000000 /\ vc_end_time c < 86400 * 1000000000 /\
  word_timed c /\
  Forall (fun w => inject_Z (cut_start c) <= word_start w) (clip_words c).


(** "Sorted by total score in descending order". *)
Definition ranked_descending (l : list VideoClip) : Prop :=
  ForallOrdPairs (fun a b => vc_viral_score b <= vc_viral_score a) l.


End Spec.

(** * Loop invariants *)

Module Invariants.

Local Open Scope Q_scope.

(** The best end recorded by the inner loop of [segment_transcript] gives a
    duration within the configured range. *)
Definition best_in_range (self : HookDetector.t) (clip_start : Q)
           (st : HookDetector.inner_state) : Prop :=
  forall e segs txt,
    HookDetector.best_clip st = Some (e, segs, txt) ->
    HookDetector.min_length self <= e - clip_start /\
    e - clip_start <= HookDetector.max_length self.




End Invariants.

(** * Sample inputs *)

Module Samples.
Import World ProcessingJob.

Local Open Scope Q_scope.

Definition proc_ok : proc_result := mkProc true [] true.
Definition proc_failed : proc_result := mkProc false (lit "error") false.

(** A toolchain on which every step succeeds. *)
Definition good_toolchain : toolchain :=
  {| tc_temp_dir := lit "/tmp/tmpab12";
     tc_session_id := lit "0f8fad5b";
     tc_time := 1700000000%N;
     tc_yt_dlp := YtExit proc_ok [lit ".mp4"];
     tc_extract_audio := proc_ok;
     tc_transcribe := Some [];
     tc_layout := proc_ok;
     tc_template_name := lit "Karaoke";
     tc_captions := Some (lit "[Script Info]");
     tc_burn := proc_ok;
     tc_fallback := proc_ok;
     tc_ffprobe_duration := Some 42 |}.

Definition params_for (url : pystr) : run_params :=
  {| p_youtube_url := PyStr url;
     p_opus_template := PyJson (lit "{}");
     p_clip_duration := PyInt 30;
     p_exports_dir := PyStr (lit "exports");
     p_original_filename := PyNone;
     p_layout_mode := PyStr (lit "fit");
     p_timeframe_start := PyNone;
     p_timeframe_end := PyNone;
     p_min_clip_length := PyInt 30;
     p_max_clip_length := PyInt 90;
     p_target_clip_length := PyInt 60 |}.

(** A submission that sets a timeframe and the three clip lengths. *)
Definition sample_form : gmap string pystr :=
  <["job_id" := lit "job-1"]>
  (<["video_url" := lit "https://youtu.be/dQw4w9WgXcQ"]>
  (<["opus_template" := lit "{}"]>
  (<["clip_duration" := lit "45"]>
  (<["layout" := lit "fill"]>
  (<["timeframe_start" := lit "10"]>
  (<["timeframe_end" := lit "200"]>
  (<["min_clip_length" := lit "15"]>
  (<["max_clip_length" := lit "45"]>
  (<["target_clip_length" := lit "20"]> ∅))))))))).

(** [_get_mock_transcript] of complete_viral_clip_generator.py. *)
Definition _get_mock_transcript : list raw_segment :=
  [ SegDict 0 8 (lit "This is the biggest secret nobody told you about making viral videos.");
    SegDict 8 15 (lit "Today I'm going to reveal the crazy mistake that's killing your engagement.");
    SegDict 15 22 (lit "Watch this technique that will completely change how you create content.");
    SegDict 22 30 (lit "The truth about viral videos is not what you think it is.");
    SegDict 30 38 (lit "How do successful creators consistently get millions of views?");
    SegDict 38 45 (lit "The answer will shock you and transform your content strategy.");
    SegDict 45 52 (lit "This is why your videos aren't performing as well as they could.");
    SegDict 52 60 (lit "Let me show you the exact framework that works every single time.");
    SegDict 60 68 (lit "You won't believe how simple this actually is once you understand it.");
    SegDict 68 75 (lit "The biggest mistake people make is focusing on the wrong metrics.") ].

(** A detector without a sentiment model, lengths 20/30/40. *)
Definition plain_detector : HookDetector.t :=
  HookDetector.mk 30 20 40 None.

(** A sentiment model that finds every text positive with confidence 0.9. *)
Definition positive_analyzer (text : pystr) : analyzer_output :=
  AnalyzerList [ResultDict (Some (lit "POSITIVE")) (Some (9 # 10))].

Definition sentiment_detector : HookDetector.t :=
  HookDetector.mk 30 20 40 (Some positive_analyzer).

Definition blank_clip (start_time end_time : Q) (transcript : pystr) : VideoClip :=
  mkVideoClip start_time end_time (end_time - start_time) transcript 0 [] false 0 0 [].

Definition plain_generator : CompleteViralClipGenerator.t :=
  CompleteViralClipGenerator.mk plain_detector.

(** A generator for short clips, lengths 10/15/20: nine candidates on the
    mock transcript. *)
Definition short_clip_generator : CompleteViralClipGenerator.t :=
  CompleteViralClipGenerator.mk (HookDetector.mk 15 10 20 None).

(** A Hindi segment whose only token mixes a Latin letter with a
    Devanagari one ("a" followed by KA). *)
Definition mixed_token_segment : Segment :=
  mkSegment 1 2 [97; 0x0915]%N [mkWord [97; 0x0915]%N 1 2].

(** A frame of 1920x1080 on which the model finds nothing, and one with a
    face left of the middle. *)
Definition empty_frame : FaceDetector.frame := FaceDetector.mkFrame 1080 1920 (Some []).

Definition face_frame : FaceDetector.frame :=
  FaceDetector.mkFrame 1080 1920
    (Some [FaceDetector.mkDetection (1 # 10) (2 # 10) (2 # 10) (3 # 10) (9 # 10)]).

(** Rendering one clip: the cut succeeds and the layout step fails. *)
Definition layout_fails : ClipRenderer.clip_toolchain :=
  ClipRenderer.mkClipToolchain (lit "/app") proc_ok proc_failed
    (fun _ => Some (lit "[Script Info]")) proc_ok.

(** Rendering one clip: every step succeeds. *)
Definition all_steps_succeed : ClipRenderer.clip_toolchain :=
  ClipRenderer.mkClipToolchain (lit "/app") proc_ok proc_ok
    (fun _ => Some (lit "[Script Info]")) proc_ok.

(** A selected clip from 0 s to 30 s, with the text of its score. *)
Definition selected_clip : HookDetector.ClipDict * pystr :=
  (HookDetector.to_dict (blank_clip 0 30 (lit "What is the secret?")), lit "1.0").

(** The disk when rendering starts: the working directory of the download
    and the downloaded video in it. *)
Definition download_done : World.world :=
  World.mkWorld {[ lit "/tmp/viral_clips_x1"; lit "/tmp/viral_clips_x1/video.mp4" ]} [] [].

(** A clip starting at 0.5 s with one segment of two word tokens, at
    2.004 s and 2.5 s. *)
Definition half_second_clip : VideoClip :=
  let o := mkSegment (1 # 2) 3 (lit "hello world")
             [mkWord (lit "hello") (501 # 250) (5 # 2); mkWord (lit "world") (5 # 2) 3] in
  mkVideoClip (1 # 2) 3 (5 # 2) (lit "hello world") 0 [] false 0 0
    [mkTranscriptSegment (1 # 2) 3 (lit "hello world") 0 (Some (SegObject o))].

(** A clip starting at 72.5 s with two segments of five word tokens in all,
    the first at 73.004 s. *)
Definition minute_clip : VideoClip :=
  let o1 := mkSegment (145 # 2) 75 (lit "what is the")
              [mkWord (lit "what") (18251 # 250) (147 # 2);
               mkWord (lit "is") (147 # 2) 74;
               mkWord (lit "the") 74 (149 # 2)] in
  let o2 := mkSegment 75 77 (lit "secret here")
              [mkWord (lit "secret") (376 # 5) 76; mkWord (lit "here") 76 (1533 # 20)] in
  mkVideoClip (145 # 2) 77 (9 # 2) (lit "what is the secret here") 0 [] false 0 0
    [mkTranscriptSegment (145 # 2) 75 (lit "what is the") 0 (Some (SegObject o1));
     mkTranscriptSegment 75 77 (lit "secret here") 0 (Some (SegObject o2))].

(** A submission that names only the job, a video URL and a template. *)
Definition form_with_url (url : pystr) : gmap string pystr :=
  <["job_id" := lit "job-2"]>
  (<["video_url" := url]>
  (<["opus_template" := lit "{}"]> ∅)).

(** A JSON decoder that accepts every text. *)
Definition json_any (text : pystr) : option pyval := Some (PyJson text).

(** A queue that stores every job, and one whose Redis cannot be reached. *)
Definition accepting_queue (job : QueueManager.job) : option exn := None.


End Samples.

(** * What segmentation builds *)

Module Windows.

(** The text the inner loop of [segment_transcript] accumulates: a blank
    before the text of every segment. *)
Definition joined_text (segs : list TranscriptSegment) : pystr :=
  List.concat (List.map (fun s => lit " " ++ ts_text s) segs).

(** A candidate is a window of the transcript: a run of consecutive
    segments, from the start of its first segment to the end of its last
    one, which closes a sentence. *)
Definition is_window (segments : list TranscriptSegment) (clip : VideoClip) : Prop :=
  exists before after first rest_segs prefix last_seg,
    segments = before ++ vc_segments clip ++ after /\
    vc_segments clip = first :: rest_segs /\
    vc_segments clip = prefix ++ [last_seg] /\
    vc_start_time clip = ts_start_time first /\
    vc_end_time clip = ts_end_time last_seg /\
    vc_duration clip = (vc_end_time clip - vc_start_time clip)%Q /\
    HookDetector._is_sentence_boundary (ts_text last_seg) = true /\
    vc_transcript clip = strip (joined_text (vc_segments clip)).

(** What the inner loop keeps: the text goes with the segments taken, and
    the best candidate so far is a prefix of the segments from the cursor
    that ends on a sentence boundary. *)
Definition inner_inv (rest0 : list TranscriptSegment) (st : HookDetector.inner_state) : Prop :=
  HookDetector.clip_text st = joined_text (HookDetector.clip_segments st) /\
  forall e segs txt,
    HookDetector.best_clip st = Some (e, segs, txt) ->
    (exists after, rest0 = segs ++ after) /\
    (exists prefix last_seg,
        segs = prefix ++ [last_seg] /\ ts_end_time last_seg = e /\
        HookDetector._is_sentence_boundary (ts_text last_seg) = true) /\
    txt = strip (joined_text segs).

End Windows.

(** * What ranking keeps *)

Module Ranked.

(** What a candidate is, apart from the analysis that scoring fills in. *)
Definition clip_content (c : VideoClip) : Q * Q * Q * pystr * list TranscriptSegment :=
  (vc_start_time c, vc_end_time c, vc_duration c, vc_transcript c, vc_segments c).

End Ranked.

(** * Text whose blanks are normalised *)

Module Blanks.

(** Every blank is a single space, and no two blanks are adjacent; [in_run]
    says that the character before was a blank. *)
Fixpoint single_spaced (in_run : bool) (s : pystr) : Prop :=
  match s with
  | [] => True
  | c :: s' =>
      if is_space c then in_run = false /\ c = 32%N /\ single_spaced true s'
      else single_spaced false s'
  end.

(** The text does not begin with a blank. *)
Definition no_leading_blank (s : pystr) : Prop :=
  match s with
  | [] => True
  | c :: _ => is_space c = false
  end.

End Blanks.

(** ** processing.py: the helpers around the download and the layout step *)

Module ProcessingTools.
Import World Processing ProcessingJob.

(** [stderr_output[:200]] *)
Definition first_200 (s : pystr) : pystr := firstn 200 s.

(** [' '.join(cmd)] *)
Fixpoint command_line (cmd : list pystr) : pystr :=
  match cmd with
  | [] => []
  | [a] => a
  | a :: rest => a ++ lit " " ++ command_line rest
  end.

(** The square layout: the side of the square and where its corner goes on
    the canvas. *)
Definition square_geometry (target_width target_height : Z) : Z * Z * Z :=
  let square_size := Z.min (target_height - 600) (target_width - 100) in
  let x_offset := (target_width - square_size) / 2 in
  let y_offset := (target_height - square_size) / 2 - 100 in
  (square_size, x_offset, y_offset).

(** The [ffmpeg] arguments that follow the input in the three layouts. *)
Definition filtered (input_path filter_complex output_path : pystr) : list pystr :=
  [lit "ffmpeg"; lit "-y"; lit "-i"; input_path;
   lit "-filter_complex"; filter_complex;
   lit "-map"; lit "[out]"; lit "-map"; lit "0:a?";
   lit "-c:a"; lit "copy"; lit "-c:v"; lit "libx264"; lit "-crf"; lit "23";
   lit "-preset"; lit "fast"; output_path].

Section WithUnicode.

Variable str_lower : pystr -> pystr.

Definition parse_yt_dlp_error (stderr_output url : pystr) : pystr :=
  match stderr_output with
  | [] => lit "Unknown error occurred during download"
  | _ =>
      let stderr_lower := str_lower stderr_output in
      if contains stderr_lower (lit "video unavailable")
      then lit "Video is unavailable (may be private, deleted, or region-locked)"
      else if contains stderr_lower (lit "private video")
      then lit "Video is private and cannot be accessed"
      else if contains stderr_lower (lit "video has been removed")
      then lit "Video has been removed or does not exist"
      else if contains stderr_lower (lit "unsupported url")
      then lit "Unsupported URL format or invalid video ID"
      else if contains stderr_lower (lit "http error 404")
      then lit "Video not found (HTTP 404 error)"
      else if contains stderr_lower (lit "age-restricted")
      then lit "Video is age-restricted and requires sign-in"
      else if contains stderr_lower (lit "copyright")
      then lit "Video is not available due to copyright restrictions"
      else
        let video_id :=
          match re_search video_id_search url with
          | Some g => g
          | None => lit "unknown"
          end in
        lit "Download failed for video ID " ++ video_id ++ lit ". Details: "
          ++ first_200 stderr_output ++ lit "..."
  end.

(** The command of [process_video_for_layout] for a layout mode. *)
Definition layout_command (input_path output_path layout_mode : pystr)
           (target_width target_height : Z) : list pystr :=
  let W := format_d 0 target_width in
  let H := format_d 0 target_height in
  if str_eqb (str_lower layout_mode) (lit "square") then
    let '(square_size, x_offset, y_offset) := square_geometry target_width target_height in
    let S := format_d 0 square_size in
    let filter_complex :=
      lit "[0:v]scale=" ++ W ++ lit ":" ++ H ++ lit ":force_original_aspect_ratio=increase,"
      ++ lit "crop=" ++ W ++ lit ":" ++ H ++ lit ",gblur=sigma=20[bg];"
      ++ lit "[0:v]scale=" ++ S ++ lit ":" ++ S ++ lit ":force_original_aspect_ratio=decrease,"
      ++ lit "pad=" ++ S ++ lit ":" ++ S ++ lit ":(ow-iw)/2:(oh-ih)/2[sq];"
      ++ lit "[bg][sq]overlay=" ++ format_d 0 x_offset ++ lit ":" ++ format_d 0 y_offset
      ++ lit "[out]" in
    filtered input_path filter_complex output_path
  else if str_eqb (str_lower layout_mode) (lit "fit") then
    let filter_complex :=
      lit "[0:v]scale=" ++ W ++ lit ":" ++ H ++ lit ":force_original_aspect_ratio=increase,"
      ++ lit "crop=" ++ W ++ lit ":" ++ H ++ lit ",gblur=sigma=15[bg];"
      ++ lit "[0:v]scale=" ++ W ++ lit ":" ++ H ++ lit ":force_original_aspect_ratio=decrease,"
      ++ lit "pad=" ++ W ++ lit ":" ++ H ++ lit ":(ow-iw)/2:(oh-ih)/2:black[fg];"
      ++ lit "[bg][fg]overlay[out]" in
    filtered input_path filter_complex output_path
  else if str_eqb (str_lower layout_mode) (lit "fill") then
    let filter_complex :=
      lit "[0:v]scale=" ++ W ++ lit ":" ++ H ++ lit ":force_original_aspect_ratio=increase,"
      ++ lit "crop=" ++ W ++ lit ":" ++ H ++ lit "[out]" in
    filtered input_path filter_complex output_path
  else
    [lit "ffmpeg"; lit "-y"; lit "-i"; input_path; lit "-c"; lit "copy"; output_path].

(** What the environment answers to [process_video_for_layout]. *)
Record layout_tools : Type := mkLayoutTools {
  lt_dimensions : option (Z * Z);   (* get_video_dimensions; None stands for (None, None) *)
  lt_ffmpeg : proc_result;
  lt_error_text : pystr             (* str(e) of the CalledProcessError *)
}.

(** [get_video_dimensions]: one run of [ffprobe]; every failure gives
    [(None, None)]. *)
Definition get_video_dimensions (tools : layout_tools) : M (option (Z * Z)) :=
  (spawn (lit "ffprobe") ;;; ret (lt_dimensions tools))%W.

Definition process_video_for_layout (tools : layout_tools)
           (input_path output_path layout_mode : pystr)
           (target_width target_height : Z) : M pystr :=
  (dims <- get_video_dimensions tools ;;
   match dims with
   | Some (video_w, video_h) =>
       if (video_w =? 0) || (video_h =? 0)
       then raise (ValueError (lit "Could not determine video dimensions for " ++ input_path))
       else
         let cmd := layout_command input_path output_path layout_mode
                      target_width target_height in
         try_except
           (run_process_checked (command_line cmd) (lt_ffmpeg tools) output_path ;;;
            ret output_path)
           (fun e =>
              match e with
              | CalledProcessError err =>
                  match err with
                  | [] => raise (Exception (lit "Video layout processing failed: "
                                            ++ lt_error_text tools))
                  | _ =>
                      (* e.stderr is text here, and text has no [decode] *)
                      raise (AttributeError (lit "'str' object has no attribute 'decode'"))
                  end
              | _ => raise e
              end)
   | None => raise (ValueError (lit "Could not determine video dimensions for " ++ input_path))
   end)%W.

End WithUnicode.

End ProcessingTools.

(** ** opus_processor.py: which speaker a word belongs to *)

Module Speakers.

Local Open Scope Q_scope.

(** [{'start': .., 'end': .., 'speaker': ..}] *)
Record speaker_segment : Type := mkSpeakerSegment {
  sp_start : Q;
  sp_end : Q;
  sp_speaker : pystr
}.

Fixpoint get_word_speaker (word_start word_end : Q) (speaker_segments : list speaker_segment)
  : option pystr :=
  match speaker_segments with
  | [] => None
  | segment :: rest =>
      if qleb (sp_start segment) word_start && qleb word_start (sp_end segment)
         || qleb (sp_start segment) word_end && qleb word_end (sp_end segment)
         || qleb word_start (sp_start segment) && qleb (sp_end segment) word_end
      then Some (sp_speaker segment)
      else get_word_speaker word_start word_end rest
  end.

(** The word's interval and the segment's have a point in common. *)
Definition overlaps (word_start word_end : Q) (segment : speaker_segment) : bool :=
  qleb word_start (sp_end segment) && qleb (sp_start segment) word_end.

End Speakers.

(** ** complete_viral_clip_generator.py: translation and script conversion
       of caption segments *)

Module CaptionLanguage.

(** [ord(c) < 128 and c.isalpha()] *)
Definition is_ascii_alpha (c : N) : bool :=
  ((65 <=? c) && (c <=? 90) || (97 <=? c) && (c <=? 122))%N.

(** [0x0900 <= ord(c) <= 0x097F] *)
Definition in_devanagari_block (c : N) : bool := ((0x0900 <=? c) && (c <=? 0x097F))%N.

(** [sum(1 for c in text if p(c))] *)
Definition count_chars (p : N -> bool) (text : pystr) : nat :=
  List.length (List.filter p text).

(** A copy of the segment with another text. *)
Definition with_text (s : Segment) (text : pystr) : Segment :=
  mkSegment (sg_start s) (sg_end s) text (sg_words s).

Section WithLibraries.

(** [TRANSLATION_AVAILABLE], and [GoogleTranslator(source, target)]: [None]
    when the constructor raises, otherwise its [translate], which answers
    [None] when it raises. *)
Variable TRANSLATION_AVAILABLE : bool.
Variable GoogleTranslator : pystr -> pystr -> option (pystr -> option pystr).

(** [TRANSLITERATION_AVAILABLE], and
    [transliterate(text, sanscript.ITRANS, sanscript.DEVANAGARI)] ([None]
    when it raises). *)
Variable TRANSLITERATION_AVAILABLE : bool.
Variable transliterate : pystr -> option pystr.

(** The loop of [_translate_segments]; [None] when reading [segment.text]
    raises (a dictionary has no such attribute), which the outer handler
    catches. *)
Fixpoint translate_loop (translate : pystr -> option pystr) (segments : list raw_segment)
  : option (list raw_segment) :=
  match segments with
  | [] => Some []
  | SegDict _ _ _ :: _ => None
  | SegObject s :: rest =>
      let this :=
        match translate (sg_text s) with
        | Some translated_text => SegObject (with_text s translated_text)
        | None => SegObject s                       (* keep original on error *)
        end in
      match translate_loop translate rest with
      | Some translated_segments => Some (this :: translated_segments)
      | None => None
      end
  end.

Definition _translate_segments (segments : list raw_segment) (source_lang target_lang : pystr)
  : list raw_segment :=
  if negb TRANSLATION_AVAILABLE then segments
  else if str_eqb source_lang target_lang then segments
  else
    match GoogleTranslator source_lang target_lang with
    | None => segments
    | Some translate =>
        match translate_loop translate segments with
        | Some translated_segments => translated_segments
        | None => segments
        end
    end.

(** The loop over [converted_segment.words]; [None] when a conversion
    raises. *)
Fixpoint convert_words (words : list Word) : option (list Word) :=
  match words with
  | [] => Some []
  | word :: rest =>
      let word_text := word_word word in
      let word_latin := count_chars is_ascii_alpha word_text in
      let converted :=
        if Nat.ltb 0 word_latin then transliterate word_text else Some word_text in
      match converted, convert_words rest with
      | Some text, Some rest' => Some (mkWord text (word_start word) (word_end word) :: rest')
      | _, _ => None
      end
  end.

(** One turn of the loop of [_romanize_to_devanagari] on a segment object. *)
Definition romanize_segment (segment : Segment) : Segment :=
  let original_text := sg_text segment in
  let latin_chars := count_chars is_ascii_alpha original_text in
  let devanagari_chars := count_chars in_devanagari_block original_text in
  if Nat.ltb devanagari_chars latin_chars
  then
    match transliterate original_text with
    | None => segment
    | Some converted_text =>
        match convert_words (sg_words segment) with
        | None => segment
        | Some words => mkSegment (sg_start segment) (sg_end segment) converted_text words
        end
    end
  else segment.

Fixpoint romanize_loop (segments : list raw_segment) : option (list raw_segment) :=
  match segments with
  | [] => Some []
  | SegDict _ _ _ :: _ => None
  | SegObject s :: rest =>
      match romanize_loop rest with
      | Some converted_segments => Some (SegObject (romanize_segment s) :: converted_segments)
      | None => None
      end
  end.

Definition _romanize_to_devanagari (segments : list raw_segment) : list raw_segment :=
  if negb TRANSLITERATION_AVAILABLE then segments
  else
    match romanize_loop segments with
    | Some converted_segments => converted_segments
    | None => segments
    end.

End WithLibraries.

(** The times of a caption segment: its own and those of its words. *)
Definition times_of (segment : raw_segment) : Q * Q * list (Q * Q) :=
  match segment with
  | SegObject s => (sg_start s, sg_end s, List.map Spec.timing (sg_words s))
  | SegDict d_start d_end _ => (d_start, d_end, [])
  end.

End CaptionLanguage.

(** ** What a computation does to the progress log *)

Module ProgressLog.
Import World.

(** The computation only appends to the progress log. *)
Definition appends {A : Type} (m : M A) : Prop :=
  forall w, exists l, progress (snd (m w)) = progress w ++ l.

(** The computation only appends to the progress log, and when it returns,
    the last entry it wrote is [entry]. *)
Definition finishes_with (entry : Z * pystr) {A : Type} (m : M A) : Prop :=
  forall w,
    match m w with
    | (Return _, w') => exists l, progress w' = progress w ++ l ++ [entry]
    | (Raise _, w') => exists l, progress w' = progress w ++ l
    end.

End ProgressLog.

(** ** complete_viral_clip_generator.py: download and transcription *)

Module Transcription.
Import World ProcessingJob CompleteViralClipGenerator.

(** What [whisper_model.transcribe] returns: the segments and
    [info.language]. *)
Record whisper_output : Type := mkWhisperOutput {
  wo_segments : list Segment;
  wo_language : pystr
}.

(** The dictionary [_download_and_transcribe_real] returns. *)
Record video_info : Type := mkVideoInfo {
  vi_video_path : pystr;
  vi_temp_dir : pystr;
  vi_detected_language : pystr;
  vi_original_filename : pystr;
  vi_transcript : list raw_segment
}.

(** What the environment of one call answers. *)
Record environment : Type := mkEnvironment {
  env_temp_dir : pystr;              (* tempfile.mkdtemp(prefix="viral_clips_") *)
  env_whisper_model :                (* self.whisper_model; None: no model was loaded *)
    option (option pystr -> bool -> option whisper_output);
      (* transcribe(language=.., initial_prompt=..): the language given (if
         any) and whether the Devanagari prompt is given; None: it raises *)
  env_timeframe : option (pyval * pyval)
      (* the module-level names timeframe_start and timeframe_end, which
         exist only when the file is run as a script; None: not defined *)
}.

Definition _download_and_transcribe_real (env : environment)
           (video_url : pyval) (video_language : pystr) : M (option video_info) :=
  try_except
    (let temp_dir := env_temp_dir env in
     create temp_dir ;;;
     (* [download_youtube_video(video_url, temp_dir)]: the module neither
        imports nor defines that name, so the call raises [NameError] *)
     dl <- raise (NameError (lit "name 'download_youtube_video' is not defined")) ;;
     let '(video_path, original_filename) := (dl : pystr * pystr) in
     found <-
       match env_whisper_model env with
       | Some transcribe =>
           let specified :=
             match video_language with
             | [] => false
             | _ => negb (str_eqb video_language (lit "auto"))
             end in
           let language := if specified then Some video_language else None in
           let initial_prompt := specified && str_eqb video_language (lit "hi") in
           first <-
             match transcribe language initial_prompt with
             | Some out => ret out
             | None => raise (RuntimeError (lit "transcription failed"))
             end ;;
           let detected_language := wo_language first in
           let segments :=
             if str_eqb detected_language (lit "hi") && negb initial_prompt
             then
               match transcribe (Some (lit "hi")) true with
               | Some again => wo_segments again
               | None => wo_segments first          (* using initial results *)
               end
             else wo_segments first in
           let transcript_segments :=
             List.map (fun segment =>
                         if str_eqb detected_language (lit "hi")
                         then _clean_hindi_segment segment
                         else segment) segments in
           transcript_segments <-
             match env_timeframe env with
             | Some (timeframe_start, timeframe_end) =>
                 lift (timeframe_filter timeframe_start timeframe_end transcript_segments)
             | None => raise (NameError (lit "name 'timeframe_start' is not defined"))
             end ;;
           ret (List.map SegObject transcript_segments, detected_language)
       | None => ret (Samples._get_mock_transcript, lit "en")
       end ;;
     let '(transcript_segments, detected_language) := found in
     ret (Some {| vi_video_path := video_path;
                  vi_temp_dir := temp_dir;
                  vi_detected_language := detected_language;
                  vi_original_filename := original_filename;
                  vi_transcript := transcript_segments |}))%W
    (fun _ => ret None).

End Transcription.

(** * More sample inputs *)

Module MoreSamples.
Import World ProcessingJob Samples.

Local Open Scope Q_scope.

(** The candidates of the mock transcript for the plain detector. *)
Definition mock_candidates : list VideoClip :=
  HookDetector.segment_transcript plain_detector
    (HookDetector.parse_whisper_segments _get_mock_transcript).

(** What [_find_viral_moments] selects on the mock transcript when asked
    for two clips of 20 to 40 s. *)
Definition mock_selection : list HookDetector.ClipDict :=
  match CompleteViralClipGenerator._find_viral_moments ascii_lower plain_generator
          _get_mock_transcript 2 4 20 40 with
  | Return top_clips => top_clips
  | Raise _ => []
  end.

(** A segment wholly in Arabic script (ALEF, BEH), with one token. *)
Definition arabic_segment : Segment :=
  mkSegment 3 4 [0x0627; 0x0628]%N [mkWord [0x0627; 0x0628]%N 3 4].

(** The first two entries of the mock transcript, as the detector keeps
    them. *)
Definition two_mock_entries : list TranscriptSegment :=
  HookDetector.parse_whisper_segments (firstn 2 _get_mock_transcript).

(** A video of 1280x720 whose layout run fails with an error message. *)
Definition failing_layout : ProcessingTools.layout_tools :=
  ProcessingTools.mkLayoutTools (Some (1280, 720)%Z) proc_failed
    (lit "Command returned non-zero exit status 1.").

(** The same video with a layout run that succeeds, and a video whose
    dimensions cannot be read. *)
Definition working_layout : ProcessingTools.layout_tools :=
  ProcessingTools.mkLayoutTools (Some (1280, 720)%Z) proc_ok [].

Definition unreadable_video : ProcessingTools.layout_tools :=
  ProcessingTools.mkLayoutTools None proc_ok [].

(** Two speakers, one after the other. *)
Definition two_speakers : list Speakers.speaker_segment :=
  [ Speakers.mkSpeakerSegment 0 5 (lit "SPEAKER_00");
    Speakers.mkSpeakerSegment 5 9 (lit "SPEAKER_01") ].

(** A transliteration library that raises on every text. *)
Definition failing_transliterate (text : pystr) : option pystr := None.

(** A segment of two seconds without word-level times. *)
Definition untimed_segment : Segment := mkSegment 10 12 (lit " one two three four ") [].

(** The faces the model finds on [face_frame]. *)
Definition faces_of_face_frame : list FaceDetector.face :=
  match FaceDetector.sample_loop [face_frame; empty_frame] 0 [] with
  | Return faces => faces
  | Raise _ => []
  end.

End MoreSamples.

(** * Properties *)

(** ** Strings *)

Module PyStrFacts.

Lemma str_eqb_eq (s t : pystr) : str_eqb s t = true <-> s = t.
Proof.
  revert t. induction s as [|c s IH]; intros [|d t]; simpl; split; try congruence.
  - intros H. apply andb_true_iff in H as [Hc Hs]. apply N.eqb_eq in Hc.
    apply IH in Hs. congruence.
  - intros H. inversion H; subst. rewrite N.eqb_refl. apply IH. reflexivity.
Qed.

Lemma startswith_app (p t : pystr) : startswith (p ++ t) p = true.
Proof.
  induction p as [|c p IH]; simpl; [destruct t; reflexivity|].
  rewrite N.eqb_refl. exact IH.
Qed.

Lemma startswith_inv (s p : pystr) :
  startswith s p = true -> s = p ++ skipn (List.length p) s.
Proof.
  revert s. induction p as [|c p IH]; intros s H; [reflexivity|].
  destruct s as [|d s]; [discriminate|]. simpl in H.
  apply andb_true_iff in H as [Hc Hs]. apply N.eqb_eq in Hc. subst d.
  simpl. f_equal. apply IH. exact Hs.
Qed.

(** [startswith] decides "[s] begins with [p]". *)
Lemma startswith_spec (s p : pystr) :
  startswith s p = true <-> exists t, s = p ++ t.
Proof.
  split.
  - intros H. eexists. apply startswith_inv. exact H.
  - intros [t ->]. apply startswith_app.
Qed.

(** [contains] decides "[p] occurs in [s]". *)
Lemma contains_spec (s p : pystr) :
  contains s p = true <-> exists a b, s = a ++ p ++ b.
Proof.
  split.
  - induction s as [|c s IH]; cbn [contains]; intros H.
    + rewrite orb_false_r in H. apply startswith_spec in H as [t Ht].
      exists [], t. exact Ht.
    + apply orb_true_iff in H as [H|H].
      * apply startswith_spec in H as [t Ht]. exists [], t. exact Ht.
      * destruct (IH H) as (a & b & ->). exists (c :: a), b. reflexivity.
  - intros (a & b & ->). induction a as [|c a IH].
    + cbn [app]. destruct (p ++ b) eqn:E; cbn [contains].
      * assert (p = []) as -> by (destruct p; [reflexivity|discriminate]). reflexivity.
      * rewrite <- E, startswith_app. reflexivity.
    + cbn [app contains]. rewrite IH. apply orb_true_r.
Qed.

End PyStrFacts.

(** ** Rational comparisons *)

Module QFacts.

Local Open Scope Q_scope.

Lemma qleb_le (x y : Q) : qleb x y = true <-> x <= y.
Proof. apply Qle_bool_iff. Qed.

Lemma qleb_gt (x y : Q) : qleb x y = false <-> y < x.
Proof.
  unfold qleb. split; intros H.
  - apply Qnot_le_lt. intros Hle. apply Qle_bool_iff in Hle. congruence.
  - destruct (Qle_bool x y) eqn:E; [|reflexivity].
    apply Qle_bool_iff in E. exfalso. apply (Qlt_not_le _ _ H E).
Qed.

Lemma qltb_lt (x y : Q) : qltb x y = true <-> x < y.
Proof.
  unfold qltb. rewrite negb_true_iff. apply (qleb_gt y x).
Qed.

Lemma qltb_ge (x y : Q) : qltb x y = false <-> y <= x.
Proof.
  unfold qltb. rewrite negb_false_iff. apply Qle_bool_iff.
Qed.

End QFacts.

(** ** Floors, rounding and [divmod] on rationals *)

Module RoundFacts.
Import QFacts.

Local Open Scope Q_scope.

Lemma py_int_inject_Z (z : Z) : py_int (inject_Z z) = z.
Proof. unfold py_int. cbn [inject_Z Qnum Qden]. apply Z.quot_1_r. Qed.

Lemma floor_le (x : Q) : inject_Z (Qfloor x) <= x.
Proof. apply Qfloor_le. Qed.

Lemma lt_floor_succ (x : Q) : x < inject_Z (Qfloor x) + 1.
Proof.
  pose proof (Qlt_floor x) as H. rewrite inject_Z_plus in H. exact H.
Qed.

(** The floor is the only integer [z] with [z <= x < z + 1]. *)
Lemma floor_unique (x : Q) (z : Z) :
  inject_Z z <= x -> x < inject_Z z + 1 -> Qfloor x = z.
Proof.
  intros Hle Hlt. apply Z.le_antisymm.
  - apply Z.lt_succ_r. rewrite Zlt_Qlt. unfold Z.succ. rewrite inject_Z_plus.
    apply Qle_lt_trans with x; [apply floor_le|exact Hlt].
  - rewrite <- (Qfloor_Z z). apply Qfloor_resp_le. exact Hle.
Qed.

Lemma floor_nonneg (x : Q) : 0 <= x -> (0 <= Qfloor x)%Z.
Proof.
  intros H. change 0%Z with (Qfloor 0). apply Qfloor_resp_le. exact H.
Qed.

(** On a rational that is not negative, [int] is the floor. *)
Lemma py_int_floor_nonneg (x : Q) : 0 <= x -> py_int x = Qfloor x.
Proof.
  destruct x as [n d]. unfold Qle, py_int, Qfloor. cbn [Qnum Qden].
  intros H. apply Z.quot_div_nonneg; lia.
Qed.

(** Rounding to the nearest integer moves by at most one half. *)
Lemma round_half_even_close (x : Q) :
  inject_Z (round_half_even x) - x <= 1 # 2 /\ x - inject_Z (round_half_even x) <= 1 # 2.
Proof.
  unfold round_half_even.
  pose proof (floor_le x) as Hle. pose proof (lt_floor_succ x) as Hlt.
  destruct (qltb (x - inject_Z (Qfloor x)) (1 # 2)) eqn:E1.
  { apply qltb_lt in E1. split; lra. }
  apply qltb_ge in E1.
  destruct (qltb (1 # 2) (x - inject_Z (Qfloor x))) eqn:E2.
  { rewrite inject_Z_plus. change (inject_Z 1) with 1. split; lra. }
  apply qltb_ge in E2.
  destruct (Z.even (Qfloor x)).
  - split; lra.
  - rewrite inject_Z_plus. change (inject_Z 1) with 1. split; lra.
Qed.

Lemma round_half_even_nonneg (x : Q) : 0 <= x -> (0 <= round_half_even x)%Z.
Proof.
  intros H. pose proof (floor_nonneg x H) as Hf. unfold round_half_even.
  destruct (qltb _ _); [exact Hf|]. destruct (qltb _ _); [lia|].
  destruct (Z.even _); lia.
Qed.

(** [divmod(x, y)] for a positive [y]. *)
Lemma py_divmod_spec (x y : Q) :
  0 < y ->
  fst (py_divmod x y) = inject_Z (Qfloor (x / y)) /\
  0 <= snd (py_divmod x y) /\ snd (py_divmod x y) < y /\
  x == fst (py_divmod x y) * y + snd (py_divmod x y).
Proof.
  intros Hy. unfold py_divmod. cbn [fst snd].
  pose proof (floor_le (x / y)) as Hle. pose proof (lt_floor_succ (x / y)) as Hlt.
  assert (Hx : x == (x / y) * y) by (field; lra).
  split; [reflexivity|]. repeat split.
  - assert (inject_Z (Qfloor (x / y)) * y <= (x / y) * y)
      by (apply Qmult_le_compat_r; [exact Hle|lra]). lra.
  - assert ((x / y) * y < (inject_Z (Qfloor (x / y)) + 1) * y)
      by (apply Qmult_lt_compat_r; [exact Hy|exact Hlt]). lra.
  - lra.
Qed.

Lemma py_divmod_nonneg (x y : Q) : 0 <= x -> 0 < y -> (0 <= Qfloor (x / y))%Z.
Proof.
  intros Hx Hy. apply floor_nonneg. apply Qle_shift_div_l; [exact Hy|lra].
Qed.

End RoundFacts.

(** ** Printing and reading decimal numbers *)

Module NumFacts.

Lemma cps_of_uint_digits (d : Decimal.uint) : Forall is_digit (cps_of_uint d).
Proof.
  induction d; cbn [cps_of_uint]; constructor; try assumption; unfold is_digit; lia.
Qed.

Lemma digits_are_digits (n : N) : Forall is_digit (digits n).
Proof. apply cps_of_uint_digits. Qed.

Lemma digits_nonempty (n : N) : digits n <> [].
Proof.
  unfold digits. intros H.
  assert (Hnil : N.to_uint n = Decimal.Nil) by (destruct (N.to_uint n); try discriminate; reflexivity).
  pose proof (DecimalN.Unsigned.of_to n) as Hn. rewrite Hnil in Hn. cbn in Hn. subst n.
  discriminate Hnil.
Qed.

Lemma parse_cps_acc (d : Decimal.uint) :
  forall acc, parse_digits (Npos acc) (cps_of_uint d) = Some (Npos (Pos.of_uint_acc d acc)).
Proof.
  induction d; intros acc; cbn [cps_of_uint parse_digits Pos.of_uint_acc];
    [reflexivity|..];
    cbn [digit_val N.leb N.compare Pos.compare Pos.compare_cont andb N.sub Pos.sub];
    match goal with
    | |- parse_digits ?a _ = Some (Npos (Pos.of_uint_acc _ ?b)) =>
        replace a with (Npos b) by lia
    end; apply IHd.
Qed.

Lemma parse_cps (d : Decimal.uint) :
  parse_digits 0 (cps_of_uint d) = Some (N.of_uint d).
Proof.
  unfold N.of_uint.
  induction d; cbn [cps_of_uint parse_digits Pos.of_uint]; [reflexivity|exact IHd|..];
    apply parse_cps_acc.
Qed.

Lemma parse_digits_of_digits (n : N) : parse_digits 0 (digits n) = Some n.
Proof.
  unfold digits. rewrite parse_cps. f_equal. apply DecimalN.Unsigned.of_to.
Qed.

Lemma parse_digits_zeros (k : nat) (s : pystr) :
  parse_digits 0 (repeat 48%N k ++ s) = parse_digits 0 s.
Proof. induction k as [|k IH]; [reflexivity|exact IH]. Qed.

Lemma zfill_nonempty (width : nat) (s : pystr) : s <> [] -> zfill width s <> [].
Proof.
  unfold zfill. intros Hs H. apply List.app_eq_nil in H as [_ H]. exact (Hs H).
Qed.

Lemma zfill_digits (width : nat) (s : pystr) : Forall is_digit s -> Forall is_digit (zfill width s).
Proof.
  intros H. unfold zfill. apply List.Forall_app. split; [|exact H].
  induction (width - List.length s)%nat; cbn [repeat]; constructor; [unfold is_digit; lia|assumption].
Qed.

(** Reading back a zero-padded number. *)
Lemma parse_nat_zfill (width : nat) (n : N) : parse_nat (zfill width (digits n)) = Some n.
Proof.
  unfold parse_nat.
  destruct (zfill width (digits n)) eqn:E.
  - exfalso. apply (zfill_nonempty width (digits n) (digits_nonempty n) E).
  - rewrite <- E. unfold zfill. rewrite parse_digits_zeros. apply parse_digits_of_digits.
Qed.

Lemma digit_not_space (c : N) : is_digit c -> is_space c = false.
Proof.
  unfold is_digit, is_space. intros [H1 H2].
  repeat match goal with
         | |- context [(?a <=? ?b)%N] => destruct (N.leb_spec a b); try lia
         | |- context [(?a =? ?b)%N] => destruct (N.eqb_spec a b); try lia
         end; reflexivity.
Qed.

Lemma lstrip_digits (s : pystr) : Forall is_digit s -> lstrip s = s.
Proof.
  intros H. destruct H as [|c s Hc Hs]; [reflexivity|].
  cbn [lstrip]. rewrite (digit_not_space c Hc). reflexivity.
Qed.

Lemma strip_digits (s : pystr) : Forall is_digit s -> strip s = s.
Proof.
  intros H. unfold strip, rstrip. rewrite (lstrip_digits s H).
  rewrite (lstrip_digits (rev s)) by (apply List.Forall_rev; exact H).
  apply List.rev_involutive.
Qed.

(** [int] reads back what [format_d] prints for a number that is not
    negative. *)
Lemma int_of_str_format_d (width : nat) (z : Z) :
  (0 <= z)%Z -> int_of_str (format_d width z) = Return z.
Proof.
  intros Hz. unfold format_d. destruct (z <? 0)%Z eqn:E; [apply Z.ltb_lt in E; lia|].
  unfold int_of_str.
  pose proof (zfill_digits width _ (digits_are_digits (Z.to_N z))) as Hd.
  rewrite (strip_digits _ Hd).
  destruct (zfill width (digits (Z.to_N z))) as [|c ds] eqn:Ez.
  { exfalso. apply (zfill_nonempty width _ (digits_nonempty (Z.to_N z)) Ez). }
  assert (Hc : is_digit c) by (inversion Hd; assumption). unfold is_digit in Hc.
  destruct (N.eqb_spec c 45); [lia|]. destruct (N.eqb_spec c 43); [lia|].
  rewrite <- Ez, parse_nat_zfill. f_equal. lia.
Qed.

(** Splitting at a separator that the pieces do not contain. *)
Lemma split_on_single (sep : N) (a : pystr) :
  Forall (fun c => c <> sep) a -> split_on sep a = [a].
Proof.
  induction 1 as [|c a Hc Ha IH]; cbn [split_on]; [reflexivity|].
  destruct (N.eqb_spec c sep); [contradiction|]. rewrite IH. reflexivity.
Qed.

Lemma split_on_app (sep : N) (a rest : pystr) :
  Forall (fun c => c <> sep) a ->
  split_on sep (a ++ sep :: rest) = a :: split_on sep rest.
Proof.
  induction 1 as [|c a Hc Ha IH]; cbn [split_on app].
  - rewrite N.eqb_refl. reflexivity.
  - destruct (N.eqb_spec c sep); [contradiction|]. rewrite IH. reflexivity.
Qed.

Lemma digits_no_sep (sep : N) (s : pystr) :
  (sep < 48 \/ 57 < sep)%N -> Forall is_digit s -> Forall (fun c => c <> sep) s.
Proof.
  intros Hsep H. eapply List.Forall_impl; [|exact H]. unfold is_digit. cbn beta. lia.
Qed.

End NumFacts.

(** ** Stable sorting *)

Module SortFacts.

Section Stable.

Context {A : Type}.
Variable before : A -> A -> bool.
(** [S] holds between the elements of the input, in input order; [R] is
    what the output must satisfy between its elements, in output order. *)
Variables S R : A -> A -> Prop.
Hypothesis before_R : forall y x, before y x = true -> R y x.
Hypothesis keep_R : forall x y, before y x = false -> S x y -> R x y.
Hypothesis skip_R : forall x y z, before y x = false -> R y z -> S x z -> R x z.

Lemma Forall_insert (P : A -> Prop) (x : A) (l : list A) :
  P x -> Forall P l -> Forall P (insert_stable before x l).
Proof using Type.
  intros Hx Hl. induction Hl as [|y l Hy Hl IH]; cbn [insert_stable].
  - constructor; [assumption|constructor].
  - destruct (before y x); repeat constructor; assumption.
Qed.

Lemma Forall_sorted (P : A -> Prop) (l : list A) :
  Forall P l -> Forall P (sorted_stable before l).
Proof using Type.
  induction 1 as [|x l Hx Hl IH]; cbn [sorted_stable]; [constructor|].
  apply Forall_insert; assumption.
Qed.

Lemma insert_ordered (x : A) (l : list A) :
  ForallOrdPairs R l -> Forall (S x) l ->
  ForallOrdPairs R (insert_stable before x l).
Proof using before_R keep_R skip_R.
  induction l as [|y l IH]; intros Hord HS; cbn [insert_stable].
  - repeat constructor.
  - inversion Hord as [|? ? Hy Hl]; subst. inversion HS as [|? ? HSy HSl]; subst.
    destruct (before y x) eqn:E.
    + constructor; [|apply IH; assumption].
      apply Forall_insert; [apply before_R; exact E|exact Hy].
    + constructor; [|exact Hord].
      constructor; [apply keep_R; assumption|].
      rewrite List.Forall_forall in *. intros z Hz.
      apply (skip_R x y z E); [apply Hy|apply HSl]; exact Hz.
Qed.

(** Sorting an input whose ordered pairs satisfy [S] gives an output whose
    ordered pairs satisfy [R]. *)
Lemma sorted_stable_ordered (l : list A) :
  ForallOrdPairs S l -> ForallOrdPairs R (sorted_stable before l).
Proof using before_R keep_R skip_R.
  induction 1 as [|x l Hx Hl IH]; cbn [sorted_stable]; [constructor|].
  apply insert_ordered; [exact IH|]. apply Forall_sorted. exact Hx.
Qed.

Lemma length_insert_stable (x : A) (l : list A) :
  List.length (insert_stable before x l) = Datatypes.S (List.length l).
Proof using Type.
  induction l as [|y l IH]; cbn [insert_stable]; [reflexivity|].
  destruct (before y x); cbn [List.length]; [rewrite IH|]; reflexivity.
Qed.

Lemma length_sorted_stable (l : list A) :
  List.length (sorted_stable before l) = List.length l.
Proof using Type.
  induction l as [|x l IH]; cbn [sorted_stable]; [reflexivity|].
  rewrite length_insert_stable, IH. reflexivity.
Qed.

End Stable.


Lemma ForallOrdPairs_map {A B : Type} (f : A -> B) (R : B -> B -> Prop) (l : list A) :
  ForallOrdPairs (fun a b => R (f a) (f b)) l -> ForallOrdPairs R (List.map f l).
Proof.
  induction 1 as [|x l Hx Hl IH]; cbn [List.map]; constructor; [|exact IH].
  rewrite List.Forall_forall in *. intros y Hy. apply in_map_iff in Hy as (z & <- & Hz).
  apply Hx. exact Hz.
Qed.

End SortFacts.

(** ** Regular expressions: what a successful match has consumed *)

Module ReFacts.
Import PyStrFacts.

(** [consumes r s s']: [r] matches a prefix of [s] and leaves [s']. *)
Inductive consumes : regex -> pystr -> pystr -> Prop :=
| c_lit l s' : consumes (Lit l) (l ++ s') s'
| c_class (p : N -> bool) c s' : p c = true -> consumes (Class p) (c :: s') s'
| c_cat r1 r2 s s1 s' : consumes r1 s s1 -> consumes r2 s1 s' -> consumes (Cat r1 r2) s s'
| c_alt_l r1 r2 s s' : consumes r1 s s' -> consumes (Alt r1 r2) s s'
| c_alt_r r1 r2 s s' : consumes r2 s s' -> consumes (Alt r1 r2) s s'
| c_opt_some r s s' : consumes r s s' -> consumes (Opt r) s s'
| c_opt_none r s : consumes (Opt r) s s
| c_times_0 r s : consumes (Times 0 r) s s
| c_times_S n r s s1 s' :
    consumes r s s1 -> consumes (Times n r) s1 s' -> consumes (Times (S n) r) s s'
| c_group r s s' : consumes r s s' -> consumes (Group r) s s'.

#[local] Hint Constructors consumes : core.

(** Whatever the matcher returns was produced by its continuation on a rest
    that the pattern leaves. *)
Lemma rmatch_sound {A : Type} (r : regex) :
  forall (s : pystr) (cap : option pystr) (k : pystr -> option pystr -> option A) (x : A),
    rmatch r s cap k = Some x ->
    exists s' cap', consumes r s s' /\ k s' cap' = Some x.
Proof.
  induction r as [l|p|r1 IH1 r2 IH2|r1 IH1 r2 IH2|r1 IH1|n r1 IH1|r1 IH1];
    intros s cap k x H; cbn [rmatch] in H.
  - destruct (startswith s l) eqn:E; [|discriminate].
    apply startswith_inv in E. exists (skipn (List.length l) s), cap. split; [|exact H].
    rewrite E at 1. constructor.
  - destruct s as [|c s]; [discriminate|].
    destruct (p c) eqn:E; [|discriminate]. exists s, cap. auto.
  - apply IH1 in H as (s1 & cap1 & Hc1 & H). apply IH2 in H as (s2 & cap2 & Hc2 & H).
    exists s2, cap2. eauto.
  - destruct (rmatch r1 s cap k) eqn:E.
    + inversion H; subst. apply IH1 in E as (s1 & cap1 & Hc & Hk). eauto.
    + apply IH2 in H as (s1 & cap1 & Hc & Hk). eauto.
  - destruct (rmatch r1 s cap k) eqn:E.
    + inversion H; subst. apply IH1 in E as (s1 & cap1 & Hc & Hk). eauto.
    + eauto.
  - revert s cap k x H. induction n as [|n IHn]; intros s cap k x H.
    + eauto.
    + apply IH1 in H as (s1 & cap1 & Hc1 & H).
      apply IHn in H as (s2 & cap2 & Hc2 & H). eauto.
  - apply IH1 in H as (s1 & cap1 & Hc & Hk). eauto.
Qed.

(** A match only ever drops a prefix of the subject. *)
Lemma consumes_suffix (r : regex) (s s' : pystr) :
  consumes r s s' -> exists pre, s = pre ++ s'.
Proof.
  induction 1 as [l s'|p c s' Hp|r1 r2 s s1 s' _ [p1 ->] _ [p2 ->]
                 |r1 r2 s s' _ IH|r1 r2 s s' _ IH|r s s' _ IH|r s|r s
                 |n r s s1 s' _ [p1 ->] _ [p2 ->]|r s s' _ IH].
  - exists l. reflexivity.
  - exists [c]. reflexivity.
  - exists (p1 ++ p2). apply app_assoc.
  - exact IH.
  - exact IH.
  - exact IH.
  - exists []. reflexivity.
  - exists []. reflexivity.
  - exists (p1 ++ p2). apply app_assoc.
  - exact IH.
Qed.

(** [r{n}] over a character class consumes exactly [n] characters of the class. *)
Lemma consumes_times_class (p : N -> bool) (n : nat) (s s' : pystr) :
  consumes (Times n (Class p)) s s' ->
  exists x, s = x ++ s' /\ List.length x = n /\ List.forallb p x = true.
Proof.
  revert s. induction n as [|n IH]; intros s H; inversion H; subst.
  - exists []. auto.
  - match goal with Hc : consumes (Class p) _ _ |- _ => inversion Hc; subst end.
    match goal with Ht : consumes (Times n _) _ _ |- _ => apply IH in Ht as (x & -> & Hl & Hf) end.
    exists (c :: x). simpl. rewrite Hl.
    match goal with Hp : p c = true |- _ => rewrite Hp end. auto.
Qed.

(** A successful search found a match at some position. *)
Lemma re_search_sound (r : regex) (s g : pystr) :
  re_search r s = Some g ->
  exists pre t s', s = pre ++ t /\ consumes r t s'.
Proof.
  induction s as [|c s IH]; cbn [re_search]; intros H.
  - destruct (re_match r []) eqn:E; [|discriminate].
    apply rmatch_sound in E as (s' & _ & Hc & _). exists [], [], s'. auto.
  - destruct (re_match r (c :: s)) eqn:E.
    + apply rmatch_sound in E as (s' & _ & Hc & _). exists [], (c :: s), s'. auto.
    + apply IH in H as (pre & t & s' & -> & Hc). exists (c :: pre), t, s'. auto.
Qed.

End ReFacts.

(** ** The [HH:MM:SS] round trip of a clip's start *)

Module TimestampRoundTrip.
Import HookDetector CompleteViralClipGenerator NumFacts RoundFacts QFacts.

Local Open Scope Q_scope.

Lemma format_d_digits (width : nat) (z : Z) : (0 <= z)%Z -> Forall is_digit (format_d width z).
Proof.
  intros Hz. unfold format_d. destruct (z <? 0)%Z eqn:E; [apply Z.ltb_lt in E; lia|].
  apply zfill_digits, digits_are_digits.
Qed.

Lemma timedelta_total_seconds_nonneg (x : Q) : 0 <= x -> 0 <= timedelta_total_seconds x.
Proof.
  intros Hx. unfold timedelta_total_seconds.
  apply Qle_shift_div_l; [reflexivity|]. rewrite Qmult_0_l.
  change 0 with (inject_Z 0). rewrite <- Zle_Qle.
  apply round_half_even_nonneg. apply Qmult_le_0_compat; [exact Hx|discriminate].
Qed.

(** Whole seconds of a duration given as hours, minutes and a rest. *)
Lemma floor_of_hms (total : Q) :
  0 <= total ->
  let H := Qfloor (total / 3600) in
  let R := total - inject_Z H * 3600 in
  let Mi := Qfloor (R / 60) in
  let Sec := R - inject_Z Mi * 60 in
  (0 <= H)%Z /\ (0 <= Mi)%Z /\ 0 <= Sec /\
  (H * 3600 + Mi * 60 + Qfloor Sec)%Z = Qfloor total.
Proof.
  intros Htotal H R Mi Sec.
  destruct (py_divmod_spec total 3600 ltac:(reflexivity)) as (_ & HR0 & HR1 & _).
  unfold py_divmod in HR0, HR1. cbn [fst snd] in HR0, HR1. fold H in HR0, HR1. fold R in HR0, HR1.
  destruct (py_divmod_spec R 60 ltac:(reflexivity)) as (_ & HS0 & HS1 & _).
  unfold py_divmod in HS0, HS1. cbn [fst snd] in HS0, HS1. fold Mi in HS0, HS1. fold Sec in HS0, HS1.
  split; [apply py_divmod_nonneg; [exact Htotal|reflexivity]|].
  split; [apply py_divmod_nonneg; [exact HR0|reflexivity]|].
  split; [exact HS0|].
  symmetry. apply floor_unique.
  - rewrite !inject_Z_plus, !inject_Z_mult.
    pose proof (floor_le Sec). unfold Sec, R in *.
    change (inject_Z 3600) with 3600. change (inject_Z 60) with 60. lra.
  - rewrite !inject_Z_plus, !inject_Z_mult.
    pose proof (lt_floor_succ Sec). unfold Sec, R in *.
    change (inject_Z 3600) with 3600. change (inject_Z 60) with 60. lra.
Qed.

(** Parsing the printed start gives the start in whole seconds: the
    duration is kept in microseconds, and its fraction of a second is
    dropped. *)
Lemma parse_format_timestamp (x : Q) :
  0 <= x ->
  _parse_timestamp (_format_timestamp x) = Return (Qfloor (timedelta_total_seconds x)).
Proof.
  intros Hx. pose proof (timedelta_total_seconds_nonneg x Hx) as Htotal.
  destruct (floor_of_hms _ Htotal) as (HH & HMi & HSec & Hsum). cbv zeta in HH, HMi, HSec, Hsum.
  unfold _format_timestamp, py_divmod. cbv beta zeta iota.
  rewrite !py_int_inject_Z, (py_int_floor_nonneg _ HSec).
  pose proof (floor_nonneg _ HSec) as HS.
  change (lit ":") with [58%N]. cbn [app]. unfold _parse_timestamp.
  rewrite split_on_app by (apply (digits_no_sep 58); [lia|apply format_d_digits; assumption]).
  rewrite split_on_app by (apply (digits_no_sep 58); [lia|apply format_d_digits; assumption]).
  rewrite split_on_single by (apply (digits_no_sep 58); [lia|apply format_d_digits; assumption]).
  rewrite !int_of_str_format_d by assumption.
  f_equal. exact Hsum.
Qed.

End TimestampRoundTrip.

(** ** The time a [format_time] field denotes *)

Module AssTime.
Import OpusProcessor NumFacts RoundFacts QFacts.

Local Open Scope Q_scope.

Lemma parse_nat_padded (k : nat) (n : N) : parse_nat (repeat 48%N k ++ digits n) = Some n.
Proof.
  unfold parse_nat. destruct (repeat 48%N k ++ digits n) eqn:E.
  - apply List.app_eq_nil in E as [_ E]. destruct (digits_nonempty n E).
  - rewrite <- E, parse_digits_zeros. apply parse_digits_of_digits.
Qed.

Lemma repeat_zero_digits (k : nat) : Forall is_digit (repeat 48%N k).
Proof. induction k; cbn [repeat]; constructor; [unfold is_digit; lia|assumption]. Qed.

(** Numbers below 100 print with at most two digits. *)
Lemma digits_below_100 (n : N) : (n < 100)%N -> (List.length (digits n) <= 2)%nat.
Proof.
  intros Hn.
  assert (Hall : List.forallb (fun k => Nat.leb (List.length (digits (N.of_nat k))) 2)
                   (List.seq 0 100) = true) by (vm_compute; reflexivity).
  rewrite List.forallb_forall in Hall.
  specialize (Hall (N.to_nat n)). rewrite N2Nat.id in Hall.
  apply Nat.leb_le, Hall, List.in_seq. lia.
Qed.

Lemma length_zfill_2 (n : N) : (n < 100)%N -> List.length (zfill 2 (digits n)) = 2%nat.
Proof.
  intros Hn. pose proof (digits_below_100 n Hn) as Hlen.
  unfold zfill. rewrite List.length_app, List.repeat_length. lia.
Qed.

Lemma Qabs_nonneg_eq (x : Q) : 0 <= x -> Qabs x = x.
Proof.
  destruct x as [n d]. unfold Qle, Qabs. cbn [Qnum Qden]. intros H.
  f_equal. apply Z.abs_eq. lia.
Qed.

(** The seconds field: integer part, full stop, two digits of hundredths. *)
Lemma format_05_2f_fields (s : Q) :
  0 <= s ->
  exists whole frac a b,
    format_05_2f s = whole ++ 46%N :: frac /\
    Forall is_digit whole /\ Forall is_digit frac /\
    parse_nat whole = Some a /\ parse_nat frac = Some b /\ List.length frac = 2%nat /\
    inject_Z (Z.of_N a) + inject_Z (Z.of_N b) / 100 == inject_Z (round_half_even (s * 100)) / 100.
Proof.
  intros Hs. unfold format_05_2f.
  assert (Hneg : qltb s 0 = false) by (apply qltb_ge; exact Hs). rewrite Hneg.
  rewrite (Qabs_nonneg_eq s Hs).
  set (cs := round_half_even (s * 100)).
  assert (Hcs : (0 <= cs)%Z).
  { apply round_half_even_nonneg. apply Qmult_le_0_compat; [exact Hs|discriminate]. }
  pose proof (Z.div_pos cs 100 Hcs ltac:(lia)) as Hq.
  pose proof (Z.mod_pos_bound cs 100 ltac:(lia)) as Hr.
  change (lit ".") with [46%N]. unfold zfill at 1.
  eexists (_ ++ digits (Z.to_N (cs / 100))), (zfill 2 (digits (Z.to_N (cs mod 100)))),
          (Z.to_N (cs / 100)), (Z.to_N (cs mod 100)).
  split; [rewrite <- List.app_assoc; reflexivity|].
  split; [apply List.Forall_app; split; [apply repeat_zero_digits|apply digits_are_digits]|].
  split; [apply zfill_digits, digits_are_digits|].
  split; [apply parse_nat_padded|]. split; [apply parse_nat_zfill|].
  split; [apply length_zfill_2; lia|].
  rewrite !Z2N.id by lia.
  rewrite (Z.div_mod cs 100) at 3 by lia.
  rewrite inject_Z_plus, inject_Z_mult. change (inject_Z 100) with 100. field.
Qed.

(** Minutes and hours of a whole number of minutes. *)
Lemma minutes_fields (M : Z) :
  (0 <= M)%Z ->
  let h := Qfloor (inject_Z M / 60) in
  let m := inject_Z M - inject_Z h * 60 in
  (0 <= h)%Z /\ 0 <= m /\ inject_Z (Qfloor m) == m.
Proof.
  intros HM h m.
  destruct (py_divmod_spec (inject_Z M) 60 ltac:(reflexivity)) as (_ & H0 & _ & _).
  unfold py_divmod in H0. cbn [snd] in H0. fold h in H0. fold m in H0.
  split; [apply py_divmod_nonneg; [change 0 with (inject_Z 0); rewrite <- Zle_Qle; exact HM|reflexivity]|].
  split; [exact H0|].
  assert (Hm : m == inject_Z (M - h * 60)).
  { unfold m. unfold Z.sub. rewrite inject_Z_plus, inject_Z_opp, inject_Z_mult. reflexivity. }
  rewrite (Qfloor_comp _ _ Hm), Qfloor_Z. symmetry. exact Hm.
Qed.

(** The field that [format_time] prints for a time that is not negative
    denotes that time to the nearest hundredth of a second: it is off by at
    most 5 ms. *)
Lemma ass_time_value_format_time (t : Q) :
  0 <= t ->
  exists v, Spec.ass_time_value (format_time t) = Some v /\ Qabs (v - t) <= 5 # 1000.
Proof.
  intros Ht. unfold format_time, py_divmod. cbv beta zeta iota.
  set (M := Qfloor (t / 60)).
  assert (HM : (0 <= M)%Z) by (apply py_divmod_nonneg; [exact Ht|reflexivity]).
  destruct (minutes_fields M HM) as (Hh & Hm0 & Hm). cbv zeta in Hh, Hm0, Hm.
  set (h := Qfloor (inject_Z M / 60)) in *.
  set (m := inject_Z M - inject_Z h * 60) in *.
  set (s := t - inject_Z M * 60).
  destruct (py_divmod_spec t 60 ltac:(reflexivity)) as (_ & Hs0 & Hs1 & _).
  unfold py_divmod in Hs0, Hs1. cbn [fst snd] in Hs0, Hs1. fold M in Hs0, Hs1. fold s in Hs0, Hs1.
  rewrite py_int_inject_Z, (py_int_floor_nonneg m Hm0).
  pose proof (floor_nonneg m Hm0) as Hfm.
  destruct (format_05_2f_fields s Hs0) as (whole & frac & a & b & -> & Hw & Hf & Ha & Hb & Hlen & Hval).
  change (lit ":") with [58%N]. cbn [app]. unfold Spec.ass_time_value.
  rewrite split_on_app by (apply (digits_no_sep 58); [lia|apply TimestampRoundTrip.format_d_digits; assumption]).
  rewrite split_on_app by (apply (digits_no_sep 58); [lia|apply TimestampRoundTrip.format_d_digits; assumption]).
  rewrite split_on_single.
  2:{ apply List.Forall_app. split; [apply (digits_no_sep 58); [lia|exact Hw]|].
      constructor; [lia|apply (digits_no_sep 58); [lia|exact Hf]]. }
  rewrite split_on_app by (apply (digits_no_sep 46); [lia|exact Hw]).
  rewrite split_on_single by (apply (digits_no_sep 46); [lia|exact Hf]).
  unfold format_d.
  destruct (h <? 0)%Z eqn:Eh; [apply Z.ltb_lt in Eh; lia|].
  destruct (Qfloor m <? 0)%Z eqn:Em; [apply Z.ltb_lt in Em; lia|].
  rewrite !parse_nat_zfill, Ha, Hb, Hlen.
  eexists. split; [reflexivity|].
  rewrite !Z2N.id by lia.
  change (inject_Z (10 ^ Z.of_nat 2)) with 100.
  destruct (round_half_even_close (s * 100)) as [Hc1 Hc2].
  assert (Hv : inject_Z h * 3600 + inject_Z (Qfloor m) * 60
               + inject_Z (Z.of_N a) + inject_Z (Z.of_N b) / 100 - t
               == (inject_Z (round_half_even (s * 100)) - s * 100) / 100).
  { rewrite <- Qplus_assoc, Hval, Hm. unfold m, s. field. }
  rewrite Hv. apply Qabs_Qle_condition. split.
  - apply Qle_shift_div_l; [reflexivity|]. lra.
  - apply Qle_shift_div_r; [reflexivity|]. lra.
Qed.

End AssTime.

(** ** C1: the times in a clip's caption script *)

Module CaptionTiming.
Import HookDetector OpusProcessor CompleteViralClipGenerator RoundFacts QFacts Invariants.

Local Open Scope Q_scope.

(** Chunking loses no word and keeps the order. *)
Lemma concat_chunks_of {A : Type} (chunk_size : nat) :
  (0 < chunk_size)%nat ->
  forall fuel (l : list A),
    (List.length l <= fuel)%nat -> List.concat (chunks_of fuel chunk_size l) = l.
Proof.
  intros Hn. induction fuel as [|fuel IH]; intros l Hl.
  - destruct l; [reflexivity|cbn [List.length] in Hl; lia].
  - destruct l as [|x l]; [reflexivity|].
    cbn [chunks_of List.concat].
    rewrite IH, List.firstn_skipn; [reflexivity|].
    rewrite List.length_skipn. cbn [List.length] in *. lia.
Qed.

(** One event per word, in the order of the words. *)
Lemma tiktok_viral_events_words (segments : list raw_segment) :
  tiktok_viral_events segments
  = List.map (fun wi => mkEvent (format_time (wi_start wi)) (format_time (wi_end wi)) (wi_word wi))
      (List.concat (List.map (fun segment =>
         match segment with
         | SegDict d_start d_end d_text => [mkWordInfo d_text d_start d_end]
         | SegObject _ => extract_word_timestamps segment
         end) segments)).
Proof.
  unfold tiktok_viral_events, chunk_words.
  rewrite <- List.concat_map, concat_chunks_of by lia. reflexivity.
Qed.

(** Variable chunking loses no word and keeps the order, when a line has
    at least one word. *)
Lemma concat_variable_chunks (draw : nat -> nat) (min_w max_w : nat) :
  (0 < min_w)%nat ->
  forall fuel k prev_size (l : list word_info),
    (List.length l <= fuel)%nat ->
    List.concat (variable_chunks fuel draw k prev_size min_w max_w l) = l.
Proof.
  intros Hmin. induction fuel as [|fuel IH]; intros k prev_size l Hl.
  - destruct l; [reflexivity|cbn [List.length] in Hl; lia].
  - destruct l as [|x l]; [reflexivity|].
    cbn [variable_chunks]. cbv zeta.
    match goal with
    | |- context [Nat.max min_w ?m] => set (size := Nat.max min_w m)
    end.
    assert (Hsize : (0 < size)%nat) by (unfold size; lia).
    destruct size as [|size']; [lia|].
    cbn [firstn List.concat app].
    rewrite IH.
    + change (x :: firstn size' l ++ skipn (S size') (x :: l))
        with (firstn (S size') (x :: l) ++ skipn (S size') (x :: l)).
      apply List.firstn_skipn.
    + rewrite List.length_skipn. cbn [List.length] in *. lia.
Qed.












Section Compiled.

Variable draw : nat -> nat.
Variable offset : Q.
Variable segs : list TranscriptSegment.
Hypothesis word_timed_segs :
  Forall (fun seg => exists o, ts_original_segment seg = Some (SegObject o) /\ sg_words o <> [])
         segs.




End Compiled.




End CaptionTiming.

Module CaptionTimingSamples.
Import HookDetector OpusProcessor CompleteViralClipGenerator Samples CaptionTiming.

Local Open Scope Q_scope.

Example format_time_samples :
  format_time (8559 # 1000) = lit "0:00:08.56" /\
  format_time (7325 # 1) = lit "2:02:05.00" /\
  format_time (59996 # 1000) = lit "0:00:60.00".
Proof. repeat split; vm_compute; reflexivity. Qed.

Example format_timestamp_samples :
  _format_timestamp (3663 # 1) = lit "01:01:03" /\
  _format_timestamp (1249 # 100) = lit "00:00:12" /\
  _format_timestamp (9999996 # 10000000) = lit "00:00:01".
Proof. repeat split; vm_compute; reflexivity. Qed.

Example half_second_clip_events :
  clip_caption_events (fun _ => 0%nat) (to_dict half_second_clip) (lit "TikTokViral")
  = Return [ (lit "0:00:02.00", lit "0:00:02.50"); (lit "0:00:02.50", lit "0:00:03.00") ].
Proof. vm_compute. reflexivity. Qed.

(** The clip starting at 72.5 s is cut at second 72: word by word, its
    first word, at 73.004 s, is shown at 1.00 s; line by line, three words
    to a line, the lines start with the first and the fourth word. *)
Example minute_clip_events :
  Spec.cut_start minute_clip = 72%Z /\
  clip_caption_events (fun _ => 0%nat) (to_dict minute_clip) (lit "TikTokViral")
  = Return [ (lit "0:00:01.00", lit "0:00:01.50"); (lit "0:00:01.50", lit "0:00:02.00");
             (lit "0:00:02.00", lit "0:00:02.50"); (lit "0:00:03.20", lit "0:00:04.00");
             (lit "0:00:04.00", lit "0:00:04.65") ] /\
  clip_caption_events (fun _ => 0%nat) (to_dict minute_clip) (lit "OpusClipStyle")
  = Return [ (lit "0:00:01.00", lit "0:00:02.50"); (lit "0:00:03.20", lit "0:00:04.65") ].
Proof. repeat split; vm_compute; reflexivity. Qed.

Lemma minute_clip_well_formed : Spec.well_formed_clip minute_clip.
Proof.
  split; [discriminate|]. split; [discriminate|].
  split; [reflexivity|]. split; [reflexivity|]. split.
  - split; [discriminate|].
    repeat constructor; eexists; (split; [reflexivity|discriminate]).
  - repeat constructor; vm_compute; discriminate.
Qed.


End CaptionTimingSamples.

(** ** C2: what of a submission reaches the job function *)

Module Submission.
Import QueueManager App Samples.

(** Whatever the keyword arguments, a job that is enqueued carries six
    positional arguments and no keyword argument. *)
Lemma enqueue_six_args (q_enqueue : job -> option exn) (kwargs : gmap string pyval) (j : job) :
  enqueue_processing_job q_enqueue kwargs = Return j ->
  List.length (job_args j) = 6%nat /\ job_kwargs j = ∅.
Proof.
  unfold enqueue_processing_job. destruct (q_enqueue _); [discriminate|].
  intros [= <-]. split; reflexivity.
Qed.

(** Hence the worker's call binds the timeframe and the three clip lengths
    to the defaults of the signature, whatever was submitted. *)
Lemma worker_call_uses_defaults (q_enqueue : job -> option exn) (kwargs : gmap string pyval)
      (j : job) :
  enqueue_processing_job q_enqueue kwargs = Return j ->
  exists p, worker_call j = Return p /\
            p_timeframe_start p = PyNone /\ p_timeframe_end p = PyNone /\
            p_min_clip_length p = PyInt 30 /\ p_max_clip_length p = PyInt 90 /\
            p_target_clip_length p = PyInt 60.
Proof.
  unfold enqueue_processing_job. destruct (q_enqueue _); [discriminate|].
  intros [= <-]. eexists. split.
  { unfold worker_call. cbn [job_kwargs job_args].
    rewrite map_to_list_empty. cbn. reflexivity. }
  cbn. repeat split; reflexivity.
Qed.

(** The endpoint takes any non-empty [video_url] as it is: the URL is only
    examined later, by the worker. *)
Lemma endpoint_accepts_any_url (url : pystr) :
  url <> [] ->
  exists j, create_job_endpoint json_any accepting_queue (form_with_url url) = Ok200 j /\
            List.nth_error (job_args j) 0 = Some (PyStr url).
Proof.
  intros Hurl. destruct url as [|c u]; [contradiction|].
  eexists. split; vm_compute; reflexivity.
Qed.

(** C2 (the code departs from the claim). On the sample submission, which
    sets timeframe 10-200 and clip lengths 15/45/20, the endpoint enqueues a
    job (the queue accepting it), and the job function is then called with
    no timeframe and with the default lengths 30/90/60: the submitted values
    are not in the payload. *)
Theorem submitted_timeframe_and_lengths_dropped :
  exists j p,
    create_job_endpoint json_any accepting_queue sample_form = Ok200 j /\
    worker_call j = Return p /\
    p_layout_mode p = PyStr (lit "fill") /\
    p_clip_duration p = PyInt 45 /\
    p_timeframe_start p = PyNone /\ p_timeframe_end p = PyNone /\
    p_min_clip_length p = PyInt 30 /\ p_max_clip_length p = PyInt 90 /\
    p_target_clip_length p = PyInt 60.
Proof.
  eexists. eexists. split; [vm_compute; reflexivity|].
  split; [vm_compute; reflexivity|].
  cbn. repeat split; reflexivity.
Qed.

End Submission.

(** ** C3: how many clips the selection returns *)

Module Selection.
Import HookDetector CompleteViralClipGenerator QFacts RoundFacts SortFacts.

Local Open Scope Q_scope.

Lemma length_slice_to {A : Type} (n : Z) (l : list A) :
  (0 <= n)%Z ->
  Z.of_nat (List.length (slice_to n l)) = Z.min n (Z.of_nat (List.length l)).
Proof.
  intros Hn. unfold slice_to.
  destruct (0 <=? n)%Z eqn:E; [|apply Z.leb_gt in E; lia].
  rewrite List.length_firstn. lia.
Qed.

Lemma smart_max_spec (minutes : Q) (theoretical_max : Z) :
  smart_max_of minutes theoretical_max = Z.min (Spec.automatic_ceiling minutes) theoretical_max.
Proof.
  unfold smart_max_of, Spec.automatic_ceiling, qleb.
  repeat (destruct (Qle_bool _ minutes); [reflexivity|]). reflexivity.
Qed.

Lemma automatic_ceiling_pos (minutes : Q) : (2 <= Spec.automatic_ceiling minutes)%Z.
Proof.
  unfold Spec.automatic_ceiling.
  repeat (destruct (Qle_bool _ minutes); [lia|]). lia.
Qed.

Section Select.

Variable str_lower : pystr -> pystr.
Variable self : CompleteViralClipGenerator.t.

(** C3, as the code has it. For every transcript whose duration (end of the
    last entry minus start of the first; 600 s for an empty transcript) can
    be computed and is not negative, every requested maximum that is not
    negative and clip lengths whose sum is positive, the number of clips
    returned by top-N selection equals min(requested_max, automatic_ceiling,
    feasible_ceiling, available). *)
Theorem selection_count (transcript_data : list raw_segment) (max_clips : Z)
        (min_score min_length max_length total_duration : Q) :
  (0 <= max_clips)%Z ->
  0 < min_length + max_length ->
  video_duration_seconds transcript_data = Return total_duration ->
  0 <= total_duration ->
  exists top_clips,
    _find_viral_moments str_lower self transcript_data max_clips min_score min_length max_length
    = Return top_clips /\
    Z.of_nat (List.length top_clips)
    = Spec.expected_clip_count max_clips total_duration min_length max_length
        (Spec.available str_lower self transcript_data).
Proof using Type.
  intros Hmax Hlen Hdur Hd. unfold _find_viral_moments. rewrite Hdur.
  assert (Havg : 0 < (min_length + max_length) / 2).
  { apply Qlt_shift_div_l; [reflexivity|]. rewrite Qmult_0_l. exact Hlen. }
  destruct (Qeq_bool ((min_length + max_length) / 2) 0) eqn:E.
  { apply Qeq_bool_iff in E. rewrite E in Havg. exfalso. apply (Qlt_irrefl _ Havg). }
  eexists. split; [reflexivity|].
  assert (Hq : 0 <= total_duration / ((min_length + max_length) / 2)).
  { apply Qle_shift_div_l; [exact Havg|]. rewrite Qmult_0_l. exact Hd. }
  assert (Htm : (0 <= py_int (total_duration / ((min_length + max_length) / 2)))%Z).
  { rewrite (py_int_floor_nonneg _ Hq). change 0%Z with (Qfloor 0). apply Qfloor_resp_le. exact Hq. }
  pose proof (automatic_ceiling_pos (total_duration / 60)) as Hceil.
  rewrite smart_max_spec, length_slice_to.
  - unfold sorted_by_reverse. rewrite length_sorted_stable.
    unfold find_viral_clips. rewrite List.length_map, length_slice_to by lia.
    unfold Spec.expected_clip_count, Spec.feasible_ceiling.
    unfold Spec.available. rewrite <- (py_int_floor_nonneg _ Hq). lia.
  - unfold find_viral_clips. rewrite List.length_map. lia.
Qed.

End Select.

(** C3 as stated fails: asked for -1 clips of 10 to 20 s, the selection
    returns 5 of the 9 candidates of the mock transcript (the ranking is
    cut with [[:-3]] and then with [[:-1]]), where the stated count is
    min(-1, 2, 5, 9) = -1. *)
Lemma negative_request_counterexample : ~ Spec.selection_count_for_every_request.
Proof.
  intros H.
  destruct (H ascii_lower Samples.short_clip_generator Samples._get_mock_transcript
              (-1)%Z 4 10 20 75 ltac:(reflexivity)) as (top_clips & Hrun & Hcount).
  vm_compute in Hrun. injection Hrun as <-.
  vm_compute in Hcount. discriminate Hcount.
Qed.

End Selection.

Module SelectionSamples.
Import HookDetector CompleteViralClipGenerator Samples Selection.

Local Open Scope Q_scope.

(** The mock transcript spans 75 s: ceiling 2, feasible 2, four candidates. *)
Example mock_selection_count :
  match _find_viral_moments ascii_lower plain_generator _get_mock_transcript 5 4 20 40 with
  | Return top_clips => List.length top_clips
  | Raise _ => 0%nat
  end = 2%nat.
Proof. vm_compute. reflexivity. Qed.

Lemma selection_count_witness :
  exists top_clips,
    _find_viral_moments ascii_lower plain_generator _get_mock_transcript 5 4 20 40
    = Return top_clips /\
    Z.of_nat (List.length top_clips)
    = Spec.expected_clip_count 5 75 20 40 (Spec.available ascii_lower plain_generator _get_mock_transcript).
Proof.
  apply (selection_count ascii_lower plain_generator _get_mock_transcript 5 4 20 40 75).
  - lia.
  - reflexivity.
  - vm_compute. reflexivity.
  - discriminate.
Defined.

End SelectionSamples.

(** ** C4: every candidate window lies in the configured length range *)

Module Segmentation.
Import HookDetector QFacts.

Local Open Scope Q_scope.

Section Windows.

Variable self : HookDetector.t.

Lemma inner_loop_best_in_range (clip_start : Q) (rest : list TranscriptSegment) :
  forall st, Invariants.best_in_range self clip_start st ->
             Invariants.best_in_range self clip_start (inner_loop self clip_start rest st).
Proof using Type.
  induction rest as [|segment rest IH]; intros st Hst; cbn [inner_loop]; [exact Hst|].
  destruct (qltb (max_length self) (ts_end_time segment - clip_start)) eqn:Emax; [exact Hst|].
  apply qltb_ge in Emax.
  destruct (qleb (min_length self) (ts_end_time segment - clip_start)
            && _is_sentence_boundary (ts_text segment)) eqn:Econd.
  - apply andb_true_iff in Econd as [Emin _]. apply qleb_le in Emin.
    assert (Hnew : Invariants.best_in_range self clip_start
                     (mkInner (clip_text st ++ lit " " ++ ts_text segment)
                        (clip_segments st ++ [segment])
                        (match best_clip st with
                         | None => Some (ts_end_time segment, clip_segments st ++ [segment],
                                         strip (clip_text st ++ lit " " ++ ts_text segment))
                         | Some (best_clip_end, _, _) =>
                             if qltb (Qabs (ts_end_time segment - clip_start - target_length self))
                                     (Qabs (best_clip_end - clip_start - target_length self))
                             then Some (ts_end_time segment, clip_segments st ++ [segment],
                                        strip (clip_text st ++ lit " " ++ ts_text segment))
                             else best_clip st
                         end))).
    { intros e segs txt. cbn [best_clip].
      destruct (best_clip st) as [[[be bs] bt]|] eqn:Eb.
      - destruct (qltb _ _).
        + intros [= <- <- <-]. auto.
        + intros [= <- <- <-]. apply (Hst be bs bt Eb).
      - intros [= <- <- <-]. auto. }
    destruct (qleb (target_length self) (ts_end_time segment - clip_start)).
    + exact Hnew.
    + apply IH. exact Hnew.
  - apply IH. intros e segs txt. cbn [best_clip]. apply Hst.
Qed.

Lemma outer_loop_in_range (fuel : nat) (segments : list TranscriptSegment) :
  forall i clip,
    In clip (outer_loop self fuel segments i) ->
    min_length self <= vc_duration clip /\ vc_duration clip <= max_length self.
Proof using Type.
  induction fuel as [|fuel IH]; intros i clip Hin; cbn [outer_loop] in Hin; [destruct Hin|].
  destruct (nth_error segments i) as [first|]; [|destruct Hin].
  pose proof (inner_loop_best_in_range (ts_start_time first) (skipn i segments) inner_init) as Hb.
  destruct (best_clip (inner_loop self (ts_start_time first) (skipn i segments) inner_init))
    as [[[e segs] txt]|] eqn:Eb.
  - destruct Hin as [<-|Hin].
    + cbn [vc_duration]. apply (Hb ltac:(intros ? ? ? [=]) e segs txt Eb).
    + apply (IH _ _ Hin).
  - apply (IH _ _ Hin).
Qed.

(** The outer loop stops by itself: any fuel that covers the remaining
    segments gives the same clips. *)
Lemma outer_loop_fuel_enough (segments : list TranscriptSegment) :
  forall fuel1 fuel2 i,
    (List.length segments <= i + fuel1)%nat ->
    (List.length segments <= i + fuel2)%nat ->
    outer_loop self fuel1 segments i = outer_loop self fuel2 segments i.
Proof using Type.
  induction fuel1 as [|fuel1 IH]; intros fuel2 i H1 H2.
  - assert (Hnone : nth_error segments i = None) by (apply nth_error_None; lia).
    destruct fuel2; cbn [outer_loop]; [reflexivity|]. rewrite Hnone. reflexivity.
  - destruct fuel2 as [|fuel2].
    + assert (Hnone : nth_error segments i = None) by (apply nth_error_None; lia).
      cbn [outer_loop]. rewrite Hnone. reflexivity.
    + cbn [outer_loop]. destruct (nth_error segments i) as [first|]; [|reflexivity].
      destruct (best_clip _) as [[[e segs] txt]|].
      * f_equal. apply IH; lia.
      * apply IH; lia.
Qed.

(** C4. Every candidate window produced by segmentation has a duration [d]
    with [min_length <= d <= max_length] (for every configuration, so in
    particular for those with [min_length <= max_length]). *)
Theorem candidate_duration_in_range (transcript_segments : list TranscriptSegment)
        (clip : VideoClip) :
  In clip (segment_transcript self transcript_segments) ->
  min_length self <= vc_duration clip /\ vc_duration clip <= max_length self.
Proof using Type.
  unfold segment_transcript. apply outer_loop_in_range.
Qed.

(** Segmentation does not depend on the bound put on the loop. *)
Lemma segment_transcript_any_fuel (transcript_segments : list TranscriptSegment) (fuel : nat) :
  (List.length transcript_segments <= fuel)%nat ->
  outer_loop self fuel (sorted_by ts_start_time transcript_segments) 0
  = segment_transcript self transcript_segments.
Proof using Type.
  intros H. unfold segment_transcript. apply outer_loop_fuel_enough.
  - assert (Hlen : List.length (sorted_by ts_start_time transcript_segments)
                   = List.length transcript_segments).
    { unfold sorted_by. induction transcript_segments as [|x l IHl]; [reflexivity|].
      cbn [sorted_stable].
      assert (Hins : forall y m, List.length (insert_stable
                        (fun y0 x0 => qltb (ts_start_time y0) (ts_start_time x0)) y m)
                      = S (List.length m)).
      { intros y m. induction m as [|z m IHm]; [reflexivity|].
        cbn [insert_stable]. destruct (qltb _ _); cbn [List.length]; [rewrite IHm|]; reflexivity. }
      rewrite Hins, IHl; [reflexivity|]. cbn [List.length] in H. lia. }
    lia.
  - lia.
Qed.

End Windows.

End Segmentation.

Module SegmentationSamples.
Import HookDetector Samples Segmentation.

Local Open Scope Q_scope.

Example mock_transcript_candidates :
  List.map (fun c => (vc_start_time c, vc_end_time c))
    (segment_transcript plain_detector (parse_whisper_segments _get_mock_transcript))
  = [(0, 30); (15, 45); (30, 60); (45, 75)].
Proof. vm_compute. reflexivity. Qed.

Lemma candidate_duration_witness :
  let clips := segment_transcript plain_detector (parse_whisper_segments _get_mock_transcript) in
  let clip := nth 0 clips (blank_clip 0 0 []) in
  In clip clips /\
  (min_length plain_detector <= vc_duration clip /\ vc_duration clip <= max_length plain_detector).
Proof.
  cbv zeta. split.
  - vm_compute. left. reflexivity.
  - apply (candidate_duration_in_range plain_detector
             (parse_whisper_segments _get_mock_transcript)).
    vm_compute. left. reflexivity.
Defined.

End SegmentationSamples.

(** ** C5: the order of the ranked list *)

Module Ranking.
Import HookDetector QFacts SortFacts.

Local Open Scope Q_scope.

Lemma ForallOrdPairs_True {A : Type} (l : list A) : ForallOrdPairs (fun _ _ => True) l.
Proof.
  induction l as [|x l IH]; constructor; [|exact IH].
  apply List.Forall_forall. auto.
Qed.


Section Ranked.

Variable str_lower : pystr -> pystr.
Variable self : HookDetector.t.




Lemma ForallOrdPairs_impl {A : Type} (P Q : A -> A -> Prop) (l : list A) :
  (forall a b, P a b -> Q a b) -> ForallOrdPairs P l -> ForallOrdPairs Q l.
Proof using Type.
  intros HPQ. induction 1 as [|x l Hx Hl IH]; constructor; [|exact IH].
  eapply List.Forall_impl; [|exact Hx]. apply HPQ.
Qed.

Lemma score_clips_descending (clips : list VideoClip) :
  Spec.ranked_descending (score_clips str_lower self clips).
Proof using Type.
  unfold score_clips, sorted_by_reverse, Spec.ranked_descending.
  apply (sorted_stable_ordered _ (fun _ _ => True)); [| | |apply ForallOrdPairs_True].
  - intros y x H. apply qltb_lt in H. apply Qlt_le_weak. exact H.
  - intros x y H _. apply qltb_ge in H. exact H.
  - intros x y z H Hyz _. apply qltb_ge in H. eapply Qle_trans; eassumption.
Qed.


End Ranked.

End Ranking.

(** ** C6: the hook score *)

Module Scoring.
Import HookDetector QFacts PyStrFacts.

Local Open Scope Q_scope.

Lemma length_filter_phrases (text_lower : pystr) (phrases : list pystr) :
  List.length (List.filter (fun keyword => contains text_lower keyword) phrases)
  = Spec.phrases_found text_lower phrases.
Proof.
  induction phrases as [|p ps IH]; cbn [List.filter Spec.phrases_found]; [reflexivity|].
  destruct (contains text_lower p); cbn [List.length]; rewrite IH; reflexivity.
Qed.

(** The first piece of [text.split('.')] is the first sentence. *)
Lemma split_on_first_sentence (text : pystr) :
  exists rest, split_on 46%N text = Spec.first_sentence text :: rest.
Proof.
  induction text as [|c text [rest IH]]; cbn [split_on Spec.first_sentence].
  - exists []. reflexivity.
  - destruct (N.eqb c 46).
    + eexists. reflexivity.
    + rewrite IH. eexists. reflexivity.
Qed.

(** ['?' in s] looks for the character. *)
Lemma contains_char (s : pystr) (c : N) :
  contains s [c] = List.existsb (N.eqb c) s.
Proof.
  induction s as [|d s IH]; cbn [contains List.existsb]; [reflexivity|].
  rewrite IH. f_equal. cbn [startswith]. destruct s; apply andb_true_r.
Qed.

Section Score.

Variable str_lower : pystr -> pystr.
Variable self : HookDetector.t.

Lemma detect_question_hook_spec (text : pystr) :
  _detect_question_hook str_lower text = Spec.is_question str_lower text.
Proof using Type.
  unfold _detect_question_hook, Spec.is_question.
  destruct (List.existsb _ QUESTION_STARTERS); [reflexivity|]. cbn [orb].
  destruct (split_on_first_sentence text) as [rest ->].
  apply (contains_char _ 63%N).
Qed.

Lemma length_bonus_spec (duration : Q) :
  _calculate_length_bonus self duration = Spec.length_bonus duration (target_length self).
Proof using Type.
  unfold _calculate_length_bonus, Spec.length_bonus, qleb.
  rewrite (Qmult_comm (target_length self) (1 # 10)). reflexivity.
Qed.

(** The found keywords are the phrases of the list that occur in the
    lower-cased text. *)
Lemma detect_hook_keywords_spec (text keyword : pystr) :
  In keyword (_detect_hook_keywords str_lower text) <->
  In keyword HOOK_KEYWORDS /\ exists a b, str_lower text = a ++ keyword ++ b.
Proof using Type.
  unfold _detect_hook_keywords. rewrite List.filter_In, contains_spec. reflexivity.
Qed.

Lemma qmin_1_range (x : Q) : 0 <= x -> 0 <= qmin 1 x /\ qmin 1 x <= 1.
Proof using Type.
  intros Hx. unfold qmin. destruct (qleb 1 x) eqn:E.
  - split; [discriminate|apply Qle_refl].
  - apply qleb_gt in E. split; [exact Hx|apply Qlt_le_weak; exact E].
Qed.

(** [min(1.0, x)] keeps [x] at 1. *)
Lemma qmin_1_at_most_1 (x : Q) : qmin 1 x == (if Qle_bool x 1 then x else 1).
Proof using Type.
  unfold qmin, qleb. destruct (Qle_bool 1 x) eqn:E1, (Qle_bool x 1) eqn:E2; try reflexivity.
  - apply Qle_bool_iff in E1, E2. apply Qle_antisym; assumption.
  - exfalso. destruct (Qlt_le_dec x 1) as [H|H].
    + apply Qlt_le_weak, Qle_bool_iff in H. congruence.
    + apply Qle_bool_iff in H. congruence.
Qed.

(** The label tests of the code are those of the specification. *)
Lemma label_in_spec (label : pystr) (score : Q) :
  (if label_in label ["positive"; "pos"]%string then qmin 1 (score * (12 # 10))
   else if label_in label ["negative"; "neg"]%string then qmin 1 (score * (13 # 10))
   else if label_in label ["neutral"]%string then score * (5 # 10)
   else score)
  == Spec.sentiment_intensity label score.
Proof using Type.
  unfold Spec.sentiment_intensity, label_in. cbn [List.existsb].
  rewrite !orb_false_r.
  destruct (str_eqb label (lit "positive") || str_eqb label (lit "pos"));
    [apply qmin_1_at_most_1|].
  destruct (str_eqb label (lit "negative") || str_eqb label (lit "neg"));
    [apply qmin_1_at_most_1|].
  destruct (str_eqb label (lit "neutral")); reflexivity.
Qed.

(** What [_analyze_emotion] makes of the first result of the model. *)
Lemma analyze_emotion_reading (text : pystr) (analyzer : pystr -> analyzer_output)
      (label : option pystr) (confidence : option Q) (rest : list analyzer_result) :
  sentiment_analyzer self = Some analyzer ->
  strip text <> [] ->
  analyzer (strip text) = AnalyzerList (ResultDict label confidence :: rest) ->
  _analyze_emotion str_lower self text
  == Spec.sentiment_intensity (str_lower (default [] label)) (default 0 confidence).
Proof using Type.
  intros Ha Ht Hr. unfold _analyze_emotion. rewrite Ha.
  destruct (strip text) as [|c t] eqn:Et; [contradiction|].
  rewrite Hr. apply label_in_spec.
Qed.

Lemma analyze_emotion_range (text : pystr) :
  Spec.confidences_in_unit_interval self ->
  0 <= _analyze_emotion str_lower self text /\ _analyze_emotion str_lower self text <= 1.
Proof using Type.
  intros Hconf. unfold _analyze_emotion.
  destruct (sentiment_analyzer self) as [analyzer|] eqn:Ea; [|split; discriminate].
  destruct (strip text) as [|c t] eqn:Et; [split; discriminate|].
  destruct (analyzer (c :: t)) as [|[|[label [score|]|] results]|] eqn:Er;
    try (split; discriminate).
  - destruct (Hconf analyzer (c :: t) label score results Ea Er) as [H0 H1].
    cbn [default option_rect from_option].
    destruct (label_in _ _).
    { apply qmin_1_range. apply Qmult_le_0_compat; [exact H0|discriminate]. }
    destruct (label_in _ _).
    { apply qmin_1_range. apply Qmult_le_0_compat; [exact H0|discriminate]. }
    destruct (label_in _ _); [|auto].
    split.
    + apply Qmult_le_0_compat; [exact H0|discriminate].
    + apply Qle_trans with (1 * (5 # 10)); [|discriminate].
      apply Qmult_le_compat_r; [exact H1|discriminate].
  - cbn [default option_rect from_option].
    destruct (label_in _ _); [split; discriminate|].
    destruct (label_in _ _); [split; discriminate|].
    destruct (label_in _ _); split; discriminate.
Qed.

(** C6. For every text, duration and target length, the hook score equals
    2 x (number of hook phrases found in the text, case ignored) + 2 (if the
    text begins with an interrogative starter or its first sentence contains
    a question mark) + 2 x e + the length bonus, where e is the normalized
    sentiment intensity: 0 when no sentiment model is present; with a model,
    the intensity of the label and the confidence that the model gives first
    for the text (positive x1.2 and negative x1.3, kept at 1; neutral x0.5;
    any other label the raw confidence; a missing label counts as unknown
    and a missing confidence as 0); and within [0,1] for a model that
    reports confidences within [0,1]. *)
Theorem hook_score_formula (clip : VideoClip) :
  let text := vc_transcript clip in
  exists e : Q,
    snd (_calculate_viral_score str_lower self clip)
    == Spec.hook_score str_lower e text (vc_duration clip) (target_length self) /\
    (sentiment_analyzer self = None -> e == 0) /\
    (forall analyzer label confidence rest,
        sentiment_analyzer self = Some analyzer ->
        strip text <> [] ->
        analyzer (strip text) = AnalyzerList (ResultDict label confidence :: rest) ->
        e == Spec.sentiment_intensity (str_lower (default [] label)) (default 0 confidence)) /\
    (Spec.confidences_in_unit_interval self -> 0 <= e /\ e <= 1).
Proof using Type.
  cbv zeta. exists (_analyze_emotion str_lower self (vc_transcript clip)).
  split; [|split; [|split]].
  - unfold _calculate_viral_score, Spec.hook_score. cbn [snd].
    rewrite detect_question_hook_spec, length_bonus_spec.
    unfold _detect_hook_keywords. rewrite length_filter_phrases.
    rewrite inject_Z_mult.
    destruct (Spec.is_question str_lower (vc_transcript clip)); ring.
  - intros Hnone. unfold _analyze_emotion. rewrite Hnone. reflexivity.
  - intros analyzer label confidence rest. apply analyze_emotion_reading.
  - apply analyze_emotion_range.
Qed.

End Score.

End Scoring.

Module ScoringSamples.
Import HookDetector Samples Scoring.

Local Open Scope Q_scope.

(** "secret", "secrets" and "crazy" are found, the text is a question, and
    30 s is the target: 2 x 3 + 2 + 0 + 1. *)
Example score_of_question_clip :
  snd (_calculate_viral_score ascii_lower plain_detector
         (blank_clip 0 30 (lit "What are the CRAZY secrets of this video?")))
  == 9.
Proof. vm_compute. reflexivity. Qed.

Example score_with_sentiment :
  snd (_calculate_viral_score ascii_lower sentiment_detector
         (blank_clip 0 50 (lit "Nothing special here.")))
  == 2.
Proof. vm_compute. reflexivity. Qed.

Lemma positive_analyzer_confidences : Spec.confidences_in_unit_interval sentiment_detector.
Proof.
  intros analyzer text label score rest [= <-] [= _ <- _]. split; discriminate.
Qed.

(** With the model that finds every text positive with confidence 0.9, the
    intensity is min(1, 0.9 x 1.2) = 1 and the score of a text without
    hooks, 20 s off the target, is 2. *)
Lemma hook_score_witness :
  sentiment_analyzer sentiment_detector = Some positive_analyzer /\
  strip (lit "Nothing special here.") <> [] /\
  Spec.confidences_in_unit_interval sentiment_detector /\
  exists e,
    snd (_calculate_viral_score ascii_lower sentiment_detector
           (blank_clip 0 50 (lit "Nothing special here.")))
    == Spec.hook_score ascii_lower e (lit "Nothing special here.") 50 30 /\
    e == Spec.sentiment_intensity (lit "positive") (9 # 10) /\
    e == 1 /\ 0 <= e /\ e <= 1.
Proof.
  assert (Hconf : Spec.confidences_in_unit_interval sentiment_detector).
  { intros analyzer text label score rest [= <-] [= _ <- _]. split; discriminate. }
  assert (Htext : strip (lit "Nothing special here.") <> []) by (vm_compute; discriminate).
  split; [reflexivity|]. split; [exact Htext|]. split; [exact Hconf|].
  destruct (hook_score_formula ascii_lower sentiment_detector
              (blank_clip 0 50 (lit "Nothing special here.")))
    as (e & Hscore & _ & Hreading & Hrange).
  specialize (Hreading positive_analyzer (Some (lit "POSITIVE")) (Some (9 # 10)) []
                eq_refl Htext eq_refl).
  exists e. split; [exact Hscore|]. split; [exact Hreading|]. split; [|exact (Hrange Hconf)].
  rewrite Hreading. reflexivity.
Defined.

End ScoringSamples.

(** ** C7: the face centre and its fallback *)

Module FaceCenter.
Import FaceDetector.

Lemma sample_loop_no_face (frames : list frame) :
  forall frame_count acc,
    Forall (fun fr => fr_detections fr = Some []) (Spec.sampled_from frame_count frames) ->
    sample_loop frames frame_count acc = Return acc.
Proof.
  induction frames as [|fr frames IH]; intros n acc H; cbn [sample_loop Spec.sampled_from] in *.
  - destruct (Nat.leb 300 n); reflexivity.
  - destruct (Nat.leb 300 n); [reflexivity|].
    destruct (Nat.eqb (Nat.modulo n 30) 0).
    + inversion H as [|? ? Hfr Hrest]; subst. rewrite Hfr. cbn [List.map].
      rewrite List.app_nil_r. apply IH. exact Hrest.
    + apply IH. exact H.
Qed.

(** C7, as the code has it. When the video opens, has a first frame, and no
    face is detected on the sampled frames, the operation returns the centre
    of the frame; when the video cannot be opened, or has no readable
    frame, it raises [ValueError]. *)
Theorem face_center_fallback (prefer_left_side : bool) (segment_time : option Q) :
  (forall fr frames,
      Spec.no_face_detected (fr :: frames) ->
      detect_face_center (Some (fr :: frames)) prefer_left_side segment_time
      = Return ((fr_w fr / 2)%Z, (fr_h fr / 2)%Z)) /\
  (exists msg, detect_face_center None prefer_left_side segment_time = Raise (ValueError msg)) /\
  (exists msg, detect_face_center (Some []) prefer_left_side segment_time
               = Raise (ValueError msg)).
Proof.
  split; [|split].
  - intros fr frames H. unfold detect_face_center.
    rewrite (sample_loop_no_face _ _ _ H). reflexivity.
  - eexists. reflexivity.
  - eexists. reflexivity.
Qed.

(** C7 as stated fails: on a video that cannot be opened the operation
    raises instead of returning a centre. *)
Lemma face_center_raises_counterexample : ~ Spec.face_center_never_raises.
Proof.
  intros H. destruct (H None true) as [c Hc]. discriminate Hc.
Qed.

End FaceCenter.

Module FaceCenterSamples.
Import FaceDetector Samples FaceCenter.

Example center_of_empty_video :
  detect_face_center (Some [empty_frame; empty_frame]) true None = Return (960, 540)%Z.
Proof. vm_compute. reflexivity. Qed.

(** One face, box centre at (0.2, 0.35) of 1920x1080. *)
Example center_of_single_face :
  detect_face_center (Some [face_frame; empty_frame]) true None = Return (384, 378)%Z.
Proof. vm_compute. reflexivity. Qed.

Example model_error_propagates :
  exists e, detect_face_center (Some [mkFrame 1080 1920 None]) true None = Raise e.
Proof. eexists. reflexivity. Qed.

Lemma face_center_fallback_witness :
  Spec.no_face_detected [empty_frame; empty_frame] /\
  detect_face_center (Some [empty_frame; empty_frame]) false None = Return (960, 540)%Z.
Proof.
  split.
  - repeat constructor.
  - apply (face_center_fallback false None).
    repeat constructor.
Defined.

End FaceCenterSamples.

(** ** C8: cleanup of a Hindi transcript *)

Module HindiCleanup.
Import CompleteViralClipGenerator.

Lemma lstrip_nil_iff (s : pystr) : lstrip s = [] <-> List.forallb is_space s = true.
Proof.
  induction s as [|c s IH]; cbn [lstrip List.forallb]; [tauto|].
  destruct (is_space c); cbn [andb]; [exact IH|]. split; discriminate.
Qed.

Lemma Forall_lstrip (P : N -> Prop) (s : pystr) : Forall P s -> Forall P (lstrip s).
Proof.
  induction 1 as [|c s Hc Hs IH]; cbn [lstrip]; [constructor|].
  destruct (is_space c); [exact IH|constructor; assumption].
Qed.

Lemma forallb_lstrip (s : pystr) :
  List.forallb is_space (lstrip s) = true -> List.forallb is_space s = true.
Proof.
  induction s as [|c s IH]; cbn [lstrip List.forallb]; [auto|].
  destruct (is_space c) eqn:E; cbn [andb]; [exact IH|].
  cbn [List.forallb]. rewrite E. discriminate.
Qed.

Lemma forallb_rev (f : N -> bool) (s : pystr) :
  List.forallb f (rev s) = List.forallb f s.
Proof.
  destruct (List.forallb f s) eqn:E.
  - rewrite List.forallb_forall in *. intros x Hx. apply E. apply List.in_rev. exact Hx.
  - destruct (List.forallb f (rev s)) eqn:E'; [|reflexivity].
    rewrite <- E. symmetry. rewrite List.forallb_forall in *.
    intros x Hx. apply E'. apply List.in_rev. rewrite List.rev_involutive. exact Hx.
Qed.

(** [strip] leaves nothing exactly when the text is all blanks. *)
Lemma strip_nil_iff (s : pystr) : strip s = [] <-> List.forallb is_space s = true.
Proof.
  unfold strip, rstrip. split.
  - intros H. apply forallb_lstrip. rewrite <- forallb_rev. apply lstrip_nil_iff.
    apply (f_equal (@rev N)) in H. rewrite List.rev_involutive in H. exact H.
  - intros H.
    assert (Hl : lstrip s = []) by (apply lstrip_nil_iff; exact H).
    rewrite Hl. reflexivity.
Qed.

Lemma Forall_strip (P : N -> Prop) (s : pystr) : Forall P s -> Forall P (strip s).
Proof.
  intros H. unfold strip, rstrip.
  apply List.Forall_rev, Forall_lstrip, List.Forall_rev, Forall_lstrip. exact H.
Qed.

(** A token survives exactly when it has an allowed code point that is not
    a blank. *)
Lemma cleaned_text_empty_iff (w : Word) :
  strip (List.filter is_devanagari_or_allowed (word_word w)) = [] <->
  Spec.has_allowed_content w = false.
Proof.
  rewrite strip_nil_iff. unfold Spec.has_allowed_content.
  induction (word_word w) as [|c s IH]; cbn [List.filter List.existsb List.forallb]; [tauto|].
  destruct (is_devanagari_or_allowed c); cbn [andb orb List.forallb].
  - destruct (is_space c); cbn [andb negb orb]; [exact IH|]. split; discriminate.
  - exact IH.
Qed.

Lemma clean_words_spec (words : list Word) :
  clean_words words = List.map Spec.cleaned_token (List.filter Spec.has_allowed_content words).
Proof.
  induction words as [|w words IH]; cbn [clean_words List.filter]; [reflexivity|].
  destruct (Spec.has_allowed_content w) eqn:E.
  - destruct (strip (List.filter is_devanagari_or_allowed (word_word w))) eqn:Es.
    + apply cleaned_text_empty_iff in Es. congruence.
    + cbn [List.map]. unfold Spec.cleaned_token at 1. rewrite Es, IH. reflexivity.
  - apply cleaned_text_empty_iff in E. rewrite E. exact IH.
Qed.

Lemma clean_segment_words (seg : Segment) :
  sg_words (_clean_hindi_segment seg) = clean_words (sg_words seg).
Proof.
  unfold _clean_hindi_segment. cbn [sg_words]. destruct (sg_words seg); reflexivity.
Qed.

(** C8, as the code has it. The cleanup removes from the text of every
    token the code points outside Devanagari, blank, [.,!?], the danda marks
    and digits (so Arabic, CJK, Hangul and Latin letters go), strips the
    blanks around what is left, and discards a token exactly when nothing is
    left; every surviving token keeps its start and end times, consists of
    allowed code points only, and the tokens stay in order. *)
Theorem hindi_cleanup_tokens (seg : Segment) :
  sg_words (_clean_hindi_segment seg)
  = List.map Spec.cleaned_token (List.filter Spec.has_allowed_content (sg_words seg)) /\
  List.map Spec.timing (sg_words (_clean_hindi_segment seg))
  = List.map Spec.timing (List.filter Spec.has_allowed_content (sg_words seg)) /\
  Forall (fun w => word_word w <> [] /\ Spec.only_allowed w = true)
         (sg_words (_clean_hindi_segment seg)).
Proof.
  rewrite clean_segment_words, clean_words_spec. split; [reflexivity|]. split.
  - rewrite List.map_map. reflexivity.
  - apply List.Forall_forall. intros w' Hin.
    apply List.in_map_iff in Hin as (w & <- & Hw). apply List.filter_In in Hw as [_ Hw].
    split.
    + cbn [Spec.cleaned_token word_word]. intros Hnil.
      apply cleaned_text_empty_iff in Hnil. congruence.
    + unfold Spec.only_allowed. cbn [Spec.cleaned_token word_word].
      apply List.forallb_forall. apply List.Forall_forall. apply Forall_strip.
      apply List.Forall_forall. intros c Hc. apply List.filter_In in Hc as [_ Hc]. exact Hc.
Qed.

(** C8 as stated fails: the token "a" + KA contains a Latin letter, and it
    is not discarded; it survives (as KA alone) with its times. *)
Lemma mixed_token_survives_counterexample : ~ Spec.hindi_cleanup_discards_mixed_tokens.
Proof.
  intros H. destruct (H Samples.mixed_token_segment) as (kept & Hsub & Hmap).
  change (List.filter Spec.only_allowed (sg_words Samples.mixed_token_segment))
    with (@nil Word) in Hsub.
  apply sublist_nil_r in Hsub. subst kept. vm_compute in Hmap. discriminate Hmap.
Qed.

End HindiCleanup.

Module HindiCleanupSamples.
Import CompleteViralClipGenerator Samples.

Example mixed_token_cleaned :
  sg_words (_clean_hindi_segment mixed_token_segment) = [mkWord [0x0915%N] 1 2].
Proof. vm_compute. reflexivity. Qed.

(** A token in Arabic script only is dropped; a Devanagari one is kept. *)
Example arabic_token_dropped :
  sg_words (_clean_hindi_segment
              (mkSegment 0 2 [0x0915; 32; 0x0643]%N
                 [mkWord [0x0915]%N 0 1; mkWord [32; 0x0643]%N 1 2]))
  = [mkWord [0x0915%N] 0 1].
Proof. vm_compute. reflexivity. Qed.

End HindiCleanupSamples.

(** ** C9: temporary files at the end of a job *)

Module TempFiles.
Import World ProcessingJob ClipRenderer Samples.

(** After [try: .. finally: shutil.rmtree(dir)] nothing is left at or
    below [dir], however the body ends. *)
Lemma try_finally_rmtree {A : Type} (m : M A) (dir : pystr) (w : world) (path : pystr) :
  path ∈ fs (snd (try_finally m (rmtree dir) w)) -> under dir path = false.
Proof.
  unfold try_finally, rmtree. destruct (m w) as [r w']. cbn [snd fs].
  intros H. apply elem_of_filter in H as [H _]. exact H.
Qed.

(** The job function of processing.py does release its working directory on
    every exit path. *)
Lemma run_opus_transcription_cleans_temp_dir
      (str_lower : pystr -> pystr) (tc : toolchain) (p : run_params) (w : world) (path : pystr) :
  path ∈ fs (snd (run_opus_transcription str_lower tc p w)) ->
  under (tc_temp_dir tc) path = false.
Proof.
  unfold run_opus_transcription, bind at 1, create at 1.
  apply try_finally_rmtree.
Qed.

(** C9 (the code departs from the claim). A job with one selected clip
    whose layout step fails ends with an empty clip list, and the segment
    cut for that clip is still on disk, next to the downloaded video and the
    working directory, which nothing removes. *)
Theorem failed_clip_leaves_temp_files :
  let run := _generate_complete_clips ascii_lower [layout_fails] [selected_clip]
               (lit "/tmp/viral_clips_x1/video.mp4") (lit "/tmp/viral_clips_x1") None
               (lit "fit") (lit "TikTokViral") (lit "/app/exports/clips") download_done in
  fst run = Return [] /\
  fs (snd run) = {[ lit "/tmp/viral_clips_x1";
                    lit "/tmp/viral_clips_x1/video.mp4";
                    lit "/tmp/viral_clips_x1/segment_0_30.mp4";
                    lit "/app/exports/clips" ]}.
Proof.
  cbv zeta. split; [vm_compute; reflexivity|].
  apply set_eq. intros x. vm_compute. tauto.
Qed.

(** Even when every step succeeds, the job leaves the working directory
    with the downloaded video, the directory made for the burn, and the
    copy of the script saved for inspection. *)
Example successful_clip_leaves_files :
  let run := _generate_complete_clips ascii_lower [all_steps_succeed] [selected_clip]
               (lit "/tmp/viral_clips_x1/video.mp4") (lit "/tmp/viral_clips_x1") None
               (lit "fit") (lit "TikTokViral") (lit "/app/exports/clips") download_done in
  fst run = Return [mkGenerated 1 (lit "viral_clip_1_score_1_0_fit_tiktokviral.mp4")
                      (lit "/app/exports/clips/viral_clip_1_score_1_0_fit_tiktokviral.mp4")] /\
  fs (snd run) = {[ lit "/tmp/viral_clips_x1";
                    lit "/tmp/viral_clips_x1/video.mp4";
                    lit "/tmp/viral_clips_x1/exports/clips";
                    lit "/app/debug_swipeup_captions.ass";
                    lit "/app/exports/clips";
                    lit "/app/exports/clips/viral_clip_1_score_1_0_fit_tiktokviral.mp4" ]}.
Proof.
  cbv zeta. split; [vm_compute; reflexivity|].
  apply set_eq. intros x. vm_compute. tauto.
Qed.

End TempFiles.

(** ** C10: a URL outside the accepted forms is refused before any download *)

Module UrlValidation.
Import PyStrFacts ReFacts Processing World ProcessingJob.

Lemma skipn_app_exact {A : Type} (a b : list A) : skipn (List.length a) (a ++ b) = b.
Proof. induction a; simpl; auto. Qed.

Lemma firstn_app_exact {A : Type} (a b : list A) : firstn (List.length a) (a ++ b) = a.
Proof. induction a; simpl; [destruct b; reflexivity|]. f_equal. assumption. Qed.

(** A match of one of the four patterns has the form the specification
    describes: the marker followed by an 11-character id. *)
Lemma pattern_match_form (marker : string) (t s' : pystr) :
  consumes (youtube_pattern marker) t s' ->
  exists pre id, t = pre ++ lit marker ++ id ++ s' /\
                 List.length id = 11%nat /\ List.forallb id_char id = true.
Proof.
  unfold youtube_pattern, video_id_group. intros H.
  inversion H as [| |r1 r2 s0 t1 s0' Hpre Hrest| | | | | | |]; subst.
  inversion Hrest as [| |r1 r2 s0 t2 s0' Hlit Hgrp| | | | | | |]; subst.
  inversion Hlit; subst. inversion Hgrp as [| | | | | | | | |r0 s0 s0' Htimes]; subst.
  apply consumes_times_class in Htimes as (id & -> & Hlen & Hall).
  apply consumes_suffix in Hpre as [pre ->].
  exists pre, id. auto.
Qed.

Lemma search_implies_form (marker : string) (url g : pystr) :
  re_search (youtube_pattern marker) url = Some g ->
  Spec.marker_followed_by_id (lit marker) url = true.
Proof.
  intros H. apply re_search_sound in H as (pre & t & s' & -> & Hc).
  apply pattern_match_form in Hc as (pre2 & id & -> & Hlen & Hall).
  unfold Spec.marker_followed_by_id. apply List.existsb_exists.
  exists (List.length (pre ++ pre2)). split.
  - apply List.in_seq. rewrite !List.length_app. lia.
  - rewrite (app_assoc pre pre2), skipn_app_exact, startswith_app, skipn_app_exact.
    rewrite <- Hlen, firstn_app_exact. unfold Spec.is_video_id.
    rewrite Hlen, Hall. reflexivity.
Qed.

Lemma no_form_no_match (url : pystr) :
  Spec.accepted_url_form url = false ->
  first_match youtube_patterns url = None.
Proof.
  unfold Spec.accepted_url_form. cbn [List.existsb]. intros H.
  repeat (apply orb_false_iff in H as [? H]).
  unfold youtube_patterns. cbn [first_match].
  repeat match goal with
         | |- context [re_search (youtube_pattern ?m) url] =>
             destruct (re_search (youtube_pattern m) url) eqn:?;
             [ exfalso;
               match goal with
               | E : re_search _ _ = Some _ |- _ =>
                   apply search_implies_form in E; congruence
               end | ]
         end.
  reflexivity.
Qed.

(** Conversely, the matcher finds every occurrence of that form, so the
    form is exactly what the four patterns accept. *)
Lemma rmatch_opt_skip {A : Type} (r : regex) (s : pystr) (cap : option pystr)
      (k : pystr -> option pystr -> option A) :
  k s cap <> None -> rmatch (Opt r) s cap k <> None.
Proof.
  intros H. cbn [rmatch]. destruct (rmatch r s cap k); [discriminate|exact H].
Qed.

Lemma rmatch_times_class {A : Type} (p : N -> bool) (id : pystr) :
  List.forallb p id = true ->
  forall (rest : pystr) (cap : option pystr) (k : pystr -> option pystr -> option A),
    rmatch (Times (List.length id) (Class p)) (id ++ rest) cap k = k rest cap.
Proof.
  induction id as [|c id IH]; intros Hall rest cap k; [reflexivity|].
  cbn [List.forallb] in Hall. apply andb_true_iff in Hall as [Hc Hall].
  cbn [List.length app]. cbn [rmatch]. rewrite Hc. apply (IH Hall).
Qed.

Lemma rmatch_cat {A : Type} (r1 r2 : regex) (s : pystr) (cap : option pystr)
      (k : pystr -> option pystr -> option A) :
  rmatch (Cat r1 r2) s cap k = rmatch r1 s cap (fun s' cap' => rmatch r2 s' cap' k).
Proof. reflexivity. Qed.

Lemma rmatch_lit {A : Type} (l t : pystr) (cap : option pystr)
      (k : pystr -> option pystr -> option A) :
  rmatch (Lit l) (l ++ t) cap k = k t cap.
Proof. cbn [rmatch]. rewrite startswith_app, skipn_app_exact. reflexivity. Qed.

Lemma rmatch_group {A : Type} (r : regex) (s : pystr) (cap : option pystr)
      (k : pystr -> option pystr -> option A) :
  rmatch (Group r) s cap k
  = rmatch r s cap (fun s' _ => k s' (Some (firstn (List.length s - List.length s') s))).
Proof. reflexivity. Qed.

Lemma match_at_marker (marker : string) (id rest : pystr) :
  List.length id = 11%nat -> List.forallb id_char id = true ->
  re_match (youtube_pattern marker) (lit marker ++ id ++ rest) <> None.
Proof.
  intros Hlen Hall. unfold re_match, youtube_pattern, scheme_www, video_id_group.
  rewrite !rmatch_cat. apply rmatch_opt_skip. apply rmatch_opt_skip.
  rewrite rmatch_cat, rmatch_lit, rmatch_group.
  rewrite <- Hlen. rewrite (rmatch_times_class _ _ Hall). discriminate.
Qed.

Lemma re_search_at (r : regex) (i : nat) :
  forall s, re_match r (skipn i s) <> None -> re_search r s <> None.
Proof.
  induction i as [|i IH]; intros s H.
  - cbn [skipn] in H. destruct s; cbn [re_search]; destruct (re_match r _); congruence.
  - destruct s as [|c s]; cbn [skipn] in H.
    + cbn [re_search]. destruct (re_match r []); congruence.
    + cbn [re_search]. destruct (re_match r (c :: s)); [discriminate|]. apply IH. exact H.
Qed.

Lemma form_implies_search (marker : string) (url : pystr) :
  Spec.marker_followed_by_id (lit marker) url = true ->
  re_search (youtube_pattern marker) url <> None.
Proof.
  unfold Spec.marker_followed_by_id. intros H.
  apply List.existsb_exists in H as (i & _ & H).
  apply andb_true_iff in H as [Hstart Hid].
  apply startswith_inv in Hstart.
  unfold Spec.is_video_id in Hid. apply andb_true_iff in Hid as [Hlen Hall].
  apply Nat.eqb_eq in Hlen.
  apply (re_search_at _ i). rewrite Hstart.
  rewrite <- (List.firstn_skipn 11 (skipn (List.length (lit marker)) (skipn i url))).
  apply match_at_marker; assumption.
Qed.

(** The four patterns accept exactly the URLs of the accepted form. *)
Lemma first_match_iff_form (url : pystr) :
  first_match youtube_patterns url = None <-> Spec.accepted_url_form url = false.
Proof.
  split; [|apply no_form_no_match].
  unfold Spec.accepted_url_form, youtube_patterns. cbn [first_match List.existsb]. intros H.
  repeat match goal with
         | H : context [re_search (youtube_pattern ?m) url] |- _ =>
             pose proof (form_implies_search m url);
             destruct (re_search (youtube_pattern m) url); [discriminate H|]
         end.
  repeat match goal with
         | |- context [Spec.marker_followed_by_id ?m url] =>
             destruct (Spec.marker_followed_by_id m url);
             [ exfalso;
               match goal with
               | Hx : true = true -> _ |- _ => exact (Hx eq_refl eq_refl)
               end | ]
         end.
  reflexivity.
Qed.

Lemma validate_rejects (url : pystr) :
  Spec.accepted_url_form url = false ->
  fst (validate_youtube_url (PyStr url)) = false.
Proof.
  intros H. unfold validate_youtube_url. destruct url as [|c url]; [reflexivity|].
  rewrite (no_form_no_match _ H). reflexivity.
Qed.

(** The download step raises [ValueError] on such a URL and leaves the
    world as it was. *)
Lemma download_rejects (tc : toolchain) (url temp_dir : pystr) (w : world) :
  Spec.accepted_url_form url = false ->
  exists msg, download_youtube_video tc (PyStr url) temp_dir w = (Raise (ValueError msg), w).
Proof.
  intros H. apply validate_rejects in H. unfold download_youtube_video.
  destruct (validate_youtube_url (PyStr url)) as [is_valid err]. simpl in H. subst.
  simpl. eexists. reflexivity.
Qed.

(** C10. For every source URL that has none of the four accepted forms, the
    job function run by the worker raises a validation error ([ValueError])
    and starts no child process at all, so no download is attempted. *)
Theorem invalid_url_rejected_before_download
        (str_lower : pystr -> pystr) (tc : toolchain) (p : run_params) (url : pystr) (w : world) :
  p_youtube_url p = PyStr url ->
  Spec.accepted_url_form url = false ->
  (exists msg, fst (run_opus_transcription str_lower tc p w) = Raise (ValueError msg)) /\
  spawned (snd (run_opus_transcription str_lower tc p w)) = spawned w.
Proof.
  intros Hp Hform. unfold run_opus_transcription.
  unfold try_finally, try_except, bind, create, update_job_progress. cbn [fs spawned progress].
  rewrite Hp.
  match goal with
  | |- context [download_youtube_video tc (PyStr url) ?d ?w0] =>
      destruct (download_rejects tc url d w0 Hform) as [msg ->]
  end.
  cbn. split; [exists msg|]; reflexivity.
Qed.

End UrlValidation.

Module UrlValidationSamples.
Import Processing World ProcessingJob Samples UrlValidation.

Example validate_watch_url :
  validate_youtube_url (PyStr (lit "https://www.youtube.com/watch?v=dQw4w9WgXcQ"))
  = (true, lit "Valid YouTube URL").
Proof. vm_compute. reflexivity. Qed.

Example validate_short_url :
  fst (validate_youtube_url (PyStr (lit "youtu.be/dQw4w9WgXcQ"))) = true.
Proof. vm_compute. reflexivity. Qed.

Example validate_other_site :
  validate_youtube_url (PyStr (lit "https://example.com/video.mp4"))
  = (false, lit "Invalid YouTube URL format.").
Proof. vm_compute. reflexivity. Qed.

Example validate_none :
  validate_youtube_url PyNone = (false, lit "URL must be a non-empty string").
Proof. reflexivity. Qed.

Lemma invalid_url_rejected_witness :
  (exists msg,
     fst (run_opus_transcription ascii_lower good_toolchain
            (params_for (lit "https://example.com/video.mp4")) empty_world)
     = Raise (ValueError msg)) /\
  spawned (snd (run_opus_transcription ascii_lower good_toolchain
                  (params_for (lit "https://example.com/video.mp4")) empty_world))
  = spawned empty_world.
Proof.
  apply (invalid_url_rejected_before_download ascii_lower good_toolchain
           (params_for (lit "https://example.com/video.mp4"))
           (lit "https://example.com/video.mp4") empty_world).
  - reflexivity.
  - vm_compute. reflexivity.
Defined.

End UrlValidationSamples.

(** ** Segmentation: the shape of a candidate *)

Module CandidateWindows.
Import HookDetector QFacts Windows.

Local Open Scope Q_scope.

Section Shape.

Variable self : HookDetector.t.

Lemma joined_text_snoc (segs : list TranscriptSegment) (segment : TranscriptSegment) :
  joined_text (segs ++ [segment]) = joined_text segs ++ lit " " ++ ts_text segment.
Proof using Type.
  unfold joined_text. rewrite List.map_app, List.concat_app. cbn [List.map List.concat].
  rewrite List.app_nil_r. reflexivity.
Qed.

Lemma inner_loop_inv (clip_start : Q) (rest0 : list TranscriptSegment) :
  forall rest st,
    rest0 = clip_segments st ++ rest ->
    inner_inv rest0 st -> inner_inv rest0 (inner_loop self clip_start rest st).
Proof using Type.
  induction rest as [|segment rest IH]; intros st Hsplit Hst; cbn [inner_loop]; [exact Hst|].
  destruct (qltb (max_length self) (ts_end_time segment - clip_start)); [exact Hst|].
  destruct Hst as [Htext Hbest].
  assert (Hsplit' : rest0 = (clip_segments st ++ [segment]) ++ rest).
  { rewrite <- List.app_assoc. exact Hsplit. }
  assert (Htext' : clip_text st ++ lit " " ++ ts_text segment
                   = joined_text (clip_segments st ++ [segment])).
  { rewrite joined_text_snoc, Htext. reflexivity. }
  destruct (qleb (min_length self) (ts_end_time segment - clip_start)
            && _is_sentence_boundary (ts_text segment)) eqn:Econd.
  - apply andb_true_iff in Econd as [_ Hboundary].
    assert (Hnew : inner_inv rest0
                     (mkInner (clip_text st ++ lit " " ++ ts_text segment)
                        (clip_segments st ++ [segment])
                        (match best_clip st with
                         | None => Some (ts_end_time segment, clip_segments st ++ [segment],
                                         strip (clip_text st ++ lit " " ++ ts_text segment))
                         | Some (best_clip_end, _, _) =>
                             if qltb (Qabs (ts_end_time segment - clip_start - target_length self))
                                     (Qabs (best_clip_end - clip_start - target_length self))
                             then Some (ts_end_time segment, clip_segments st ++ [segment],
                                        strip (clip_text st ++ lit " " ++ ts_text segment))
                             else best_clip st
                         end))).
    { split; [exact Htext'|]. cbn [best_clip].
      assert (Hthis : forall e segs txt,
                 Some (ts_end_time segment, clip_segments st ++ [segment],
                       strip (clip_text st ++ lit " " ++ ts_text segment)) = Some (e, segs, txt) ->
                 (exists after, rest0 = segs ++ after) /\
                 (exists prefix last_seg,
                     segs = prefix ++ [last_seg] /\ ts_end_time last_seg = e /\
                     _is_sentence_boundary (ts_text last_seg) = true) /\
                 txt = strip (joined_text segs)).
      { intros e segs txt [= <- <- <-]. split; [exists rest; exact Hsplit'|].
        split; [exists (clip_segments st), segment; auto|]. exact (f_equal strip Htext'). }
      intros e segs txt. destruct (best_clip st) as [[[be bs] bt]|] eqn:Eb.
      - destruct (qltb _ _); [apply Hthis|]. intros H. apply Hbest. exact H.
      - apply Hthis. }
    destruct (qleb (target_length self) (ts_end_time segment - clip_start)); [exact Hnew|].
    apply IH; [exact Hsplit'|exact Hnew].
  - apply IH; [exact Hsplit'|]. split; [exact Htext'|exact Hbest].
Qed.

Lemma outer_loop_windows (segments : list TranscriptSegment) :
  forall fuel i clip,
    In clip (outer_loop self fuel segments i) -> is_window segments clip.
Proof using Type.
  induction fuel as [|fuel IH]; intros i clip Hin; cbn [outer_loop] in Hin; [destruct Hin|].
  destruct (nth_error segments i) as [first|] eqn:Ei; [|destruct Hin].
  pose proof (inner_loop_inv (ts_start_time first) (skipn i segments) (skipn i segments) inner_init
                eq_refl) as Hinv.
  destruct (best_clip (inner_loop self (ts_start_time first) (skipn i segments) inner_init))
    as [[[e segs] txt]|] eqn:Eb.
  - destruct Hin as [<-|Hin]; [|apply (IH _ _ Hin)].
    destruct Hinv as [_ Hbest].
    { split; [reflexivity|]. intros ? ? ? [=]. }
    destruct (Hbest e segs txt Eb) as ((after & Hafter) & (prefix & last_seg & -> & He & Hb) & ->).
    assert (Hfirst : exists rest_segs, prefix ++ [last_seg] = first :: rest_segs).
    { pose proof (List.firstn_skipn i segments) as Hfs.
      assert (Hhd : nth_error (skipn i segments) 0 = Some first).
      { rewrite List.nth_error_skipn, Nat.add_0_r. exact Ei. }
      rewrite Hafter in Hhd. destruct prefix as [|p prefix]; cbn [app nth_error] in Hhd.
      - injection Hhd as ->. exists []. reflexivity.
      - injection Hhd as ->. exists (prefix ++ [last_seg]). reflexivity. }
    destruct Hfirst as [rest_segs Hfirst].
    exists (firstn i segments), after, first, rest_segs, prefix, last_seg.
    cbn [vc_segments vc_start_time vc_end_time vc_duration vc_transcript].
    split; [rewrite <- Hafter; symmetry; apply List.firstn_skipn|].
    repeat split; auto.
  - apply (IH _ _ Hin).
Qed.

Lemma outer_loop_count (segments : list TranscriptSegment) :
  forall fuel i,
    (List.length (outer_loop self fuel segments i) <= List.length segments - i)%nat.
Proof using Type.
  induction fuel as [|fuel IH]; intros i; cbn [outer_loop]; [cbn; lia|].
  destruct (nth_error segments i) as [first|] eqn:Ei; [|cbn; lia].
  assert (Hi : (i < List.length segments)%nat) by (apply nth_error_Some; congruence).
  destruct (best_clip _) as [[[e segs] txt]|].
  - cbn [List.length].
    pose proof (IH (i + Nat.max 1 (Nat.div (List.length segs) 2))%nat). lia.
  - pose proof (IH (i + 1)%nat). lia.
Qed.

(** X1. Every candidate of [segment_transcript] is a window of the
    transcript sorted by start: a run of consecutive segments that begins
    where its first segment starts, ends where its last segment ends, has
    that difference as duration, closes on a sentence boundary, and carries
    the stripped texts of its segments joined by blanks. *)
Theorem candidate_is_window (transcript_segments : list TranscriptSegment) (clip : VideoClip) :
  In clip (segment_transcript self transcript_segments) ->
  is_window (sorted_by ts_start_time transcript_segments) clip.
Proof using Type.
  unfold segment_transcript. apply outer_loop_windows.
Qed.

(** X2. Segmentation opens at most one candidate per transcript segment:
    there are never more candidates than segments (none for an empty
    transcript). *)
Theorem candidates_at_most_segments (transcript_segments : list TranscriptSegment) :
  (List.length (segment_transcript self transcript_segments)
   <= List.length transcript_segments)%nat.
Proof using Type.
  unfold segment_transcript.
  pose proof (outer_loop_count (sorted_by ts_start_time transcript_segments)
                (List.length (sorted_by ts_start_time transcript_segments)) 0) as H.
  unfold sorted_by in *. rewrite SortFacts.length_sorted_stable in *. lia.
Qed.

End Shape.

End CandidateWindows.

(** ** More on rounding and on stable sorting *)

Module RoundMore.
Import QFacts RoundFacts.

Local Open Scope Q_scope.

Lemma round_half_even_bounds (x : Q) :
  (Qfloor x <= round_half_even x <= Qfloor x + 1)%Z.
Proof.
  unfold round_half_even. destruct (qltb _ _); [lia|]. destruct (qltb _ _); [lia|].
  destruct (Z.even _); lia.
Qed.

Lemma round_half_even_mono (x y : Q) :
  x <= y -> (round_half_even x <= round_half_even y)%Z.
Proof.
  intros Hxy. pose proof (Qfloor_resp_le _ _ Hxy) as Hf.
  destruct (Z.eq_dec (Qfloor x) (Qfloor y)) as [E|NE].
  - unfold round_half_even. rewrite E.
    destruct (qltb (x - inject_Z (Qfloor y)) (1 # 2)) eqn:E1;
      [destruct (qltb (y - inject_Z (Qfloor y)) (1 # 2)); [lia|];
       destruct (qltb (1 # 2) (y - inject_Z (Qfloor y))); [lia|]; destruct (Z.even _); lia|].
    apply qltb_ge in E1.
    destruct (qltb (y - inject_Z (Qfloor y)) (1 # 2)) eqn:E2; [apply qltb_lt in E2; lra|].
    destruct (qltb (1 # 2) (x - inject_Z (Qfloor y))) eqn:E3.
    + apply qltb_lt in E3.
      destruct (qltb (1 # 2) (y - inject_Z (Qfloor y))) eqn:E4; [lia|].
      apply qltb_ge in E4. lra.
    + destruct (qltb (1 # 2) (y - inject_Z (Qfloor y))); [destruct (Z.even _); lia|].
      destruct (Z.even _); lia.
  - pose proof (round_half_even_bounds x). pose proof (round_half_even_bounds y). lia.
Qed.

(** [round(x, n)] does not reverse an order. *)
Lemma py_round_mono (x y : Q) (ndigits : nat) :
  x <= y -> py_round x ndigits <= py_round y ndigits.
Proof.
  intros Hxy. unfold py_round.
  assert (Hp : 0 < inject_Z (10 ^ Z.of_nat ndigits)).
  { change 0 with (inject_Z 0). rewrite <- Zlt_Qlt. apply Z.pow_pos_nonneg; lia. }
  apply Qmult_le_compat_r; [|apply Qlt_le_weak, Qinv_lt_0_compat; exact Hp].
  rewrite <- Zle_Qle. apply round_half_even_mono.
  apply Qmult_le_compat_r; [exact Hxy|apply Qlt_le_weak; exact Hp].
Qed.

(** [round(x, n)] moves by at most half a unit of the last digit kept. *)
Lemma py_round_close (x : Q) (ndigits : nat) :
  Qabs (py_round x ndigits - x) <= 1 / (2 * inject_Z (10 ^ Z.of_nat ndigits)).
Proof.
  unfold py_round. set (p := inject_Z (10 ^ Z.of_nat ndigits)).
  assert (Hp : 0 < p).
  { unfold p. change 0 with (inject_Z 0). rewrite <- Zlt_Qlt. apply Z.pow_pos_nonneg; lia. }
  destruct (round_half_even_close (x * p)) as [H1 H2].
  assert (Hd : inject_Z (round_half_even (x * p)) / p - x
               == (inject_Z (round_half_even (x * p)) - x * p) / p) by (field; lra).
  rewrite Hd. apply Qabs_Qle_condition. split.
  - apply Qle_shift_div_l; [exact Hp|].
    assert (He : - (1 / (2 * p)) * p == - (1 # 2)) by (field; lra). rewrite He. lra.
  - apply Qle_shift_div_r; [exact Hp|].
    assert (He : 1 / (2 * p) * p == 1 # 2) by (field; lra). rewrite He. lra.
Qed.

(** Rounding leaves a whole number as it is. *)
Lemma round_half_even_whole (x : Q) (k : Z) : x == inject_Z k -> round_half_even x = k.
Proof.
  intros Hx. unfold round_half_even. rewrite (Qfloor_comp _ _ Hx), Qfloor_Z.
  assert (E : qltb (x - inject_Z k) (1 # 2) = true) by (apply qltb_lt; lra).
  rewrite E. reflexivity.
Qed.

End RoundMore.

Module SortMore.

Lemma insert_stable_perm {A : Type} (before : A -> A -> bool) (x : A) (l : list A) :
  Permutation (insert_stable before x l) (x :: l).
Proof.
  induction l as [|y l IH]; cbn [insert_stable]; [reflexivity|].
  destruct (before y x); [|reflexivity].
  rewrite IH. apply perm_swap.
Qed.

(** Sorting rearranges: nothing is lost, nothing is added. *)
Lemma sorted_stable_perm {A : Type} (before : A -> A -> bool) (l : list A) :
  Permutation (sorted_stable before l) l.
Proof.
  induction l as [|x l IH]; cbn [sorted_stable]; [reflexivity|].
  rewrite insert_stable_perm, IH. reflexivity.
Qed.

Lemma ForallOrdPairs_firstn {A : Type} (R : A -> A -> Prop) (n : nat) (l : list A) :
  ForallOrdPairs R l -> ForallOrdPairs R (firstn n l).
Proof.
  intros H. revert n. induction H as [|x l Hx Hl IH]; intros [|n]; cbn [firstn]; try constructor.
  - rewrite List.Forall_forall in *. intros y Hy. apply Hx.
    rewrite <- (List.firstn_skipn n l). apply List.in_or_app. left. exact Hy.
  - apply IH.
Qed.

(** A list already in order is left as it is by the stable sort. *)
Lemma insert_stable_head {A : Type} (before : A -> A -> bool) (x : A) (l : list A) :
  Forall (fun y => before y x = false) l -> insert_stable before x l = x :: l.
Proof.
  intros H. destruct H as [|y l Hy Hl]; cbn [insert_stable]; [reflexivity|].
  rewrite Hy. reflexivity.
Qed.

Lemma sorted_stable_fixed {A : Type} (before : A -> A -> bool) (l : list A) :
  ForallOrdPairs (fun x y => before y x = false) l -> sorted_stable before l = l.
Proof.
  induction 1 as [|x l Hx Hl IH]; cbn [sorted_stable]; [reflexivity|].
  rewrite IH. apply insert_stable_head. exact Hx.
Qed.

End SortMore.

(** ** Ranking and the top of the list *)

Module RankingMore.
Import HookDetector QFacts SortFacts SortMore RoundMore Ranked.

Local Open Scope Q_scope.

Section Rank.

Variable str_lower : pystr -> pystr.
Variable self : HookDetector.t.

(** X3. Ranking loses and invents no candidate: the ranked list holds the
    same windows (start, end, duration, text, segments) as the input, each
    as often as in the input; and every ranked candidate carries the score
    and the hook phrases that the scoring rules give for its own text and
    duration. *)
Theorem score_clips_keeps_candidates (clips : list VideoClip) :
  Permutation (List.map clip_content (score_clips str_lower self clips))
              (List.map clip_content clips) /\
  Forall (fun c => vc_viral_score c = snd (_calculate_viral_score str_lower self c) /\
                   vc_hook_keywords c = _detect_hook_keywords str_lower (vc_transcript c))
         (score_clips str_lower self clips).
Proof using Type.
  unfold score_clips, sorted_by_reverse. split.
  - rewrite (Permutation_map clip_content (sorted_stable_perm _ _)).
    rewrite List.map_map. reflexivity.
  - apply Forall_sorted. apply List.Forall_forall. intros c Hc.
    apply List.in_map_iff in Hc as (c0 & <- & _). split; reflexivity.
Qed.

(** X4. [find_viral_clips] returns the [top_n] best candidates, or all of
    them when there are fewer, and lists them by non-increasing (rounded)
    score. *)
Theorem find_viral_clips_top (transcript_segments : list TranscriptSegment) (top_n : Z) :
  (0 <= top_n)%Z ->
  Z.of_nat (List.length (find_viral_clips str_lower self transcript_segments top_n))
  = Z.min top_n (Z.of_nat (List.length (segment_transcript self transcript_segments))) /\
  ForallOrdPairs (fun a b => cd_score b <= cd_score a)
                 (find_viral_clips str_lower self transcript_segments top_n).
Proof using Type.
  intros Hn. unfold find_viral_clips. split.
  - rewrite List.length_map, Selection.length_slice_to by exact Hn.
    unfold score_clips, sorted_by_reverse. rewrite length_sorted_stable, List.length_map.
    reflexivity.
  - apply ForallOrdPairs_map. unfold slice_to.
    destruct (0 <=? top_n)%Z eqn:E; [|apply Z.leb_gt in E; lia].
    apply ForallOrdPairs_firstn.
    eapply Ranking.ForallOrdPairs_impl; [|apply (Ranking.score_clips_descending str_lower self)].
    cbn beta. intros a b Hab. cbn [to_dict cd_score]. apply py_round_mono. exact Hab.
Qed.

End Rank.

End RankingMore.

(** ** Timestamps of the exported clip *)

Module TimestampMore.
Import HookDetector CompleteViralClipGenerator QFacts RoundFacts RoundMore.

Local Open Scope Q_scope.

Lemma total_seconds_whole (n : Z) : timedelta_total_seconds (inject_Z n) == inject_Z n.
Proof.
  unfold timedelta_total_seconds.
  rewrite (round_half_even_whole (inject_Z n * 1000000) (n * 1000000)).
  - rewrite inject_Z_mult. change (inject_Z 1000000) with 1000000. field.
  - rewrite inject_Z_mult. reflexivity.
Qed.

(** X5. A whole number of seconds that a [timedelta] can hold (from 0 to
    below 86400 x 10^9) survives the trip through the clip's [HH:MM:SS]
    text: [_parse_timestamp] reads back what [_format_timestamp] printed
    (also beyond 99 hours, where the hour field widens). *)
Theorem timestamp_round_trip (n : Z) :
  (0 <= n < 86400 * 10 ^ 9)%Z ->
  _parse_timestamp (_format_timestamp (inject_Z n)) = Return n.
Proof.
  intros [Hn _]. rewrite TimestampRoundTrip.parse_format_timestamp.
  - rewrite (Qfloor_comp _ _ (total_seconds_whole n)), Qfloor_Z. reflexivity.
  - change 0 with (inject_Z 0). rewrite <- Zle_Qle. exact Hn.
Qed.

(** X6. The numbers of the exported dictionary are the clip's, rounded: the
    duration to the hundredth (off by at most 0.005), the score and the
    emotion score to the thousandth (off by at most 0.0005); rounding keeps
    the order of two scores. *)
Theorem to_dict_rounding (clip : VideoClip) :
  Qabs (cd_duration (to_dict clip) - vc_duration clip) <= 5 # 1000 /\
  Qabs (cd_score (to_dict clip) - vc_viral_score clip) <= 5 # 10000 /\
  Qabs (cd_emotion_score (to_dict clip) - vc_emotion_score clip) <= 5 # 10000 /\
  (forall other, vc_viral_score clip <= vc_viral_score other ->
                 cd_score (to_dict clip) <= cd_score (to_dict other)).
Proof.
  cbn [to_dict cd_duration cd_score cd_emotion_score].
  split; [eapply Qle_trans; [apply (py_round_close (vc_duration clip) 2)|];
          apply Qle_bool_iff; reflexivity|].
  split; [eapply Qle_trans; [apply (py_round_close (vc_viral_score clip) 3)|];
          apply Qle_bool_iff; reflexivity|].
  split; [eapply Qle_trans; [apply (py_round_close (vc_emotion_score clip) 3)|];
          apply Qle_bool_iff; reflexivity|].
  intros other H. apply py_round_mono. exact H.
Qed.

Lemma length_split_on (sep : N) (s : pystr) :
  List.length (split_on sep s) = S (List.length (List.filter (N.eqb sep) s)).
Proof.
  induction s as [|c s IH]; [reflexivity|]. cbn [split_on List.filter].
  rewrite (N.eqb_sym sep c). destruct (N.eqb c sep).
  - cbn [List.length]. rewrite IH. reflexivity.
  - destruct (split_on sep s) as [|w ws]; [discriminate IH|]. exact IH.
Qed.

(** X7. [_parse_timestamp] wants three fields: on a text with fewer than
    two colons (seconds alone, or [MM:SS]) it raises, whatever the fields
    hold. *)
Theorem parse_timestamp_needs_three_fields (timestamp_str : pystr) :
  (List.length (List.filter (N.eqb 58) timestamp_str) < 2)%nat ->
  exists e, _parse_timestamp timestamp_str = Raise e.
Proof.
  intros H. pose proof (length_split_on 58 timestamp_str) as Hlen.
  unfold _parse_timestamp.
  destruct (split_on 58 timestamp_str) as [|p0 [|p1 [|p2 ps]]].
  - eexists. reflexivity.
  - destruct (int_of_str p0); eexists; reflexivity.
  - destruct (int_of_str p0); [|eexists; reflexivity].
    destruct (int_of_str p1); eexists; reflexivity.
  - cbn [List.length] in Hlen. lia.
Qed.

End TimestampMore.

(** ** Selection takes the head of the ranking *)

Module SelectionMore.
Import HookDetector CompleteViralClipGenerator QFacts SortFacts SortMore RoundMore.

Local Open Scope Q_scope.

Section Select.

Variable str_lower : pystr -> pystr.
Variable self : CompleteViralClipGenerator.t.

Lemma slice_to_firstn {A : Type} (n : Z) (l : list A) : exists k, slice_to n l = firstn k l.
Proof using Type. unfold slice_to. destruct (0 <=? n)%Z; eexists; reflexivity. Qed.

Lemma slice_to_nil {A : Type} (n : Z) : slice_to n (@nil A) = [].
Proof using Type. unfold slice_to. destruct (0 <=? n)%Z; apply List.firstn_nil. Qed.

Lemma find_viral_clips_descending (segments : list TranscriptSegment) (top_n : Z) :
  ForallOrdPairs (fun a b => cd_score b <= cd_score a)
                 (find_viral_clips str_lower (hook_detector self) segments top_n).
Proof using Type.
  unfold find_viral_clips. apply ForallOrdPairs_map.
  destruct (slice_to_firstn top_n
              (score_clips str_lower (hook_detector self)
                 (segment_transcript (hook_detector self) segments))) as [k ->].
  apply ForallOrdPairs_firstn.
  eapply Ranking.ForallOrdPairs_impl;
    [|apply (Ranking.score_clips_descending str_lower (hook_detector self))].
  cbn beta. intros a b Hab. cbn [to_dict cd_score]. apply py_round_mono. exact Hab.
Qed.

(** X8. The clips [_find_viral_moments] selects are the head of the
    detector's ranking, in the ranking's order: sorting the ranked
    dictionaries again by score moves nothing. *)
Theorem viral_moments_head_of_ranking (transcript_data : list raw_segment) (max_clips : Z)
        (min_score min_length max_length : Q) (top_clips : list ClipDict) :
  _find_viral_moments str_lower self transcript_data max_clips min_score min_length max_length
  = Return top_clips ->
  exists n,
    top_clips
    = slice_to n (find_viral_clips str_lower (hook_detector self)
                    (parse_whisper_segments transcript_data) (max_clips * 3)).
Proof using Type.
  unfold _find_viral_moments.
  destruct (video_duration_seconds transcript_data) as [d|e]; [|discriminate].
  destruct (Qeq_bool _ _); [discriminate|].
  intros [= <-]. eexists. f_equal.
  unfold sorted_by_reverse. apply sorted_stable_fixed.
  eapply Ranking.ForallOrdPairs_impl; [|apply find_viral_clips_descending].
  cbn beta. intros a b Hab. apply qltb_ge. exact Hab.
Qed.

(** X9. Edge cases of [_find_viral_moments]: clip lengths that sum to zero
    make it raise [ZeroDivisionError] as soon as the transcript has a
    duration (an empty transcript counts as 600 s); otherwise an empty
    transcript gives no clip. *)
Theorem viral_moments_edge_cases (max_clips : Z) (min_score min_length max_length : Q) :
  (min_length + max_length == 0 ->
   forall transcript_data d,
     video_duration_seconds transcript_data = Return d ->
     exists msg,
       _find_viral_moments str_lower self transcript_data max_clips min_score
         min_length max_length = Raise (ZeroDivisionError msg)) /\
  (~ min_length + max_length == 0 ->
   _find_viral_moments str_lower self [] max_clips min_score min_length max_length = Return []).
Proof using Type.
  split.
  - intros Hz transcript_data d Hd. unfold _find_viral_moments. rewrite Hd.
    assert (E : Qeq_bool ((min_length + max_length) / 2) 0 = true).
    { apply Qeq_bool_iff. rewrite Hz. reflexivity. }
    rewrite E. eexists. reflexivity.
  - intros Hnz. unfold _find_viral_moments. cbn [video_duration_seconds].
    destruct (Qeq_bool ((min_length + max_length) / 2) 0) eqn:E.
    + apply Qeq_bool_iff in E. exfalso. apply Hnz.
      assert (H2 : min_length + max_length == (min_length + max_length) / 2 * 2) by field.
      rewrite H2, E. reflexivity.
    + f_equal. cbn [parse_whisper_segments List.map].
      assert (Hnone : find_viral_clips str_lower (hook_detector self) [] (max_clips * 3) = []).
      { unfold find_viral_clips.
        change (segment_transcript (hook_detector self) []) with (@nil VideoClip).
        change (score_clips str_lower (hook_detector self) []) with (@nil VideoClip).
        rewrite slice_to_nil. reflexivity. }
      rewrite Hnone. apply slice_to_nil.
Qed.

End Select.

End SelectionMore.

(** ** Stripping and collapsing blanks *)

Module BlankFacts.
Import Blanks.

Lemma lstrip_no_leading_blank (s : pystr) : no_leading_blank (lstrip s).
Proof.
  induction s as [|c s IH]; cbn [lstrip]; [exact I|].
  destruct (is_space c) eqn:E; [exact IH|exact E].
Qed.

Lemma lstrip_fixed (s : pystr) : no_leading_blank s -> lstrip s = s.
Proof. destruct s as [|c s]; cbn [lstrip no_leading_blank]; [reflexivity|]. intros ->. reflexivity. Qed.

Lemma lstrip_app_nonblank (a b : pystr) (c : N) :
  is_space c = false -> lstrip (a ++ c :: b) = lstrip a ++ c :: b.
Proof.
  intros Hc. induction a as [|d a IH]; cbn [app lstrip]; [rewrite Hc; reflexivity|].
  destruct (is_space d); [exact IH|reflexivity].
Qed.

Lemma rstrip_cons_nonblank (c : N) (s : pystr) :
  is_space c = false -> rstrip (c :: s) = c :: rstrip s.
Proof.
  intros Hc. unfold rstrip. cbn [rev]. rewrite (lstrip_app_nonblank _ [] c Hc).
  rewrite List.rev_app_distr. reflexivity.
Qed.

Lemma rstrip_no_leading_blank (s : pystr) : no_leading_blank s -> no_leading_blank (rstrip s).
Proof.
  destruct s as [|c s]; [intros _; exact I|]. cbn [no_leading_blank]. intros Hc.
  rewrite (rstrip_cons_nonblank c s Hc). exact Hc.
Qed.

Lemma rstrip_idem (s : pystr) : rstrip (rstrip s) = rstrip s.
Proof.
  unfold rstrip. rewrite List.rev_involutive.
  rewrite (lstrip_fixed (lstrip (rev s))); [reflexivity|apply lstrip_no_leading_blank].
Qed.

(** [strip] removes nothing from a text that is already stripped. *)
Lemma strip_idem (s : pystr) : strip (strip s) = strip s.
Proof.
  unfold strip.
  rewrite (lstrip_fixed (rstrip (lstrip s)));
    [apply rstrip_idem|apply rstrip_no_leading_blank, lstrip_no_leading_blank].
Qed.

(** What [rstrip] returns is the beginning of its argument, and what
    [lstrip] returns is the end of it. *)
Lemma lstrip_suffix (s : pystr) : exists pre, s = pre ++ lstrip s.
Proof.
  induction s as [|c s [pre IH]]; [exists []; reflexivity|]. cbn [lstrip].
  destruct (is_space c); [|exists []; reflexivity].
  exists (c :: pre). cbn [app]. f_equal. exact IH.
Qed.

Lemma rstrip_prefix (s : pystr) : exists post, s = rstrip s ++ post.
Proof.
  unfold rstrip. destruct (lstrip_suffix (rev s)) as [pre H].
  exists (rev pre). rewrite <- List.rev_app_distr, <- H, List.rev_involutive. reflexivity.
Qed.

Lemma single_spaced_weaken (s : pystr) : single_spaced true s -> single_spaced false s.
Proof.
  destruct s as [|c s]; cbn [single_spaced]; [auto|].
  destruct (is_space c); [intros [H _]; discriminate H|auto].
Qed.

Lemma single_spaced_prefix (a b : pystr) :
  forall in_run, single_spaced in_run (a ++ b) -> single_spaced in_run a.
Proof.
  induction a as [|c a IH]; intros in_run; cbn [app single_spaced]; [auto|].
  destruct (is_space c); [intros (H1 & H2 & H3); auto|apply IH].
Qed.

Lemma single_spaced_lstrip (s : pystr) :
  forall in_run, single_spaced in_run s -> single_spaced false (lstrip s).
Proof.
  induction s as [|c s IH]; intros in_run; cbn [lstrip]; [auto|].
  destruct (is_space c) eqn:E.
  - cbn [single_spaced]. rewrite E. intros (_ & _ & H). apply (IH true H).
  - cbn [single_spaced]. rewrite E. auto.
Qed.

Lemma single_spaced_strip (s : pystr) : single_spaced false s -> single_spaced false (strip s).
Proof.
  intros H. unfold strip. destruct (rstrip_prefix (lstrip s)) as [post Hp].
  apply (single_spaced_prefix _ post). rewrite <- Hp. apply (single_spaced_lstrip s false H).
Qed.

Import CompleteViralClipGenerator.

(** [re.sub(r'\s+', ' ', s)] leaves single spaces, and leaves such a text
    as it is. *)
Lemma collapse_ws_single_spaced (s : pystr) :
  forall in_run, single_spaced in_run (collapse_ws in_run s).
Proof.
  induction s as [|c s IH]; intros in_run; cbn [collapse_ws]; [exact I|].
  destruct (is_space c) eqn:E.
  - destruct in_run; [apply IH|]. cbn [single_spaced].
    change (is_space 32) with true. cbn iota. auto.
  - cbn [single_spaced]. rewrite E. apply IH.
Qed.

Lemma collapse_ws_fixed (s : pystr) :
  forall in_run, single_spaced in_run s -> collapse_ws in_run s = s.
Proof.
  induction s as [|c s IH]; intros in_run; cbn [collapse_ws single_spaced]; [auto|].
  destruct (is_space c).
  - intros (-> & -> & H). rewrite (IH true H). reflexivity.
  - intros H. rewrite (IH false H). reflexivity.
Qed.

Lemma collapse_ws_blank (s : pystr) :
  forall in_run, List.forallb is_space (collapse_ws in_run s) = List.forallb is_space s.
Proof.
  induction s as [|c s IH]; intros in_run; cbn [collapse_ws List.forallb]; [reflexivity|].
  destruct (is_space c) eqn:E; cbn [andb].
  - destruct in_run; [apply IH|]. cbn [List.forallb]. change (is_space 32) with true. apply IH.
  - cbn [List.forallb]. rewrite E. reflexivity.
Qed.

Lemma Forall_collapse_ws (P : N -> Prop) (s : pystr) :
  P 32%N -> Forall P s -> forall in_run, Forall P (collapse_ws in_run s).
Proof.
  intros H32. induction 1 as [|c s Hc Hs IH]; intros in_run; cbn [collapse_ws]; [constructor|].
  destruct (is_space c); [destruct in_run; [apply IH|constructor; [exact H32|apply IH]]|].
  constructor; [exact Hc|apply IH].
Qed.

Lemma filter_fixed {A : Type} (p : A -> bool) (l : list A) :
  Forall (fun x => p x = true) l -> List.filter p l = l.
Proof.
  induction 1 as [|x l Hx Hl IH]; cbn [List.filter]; [reflexivity|]. rewrite Hx, IH. reflexivity.
Qed.

Lemma Forall_filter_true {A : Type} (p : A -> bool) (l : list A) :
  Forall (fun x => p x = true) (List.filter p l).
Proof.
  apply List.Forall_forall. intros x Hx. apply List.filter_In in Hx as [_ Hx]. exact Hx.
Qed.

End BlankFacts.

(** ** The Hindi cleanup applied twice, and what it does to the text *)

Module HindiCleanupMore.
Import CompleteViralClipGenerator Blanks BlankFacts.

(** The cleaned text, when the cleanup leaves one. *)
Lemma cleaned_text_allowed (text : pystr) :
  let cleaned := strip (collapse_ws false (List.filter is_devanagari_or_allowed text)) in
  Forall (fun c => is_devanagari_or_allowed c = true) cleaned /\
  single_spaced false cleaned /\ strip cleaned = cleaned.
Proof.
  cbv zeta. split; [|split].
  - apply HindiCleanup.Forall_strip. apply Forall_collapse_ws; [reflexivity|].
    apply Forall_filter_true.
  - apply single_spaced_strip, collapse_ws_single_spaced.
  - apply strip_idem.
Qed.

Lemma clean_text_fixed (cleaned : pystr) :
  Forall (fun c => is_devanagari_or_allowed c = true) cleaned ->
  single_spaced false cleaned -> strip cleaned = cleaned ->
  strip (collapse_ws false (List.filter is_devanagari_or_allowed cleaned)) = cleaned.
Proof.
  intros Hall Hsp Hst. rewrite (filter_fixed _ _ Hall), (collapse_ws_fixed _ _ Hsp). exact Hst.
Qed.

Lemma clean_words_idem (words : list Word) : clean_words (clean_words words) = clean_words words.
Proof.
  induction words as [|w words IH]; cbn [clean_words]; [reflexivity|].
  destruct (strip (List.filter is_devanagari_or_allowed (word_word w))) as [|c t] eqn:E; [exact IH|].
  cbn [clean_words word_word word_start word_end].
  assert (Hfix : strip (List.filter is_devanagari_or_allowed (c :: t)) = c :: t).
  { rewrite <- E. rewrite filter_fixed.
    - apply strip_idem.
    - apply HindiCleanup.Forall_strip, Forall_filter_true. }
  rewrite Hfix, IH. reflexivity.
Qed.

Lemma clean_hindi_segment_eq (segment : Segment) :
  _clean_hindi_segment segment
  = mkSegment (sg_start segment) (sg_end segment)
      (match strip (collapse_ws false (List.filter is_devanagari_or_allowed (sg_text segment))) with
       | [] => sg_text segment
       | c :: t => c :: t
       end)
      (clean_words (sg_words segment)).
Proof.
  unfold _clean_hindi_segment. f_equal.
  - destruct (strip _); reflexivity.
  - destruct (sg_words segment); reflexivity.
Qed.

(** X10. Cleaning a Hindi segment a second time changes nothing. *)
Theorem clean_hindi_segment_idempotent (segment : Segment) :
  _clean_hindi_segment (_clean_hindi_segment segment) = _clean_hindi_segment segment.
Proof.
  rewrite (clean_hindi_segment_eq (_clean_hindi_segment segment)).
  rewrite (clean_hindi_segment_eq segment). cbn [sg_start sg_end sg_text sg_words].
  rewrite clean_words_idem. f_equal.
  destruct (cleaned_text_allowed (sg_text segment)) as (Hall & Hsp & Hst).
  cbv zeta in Hall, Hsp, Hst.
  destruct (strip (collapse_ws false (List.filter is_devanagari_or_allowed (sg_text segment))))
    as [|c t] eqn:E.
  - rewrite E. reflexivity.
  - rewrite (clean_text_fixed _ Hall Hsp Hst). reflexivity.
Qed.

(** X11. The text of a cleaned segment: when the original text has an
    allowed character that is not a blank, the cleaned text is not empty,
    holds allowed characters only, single spaces between them and none at
    its ends; when it has none (a segment wholly in a foreign script, say),
    the text is left as it was, although all its tokens are dropped. *)
Theorem clean_hindi_segment_text (segment : Segment) :
  let has_content :=
    List.existsb (fun c => is_devanagari_or_allowed c && negb (is_space c)) (sg_text segment) in
  (has_content = true ->
   sg_text (_clean_hindi_segment segment) <> [] /\
   Forall (fun c => is_devanagari_or_allowed c = true) (sg_text (_clean_hindi_segment segment)) /\
   single_spaced false (sg_text (_clean_hindi_segment segment)) /\
   strip (sg_text (_clean_hindi_segment segment)) = sg_text (_clean_hindi_segment segment)) /\
  (has_content = false ->
   sg_text (_clean_hindi_segment segment) = sg_text segment) /\
  sg_start (_clean_hindi_segment segment) = sg_start segment /\
  sg_end (_clean_hindi_segment segment) = sg_end segment.
Proof.
  cbv zeta.
  assert (Hempty : strip (collapse_ws false (List.filter is_devanagari_or_allowed (sg_text segment))) = []
                   <-> List.existsb (fun c => is_devanagari_or_allowed c && negb (is_space c))
                         (sg_text segment) = false).
  { rewrite HindiCleanup.strip_nil_iff, collapse_ws_blank.
    induction (sg_text segment) as [|c s IH]; cbn [List.filter List.existsb List.forallb]; [tauto|].
    destruct (is_devanagari_or_allowed c); cbn [andb orb List.forallb].
    - destruct (is_space c); cbn [andb negb orb]; [exact IH|]. split; discriminate.
    - exact IH. }
  unfold _clean_hindi_segment. cbn [sg_text sg_start sg_end].
  destruct (cleaned_text_allowed (sg_text segment)) as (Hall & Hsp & Hst). cbv zeta in Hall, Hsp, Hst.
  destruct (strip (collapse_ws false (List.filter is_devanagari_or_allowed (sg_text segment))))
    as [|c t] eqn:E.
  - assert (Hf := proj1 Hempty eq_refl). rewrite Hf.
    split; [discriminate|]. split; [reflexivity|]. split; reflexivity.
  - split.
    + intros _. split; [discriminate|]. auto.
    + split; [|split; reflexivity]. intros Hf. apply Hempty in Hf. discriminate Hf.
Qed.

End HindiCleanupMore.

(** ** The caption segments of a clip without word-level times *)

Module CaptionSegments.
Import OpusProcessor CompleteViralClipGenerator QFacts.

Local Open Scope Q_scope.

Lemma fallback_caption_segments_nth (words_per_second : Q) (words : list pystr) :
  forall k i w,
    nth_error words i = Some w ->
    nth_error (fallback_caption_segments words_per_second k words) i
    = Some (SegDict (inject_Z (Z.of_nat (k + i)) / words_per_second)
                    (inject_Z (Z.of_nat (k + i + 1)) / words_per_second) w).
Proof.
  induction words as [|w0 words IH]; intros k i w Hi; [destruct i; discriminate|].
  destruct i as [|i]; cbn [nth_error fallback_caption_segments] in *.
  - injection Hi as ->. rewrite Nat.add_0_r. reflexivity.
  - rewrite (IH (S k) i w Hi).
    replace (S k + i)%nat with (k + S i)%nat by lia. reflexivity.
Qed.

Lemma length_fallback_caption_segments (words_per_second : Q) (words : list pystr) :
  forall k, List.length (fallback_caption_segments words_per_second k words) = List.length words.
Proof.
  induction words as [|w words IH]; intros k; cbn [fallback_caption_segments List.length];
    [reflexivity|]. rewrite IH. reflexivity.
Qed.

(** X12. Without word-level segments, a clip of positive length gets one
    caption segment per word of its text, and the segments tile the clip
    evenly: word [i] of [n] runs from [i/n] to [(i+1)/n] of the duration, so
    the first starts at 0 and the last ends with the clip. *)
Theorem fallback_captions_tile (start_time end_time : Q) (transcript_text : pystr) :
  start_time < end_time ->
  let words := split_ws transcript_text in
  let n := inject_Z (Z.of_nat (List.length words)) in
  let segs := caption_segments_of start_time end_time transcript_text [] in
  List.length segs = List.length words /\
  forall i w,
    nth_error words i = Some w ->
    exists a b,
      nth_error segs i = Some (SegDict a b w) /\
      a == inject_Z (Z.of_nat i) * (end_time - start_time) / n /\
      b == inject_Z (Z.of_nat (i + 1)) * (end_time - start_time) / n.
Proof.
  intros Hlt. cbv zeta. unfold caption_segments_of.
  assert (Hpos : qltb 0 (end_time - start_time) = true) by (apply qltb_lt; lra).
  rewrite Hpos. split; [apply length_fallback_caption_segments|].
  intros i w Hi. rewrite (fallback_caption_segments_nth _ _ 0 i w Hi). cbn [Nat.add].
  assert (Hn : 0 < inject_Z (Z.of_nat (List.length (split_ws transcript_text)))).
  { change 0 with (inject_Z 0). rewrite <- Zlt_Qlt.
    assert (i < List.length (split_ws transcript_text))%nat by (apply nth_error_Some; congruence).
    lia. }
  eexists _, _. split; [reflexivity|]. split; field; split; lra.
Qed.

(** The events of a clip built on dictionary entries: one per entry, with
    the entry's own times. *)
Lemma dictionary_segments_events (start_time end_time : Q) (transcript_text : pystr)
        (clip_segments : list TranscriptSegment) (entries : list (Q * Q * pystr)) :
  clip_segments <> [] ->
  List.map ts_original_segment clip_segments
  = List.map (fun '(a, b, text) => Some (SegDict a b text)) entries ->
  tiktok_viral_events
    (caption_segments_of start_time end_time transcript_text clip_segments)
  = List.map (fun '(a, b, text) => mkEvent (format_time a) (format_time b) text) entries.
Proof.
  intros Hne Hmap. unfold caption_segments_of.
  destruct clip_segments as [|seg0 segs0] eqn:Es; [contradiction|]. rewrite <- Es in *. clear Es Hne.
  rewrite CaptionTiming.tiktok_viral_events_words.
  revert entries Hmap. induction clip_segments as [|seg segs IH]; intros entries Hmap.
  - destruct entries; [reflexivity|discriminate].
  - destruct entries as [|[[a b] text] entries]; [discriminate|].
    cbn [List.map] in Hmap. injection Hmap as Hseg Hrest.
    cbn [adjusted_caption_segments]. rewrite Hseg. cbn [List.map List.concat app].
    cbn [wi_start wi_end wi_word]. f_equal. apply IH. exact Hrest.
Qed.

(** X13. Transcript entries given as dictionaries are not shifted to the
    clip: a clip built on such entries gets one event per entry, and the
    events carry the times of the source video, whatever the clip's
    start. *)
Theorem dictionary_segments_not_shifted (start_time end_time : Q) (transcript_text : pystr)
        (clip_segments : list TranscriptSegment) (entries : list (Q * Q * pystr)) :
  clip_segments <> [] ->
  List.map ts_original_segment clip_segments
  = List.map (fun '(a, b, text) => Some (SegDict a b text)) entries ->
  List.map (fun e => (ev_start e, ev_end e))
    (tiktok_viral_events
       (caption_segments_of start_time end_time transcript_text clip_segments))
  = List.map (fun '(a, b, _) => (format_time a, format_time b)) entries.
Proof.
  intros Hne Hmap.
  rewrite (dictionary_segments_events start_time end_time transcript_text clip_segments
             entries Hne Hmap).
  rewrite List.map_map. apply List.map_ext. intros [[a b] text]. reflexivity.
Qed.

End CaptionSegments.

(** ** What the capturing group of the URL patterns holds *)

Module CaptureFacts.
Import PyStrFacts ReFacts Processing ProcessingJob UrlValidation.

(** A pattern that ends in the id group captures a well-formed id, which
    occurs in the subject. *)
Lemma re_match_captures_id (r : regex) (s g : pystr) :
  re_match (Cat r video_id_group) s = Some g ->
  Spec.is_video_id g = true /\ exists pre post, s = pre ++ g ++ post.
Proof.
  unfold re_match, video_id_group. rewrite rmatch_cat. intros H.
  apply rmatch_sound in H as (s1 & cap1 & Hc1 & H).
  rewrite rmatch_group in H.
  apply rmatch_sound in H as (s2 & cap2 & Hc2 & H).
  apply consumes_times_class in Hc2 as (x & -> & Hlen & Hall).
  rewrite List.length_app, Nat.add_sub, firstn_app_exact in H. cbn in H. injection H as <-.
  split.
  - unfold Spec.is_video_id. rewrite Hlen, Hall. reflexivity.
  - apply consumes_suffix in Hc1 as [pre ->]. exists pre, s2. reflexivity.
Qed.

Lemma re_search_match (r : regex) (s g : pystr) :
  re_search r s = Some g -> exists pre t, s = pre ++ t /\ re_match r t = Some g.
Proof.
  induction s as [|c s IH]; cbn [re_search]; intros H.
  - destruct (re_match r []) eqn:E; [|discriminate]. exists [], []. split; [reflexivity|congruence].
  - destruct (re_match r (c :: s)) eqn:E.
    + exists [], (c :: s). split; [reflexivity|congruence].
    + apply IH in H as (pre & t & -> & Ht). exists (c :: pre), t. auto.
Qed.

Lemma re_search_captures_id (r : regex) (s g : pystr) :
  re_search (Cat r video_id_group) s = Some g ->
  Spec.is_video_id g = true /\ exists pre post, s = pre ++ g ++ post.
Proof.
  intros H. apply re_search_match in H as (pre & t & -> & H).
  apply re_match_captures_id in H as (Hid & pre' & post & ->).
  split; [exact Hid|]. exists (pre ++ pre'), post. rewrite <- List.app_assoc. reflexivity.
Qed.

Lemma youtube_pattern_captures_id (marker : string) (s g : pystr) :
  re_search (youtube_pattern marker) s = Some g ->
  Spec.is_video_id g = true /\ exists pre post, s = pre ++ g ++ post.
Proof.
  intros H. apply (re_search_captures_id (Cat scheme_www (Lit (lit marker)))).
  rewrite <- H. clear H. induction s as [|c s IH]; cbn [re_search].
  - reflexivity.
  - change (re_match (Cat (Cat scheme_www (Lit (lit marker))) video_id_group) (c :: s))
      with (re_match (youtube_pattern marker) (c :: s)).
    rewrite IH. reflexivity.
Qed.

Lemma first_match_captures_id (url g : pystr) :
  first_match youtube_patterns url = Some g ->
  Spec.is_video_id g = true /\ exists pre post, url = pre ++ g ++ post.
Proof.
  unfold youtube_patterns. cbn [first_match].
  repeat match goal with
         | |- context [re_search (youtube_pattern ?m) url] =>
             let E := fresh "E" in
             destruct (re_search (youtube_pattern m) url) eqn:E;
             [intros [= <-]; apply (youtube_pattern_captures_id m); exact E|]
         end.
  discriminate.
Qed.

(** An id always passes the final character check. *)
Lemma fullmatch_id (id : pystr) :
  Spec.is_video_id id = true -> re_fullmatch (Times 11 (Class id_char)) id = true.
Proof.
  unfold Spec.is_video_id. intros H. apply andb_true_iff in H as [Hlen Hall].
  apply Nat.eqb_eq in Hlen. unfold re_fullmatch.
  rewrite <- (List.app_nil_r id) at 1. rewrite <- Hlen.
  rewrite (rmatch_times_class _ _ Hall). reflexivity.
Qed.

Lemma rmatch_alt {A : Type} (r1 r2 : regex) (s : pystr) (cap : option pystr)
      (k : pystr -> option pystr -> option A) :
  rmatch (Alt r1 r2) s cap k
  = match rmatch r1 s cap k with
    | Some x => Some x
    | None => rmatch r2 s cap k
    end.
Proof. reflexivity. Qed.

(** The looser pattern used to name the download finds an id wherever one
    of the markers is followed by an id. *)
Lemma video_id_search_at (tail id rest : pystr) :
  tail = lit "v=" \/ tail = lit "/" ->
  List.length id = 11%nat -> List.forallb id_char id = true ->
  re_match video_id_search (tail ++ id ++ rest) <> None.
Proof.
  intros Htail Hlen Hall. unfold re_match, video_id_search, video_id_group.
  rewrite rmatch_cat.
  assert (Hid : forall cap,
             rmatch (Group (Times 11 (Class id_char))) (id ++ rest) cap
               (fun _ cap' => Some (default [] cap')) <> None).
  { intros cap. rewrite rmatch_group. rewrite <- Hlen.
    rewrite (rmatch_times_class _ _ Hall). discriminate. }
  rewrite rmatch_alt. destruct Htail as [-> | ->].
  - rewrite rmatch_lit.
    destruct (rmatch (Group (Times 11 (Class id_char))) (id ++ rest) None
                (fun _ cap' => Some (default [] cap'))) eqn:E; [discriminate|].
    exfalso. exact (Hid None E).
  - assert (Hfirst : rmatch (Lit (lit "v=")) (lit "/" ++ id ++ rest) None
                       (fun s' cap' => rmatch (Group (Times 11 (Class id_char))) s' cap'
                                         (fun _ cap'' => Some (default [] cap''))) = None)
      by reflexivity.
    rewrite Hfirst, rmatch_lit. apply Hid.
Qed.

Lemma video_id_search_finds (url : pystr) (marker front tail : pystr) :
  marker = front ++ tail -> tail = lit "v=" \/ tail = lit "/" ->
  Spec.marker_followed_by_id marker url = true ->
  re_search video_id_search url <> None.
Proof.
  intros Hm Htail H. unfold Spec.marker_followed_by_id in H.
  apply List.existsb_exists in H as (i & _ & H).
  apply andb_true_iff in H as [Hstart Hid]. apply startswith_inv in Hstart.
  unfold Spec.is_video_id in Hid. apply andb_true_iff in Hid as [Hlen Hall].
  apply Nat.eqb_eq in Hlen.
  apply (re_search_at _ (List.length front + i)).
  rewrite <- List.skipn_skipn, Hstart, Hm, <- List.app_assoc, skipn_app_exact.
  rewrite <- (List.firstn_skipn 11 (skipn (List.length (front ++ tail)) (skipn i url))).
  rewrite <- Hm. apply video_id_search_at; assumption.
Qed.

End CaptureFacts.

(** ** URL validation and the download step *)

Module DownloadStep.
Import PyStrFacts ReFacts Processing World ProcessingJob UrlValidation CaptureFacts.

(** X14. The outcomes of [validate_youtube_url]: the URL is valid, or it is
    not a non-empty string, or it has none of the four forms, or the id
    found begins with two dashes.  The id the patterns capture always has 11
    characters of the id alphabet, so the length check and the character
    check that follow can never fail. *)
Theorem validate_outcomes (url : pyval) :
  validate_youtube_url url = (true, lit "Valid YouTube URL") \/
  validate_youtube_url url = (false, lit "URL must be a non-empty string") \/
  validate_youtube_url url = (false, lit "Invalid YouTube URL format.") \/
  exists id,
    Spec.is_video_id id = true /\ startswith id (lit "--") = true /\
    validate_youtube_url url = (false, lit "Malformed video ID: " ++ id ++ lit ".").
Proof.
  destruct url as [|z|[|c u]|t]; try (right; left; reflexivity).
  unfold validate_youtube_url.
  destruct (first_match youtube_patterns (c :: u)) as [id|] eqn:E; [|right; right; left; reflexivity].
  destruct (first_match_captures_id _ _ E) as [Hid _].
  pose proof (fullmatch_id id Hid) as Hfull.
  pose proof Hid as Hid'. unfold Spec.is_video_id in Hid'.
  apply andb_true_iff in Hid' as [Hlen _]. rewrite Hlen, Hfull. cbn [negb].
  destruct id as [|i0 id]; [discriminate Hlen|].
  destruct (startswith (i0 :: id) (lit "--")) eqn:Es.
  - right. right. right. exists (i0 :: id). auto.
  - left. reflexivity.
Qed.

Lemma accepted_form_named (url : pystr) :
  Spec.accepted_url_form url = true -> re_search video_id_search url <> None.
Proof.
  unfold Spec.accepted_url_form. cbn [List.existsb]. intros H.
  destruct (Spec.marker_followed_by_id (lit "youtube.com/watch?v=") url) eqn:E1;
    [apply (video_id_search_finds url (lit "youtube.com/watch?v=") (lit "youtube.com/watch?") (lit "v=")); auto|].
  destruct (Spec.marker_followed_by_id (lit "youtu.be/") url) eqn:E2;
    [apply (video_id_search_finds url (lit "youtu.be/") (lit "youtu.be") (lit "/")); auto|].
  destruct (Spec.marker_followed_by_id (lit "youtube.com/embed/") url) eqn:E3;
    [apply (video_id_search_finds url (lit "youtube.com/embed/") (lit "youtube.com/embed") (lit "/")); auto|].
  destruct (Spec.marker_followed_by_id (lit "youtube.com/v/") url) eqn:E4;
    [apply (video_id_search_finds url (lit "youtube.com/v/") (lit "youtube.com/v") (lit "/")); auto|].
  discriminate H.
Qed.

Lemma valid_url_named (url : pyval) :
  fst (validate_youtube_url url) = true ->
  exists u id, url = PyStr u /\ re_search video_id_search u = Some id /\
               Spec.is_video_id id = true /\ exists pre post, u = pre ++ id ++ post.
Proof.
  intros H. destruct url as [|z|u|t]; try discriminate H.
  destruct (Spec.accepted_url_form u) eqn:Ef.
  - pose proof (accepted_form_named u Ef) as Hs.
    destruct (re_search video_id_search u) as [id|] eqn:E; [|contradiction].
    destruct (re_search_captures_id _ _ _ E) as (Hid & Hocc).
    exists u, id. auto.
  - rewrite (validate_rejects u Ef) in H. discriminate H.
Qed.

Lemma create_all_spec (ps : list pystr) (w : world) :
  fst (create_all ps w) = Return tt /\
  spawned (snd (create_all ps w)) = spawned w /\
  progress (snd (create_all ps w)) = progress w /\
  forall p, p ∈ fs (snd (create_all ps w)) <-> In p ps \/ p ∈ fs w.
Proof.
  revert w. induction ps as [|q ps IH]; intros w; cbn [create_all].
  - unfold ret. cbn. repeat split; auto. intros [[]|H]; exact H.
  - unfold bind, create. destruct (IH (mkWorld ({[q]} ∪ fs w) (spawned w) (progress w)))
      as (H1 & H2 & H3 & H4).
    cbn [fs spawned progress] in *. repeat split; auto.
    + intros Hp. apply H4 in Hp as [Hp|Hp]; [left; right; exact Hp|].
      apply elem_of_union in Hp as [Hp|Hp]; [|right; exact Hp].
      apply elem_of_singleton in Hp. left. left. symmetry. exact Hp.
    + intros [[<-|Hp]|Hp]; apply H4.
      * right. apply elem_of_union. left. apply elem_of_singleton. reflexivity.
      * left. exact Hp.
      * right. apply elem_of_union. right. exact Hp.
Qed.

Lemma under_path_join (dir name : pystr) : under dir (path_join dir name) = true.
Proof.
  unfold under, path_join. rewrite List.app_assoc, startswith_app. apply orb_true_r.
Qed.

(** X15. The outcomes of [download_youtube_video].  When it returns, the
    downloader has been run once, the file it names exists and lies in the
    working directory, and the name given to the video is [youtube_]
    followed by an 11-character id that occurs in the URL (the fallback
    name is never used).  When it raises, it is [ValueError] with nothing
    started (the URL is invalid), or the downloader has been run once and
    the error is [Exception] (download failed or timed out) or
    [FileNotFoundError] (no file was produced). *)
Theorem download_outcomes (tc : toolchain) (url : pyval) (temp_dir : pystr) (w : world) :
  match download_youtube_video tc url temp_dir w with
  | (Return (downloaded_path, original_filename), w') =>
      (exists u id pre post,
          url = PyStr u /\ u = pre ++ id ++ post /\ Spec.is_video_id id = true /\
          original_filename = lit "youtube_" ++ id) /\
      under temp_dir downloaded_path = true /\
      downloaded_path ∈ fs w' /\
      spawned w' = spawned w ++ [lit "yt-dlp"]
  | (Raise e, w') =>
      (exists msg, e = ValueError msg) /\ w' = w \/
      ((exists msg, e = Exception msg) \/ (exists msg, e = FileNotFoundError msg)) /\
      spawned w' = spawned w ++ [lit "yt-dlp"]
  end.
Proof.
  unfold download_youtube_video.
  destruct (validate_youtube_url url) as [is_valid validation_error] eqn:Ev.
  destruct is_valid; cbn [negb]; [|left; split; [eexists; reflexivity|reflexivity]].
  assert (Hv : fst (validate_youtube_url url) = true) by (rewrite Ev; reflexivity).
  destruct (valid_url_named url Hv) as (u & id & -> & Hs & Hid & pre & post & Hocc).
  rewrite Hs. unfold try_except, bind, spawn.
  destruct (tc_yt_dlp tc) as [r files|files].
  - match goal with
    | |- context [create_all ?ps ?w0] =>
        destruct (create_all_spec ps w0) as (H1 & H2 & H3 & H4);
        destruct (create_all ps w0) as [[[]|e0] w1]; cbn [fst snd] in H1, H2, H3, H4;
        [|discriminate H1]
    end.
    cbn [fs spawned progress] in *.
    destruct (returncode_ok r).
    + destruct files as [|f files].
      * unfold raise. right. split; [right; eexists; reflexivity|exact H2].
      * unfold ret. split; [exists u, id, pre, post; auto|].
        split; [apply under_path_join|]. split; [|exact H2].
        apply H4. left. left. reflexivity.
    + unfold raise. right. split; [left; eexists; reflexivity|exact H2].
  - match goal with
    | |- context [create_all ?ps ?w0] =>
        destruct (create_all_spec ps w0) as (H1 & H2 & H3 & H4);
        destruct (create_all ps w0) as [[[]|e0] w1]; cbn [fst snd] in H1, H2, H3, H4;
        [|discriminate H1]
    end.
    cbn [fs spawned progress] in *.
    unfold raise. right. split; [left; eexists; reflexivity|exact H2].
Qed.

End DownloadStep.

(** ** The download error message and the layout step *)

Module LayoutStep.
Import PyStrFacts ReFacts Processing World ProcessingJob CaptureFacts ProcessingTools.

(** X16. The message [parse_yt_dlp_error] builds is never empty and never
    longer than 254 characters, however long the downloader's error output
    is: of that output at most the first 200 characters are quoted. *)
Theorem download_error_message_bounded (str_lower : pystr -> pystr) (stderr_output url : pystr) :
  (0 < List.length (parse_yt_dlp_error str_lower stderr_output url) <= 254)%nat.
Proof.
  unfold parse_yt_dlp_error. destruct stderr_output as [|c rest]; [vm_compute; lia|].
  repeat match goal with
         | |- context [if contains ?a ?b then _ else _] =>
             destruct (contains a b); [vm_compute; lia|]
         end.
  assert (Hf : (List.length (first_200 (c :: rest)) <= 200)%nat).
  { unfold first_200. rewrite List.length_firstn. lia. }
  revert Hf. generalize (first_200 (c :: rest)). intros quoted Hq.
  destruct (re_search video_id_search url) as [g|] eqn:E.
  - apply re_search_captures_id in E as [Hg _]. unfold Spec.is_video_id in Hg.
    apply andb_true_iff in Hg as [Hlen _]. apply Nat.eqb_eq in Hlen.
    rewrite !List.length_app, Hlen.
    change (List.length (lit "Download failed for video ID ")) with 29%nat.
    change (List.length (lit ". Details: ")) with 11%nat.
    change (List.length (lit "...")) with 3%nat. lia.
  - rewrite !List.length_app.
    change (List.length (lit "Download failed for video ID ")) with 29%nat.
    change (List.length (lit "unknown")) with 7%nat.
    change (List.length (lit ". Details: ")) with 11%nat.
    change (List.length (lit "...")) with 3%nat. lia.
Qed.

(** X17. The square layout always leaves room on the canvas: the square is
    at least 50 px from the left and right edges, at least 200 px from the
    top, and ends at least 400 px above the bottom, where the captions go.
    On the default 1080x1920 canvas it is 980 px wide, at (50, 370). *)
Theorem square_layout_leaves_room (target_width target_height : Z) :
  let '(square_size, x_offset, y_offset) := square_geometry target_width target_height in
  50 <= x_offset /\ x_offset + square_size <= target_width - 50 /\
  200 <= y_offset /\ y_offset + square_size <= target_height - 400 /\
  square_geometry 1080 1920 = (980, 50, 370).
Proof.
  unfold square_geometry.
  repeat split; try reflexivity; Z.div_mod_to_equations; lia.
Qed.

(** X18. The outcomes of [process_video_for_layout].  Unknown or zero
    dimensions give [ValueError] before [ffmpeg] is started.  With known
    dimensions, a successful [ffmpeg] run returns the output path; a failed
    run that wrote to its error output ends in [AttributeError] (the handler
    calls [decode] on text), and only a failed run with no error output
    gives the [Exception] the handler means to raise. *)
Theorem layout_outcomes (str_lower : pystr -> pystr) (tools : layout_tools)
        (input_path output_path layout_mode : pystr) (target_width target_height : Z)
        (w : world) :
  let run := process_video_for_layout str_lower tools input_path output_path layout_mode
               target_width target_height w in
  let known := match lt_dimensions tools with
               | Some (video_w, video_h) => negb (video_w =? 0) && negb (video_h =? 0)
               | None => false
               end in
  (known = false ->
   (exists msg, fst run = Raise (ValueError msg)) /\
   spawned (snd run) = spawned w ++ [lit "ffprobe"]) /\
  (known = true -> returncode_ok (lt_ffmpeg tools) = true -> fst run = Return output_path) /\
  (known = true -> returncode_ok (lt_ffmpeg tools) = false ->
   match stderr (lt_ffmpeg tools) with
   | [] => exists msg, fst run = Raise (Exception msg)
   | _ => exists msg, fst run = Raise (AttributeError msg)
   end).
Proof.
  cbv zeta. unfold process_video_for_layout, get_video_dimensions.
  unfold bind, spawn, ret, raise, try_except, run_process_checked, run_process, bind, spawn, ret.
  destruct (lt_dimensions tools) as [[video_w video_h]|].
  - destruct (video_w =? 0); cbn [negb andb orb].
    + split; [intros _; split; [eexists; reflexivity|reflexivity]|].
      split; discriminate.
    + destruct (video_h =? 0); cbn [negb andb orb].
      * split; [intros _; split; [eexists; reflexivity|reflexivity]|].
        split; discriminate.
      * split; [discriminate|]. split.
        -- intros _ Hok. destruct (wrote_output (lt_ffmpeg tools)); unfold create, raise;
             cbn; rewrite Hok; reflexivity.
        -- intros _ Hfail. destruct (wrote_output (lt_ffmpeg tools)); unfold create, raise;
             cbn; rewrite Hfail; destruct (stderr (lt_ffmpeg tools)); eexists; reflexivity.
  - split; [intros _; split; [eexists; reflexivity|reflexivity]|].
    split; discriminate.
Qed.

End LayoutStep.

(** ** The progress a job reports *)

Module JobProgress.
Import World ProcessingJob ProgressLog.

Lemma appends_ret {A : Type} (v : A) : appends (ret v).
Proof. intros w. exists []. cbn. rewrite List.app_nil_r. reflexivity. Qed.

Lemma appends_raise {A : Type} (e : exn) : appends (@raise A e).
Proof. intros w. exists []. cbn. rewrite List.app_nil_r. reflexivity. Qed.

Lemma appends_bind {A B : Type} (m : M A) (k : A -> M B) :
  appends m -> (forall x, appends (k x)) -> appends (bind m k).
Proof.
  intros Hm Hk w. unfold bind. destruct (Hm w) as [l1 H1].
  destruct (m w) as [[v|e] w1]; cbn [snd] in *.
  - destruct (Hk v w1) as [l2 H2]. exists (l1 ++ l2). rewrite H2, H1, List.app_assoc. reflexivity.
  - exists l1. exact H1.
Qed.

Lemma appends_try_except {A : Type} (m : M A) (handler : exn -> M A) :
  appends m -> (forall e, appends (handler e)) -> appends (try_except m handler).
Proof.
  intros Hm Hh w. unfold try_except. destruct (Hm w) as [l1 H1].
  destruct (m w) as [[v|e] w1]; cbn [snd] in *.
  - exists l1. exact H1.
  - destruct (Hh e w1) as [l2 H2]. exists (l1 ++ l2). rewrite H2, H1, List.app_assoc. reflexivity.
Qed.

Lemma appends_try_finally {A : Type} (m : M A) (fin : M unit) :
  appends m -> appends fin -> appends (try_finally m fin).
Proof.
  intros Hm Hf w. unfold try_finally. destruct (Hm w) as [l1 H1].
  destruct (m w) as [r w1]; cbn [snd] in *.
  destruct (Hf w1) as [l2 H2]. destruct (fin w1) as [[[]|e] w2]; cbn [snd] in *;
    exists (l1 ++ l2); rewrite H2, H1, List.app_assoc; reflexivity.
Qed.

Lemma appends_same {A : Type} (m : M A) :
  (forall w, progress (snd (m w)) = progress w) -> appends m.
Proof. intros H w. exists []. rewrite H, List.app_nil_r. reflexivity. Qed.

Lemma appends_update (percentage : Z) (stage : pystr) :
  appends (update_job_progress percentage stage).
Proof. intros w. exists [(percentage, stage)]. reflexivity. Qed.

Lemma appends_create (p : pystr) : appends (create p).
Proof. apply appends_same. reflexivity. Qed.

Lemma appends_remove (p : pystr) : appends (remove p).
Proof. apply appends_same. reflexivity. Qed.

Lemma appends_rmtree (p : pystr) : appends (rmtree p).
Proof. apply appends_same. reflexivity. Qed.

Lemma appends_spawn (p : pystr) : appends (spawn p).
Proof. apply appends_same. reflexivity. Qed.

Lemma appends_exists_path (p : pystr) : appends (exists_path p).
Proof. apply appends_same. reflexivity. Qed.

Lemma appends_lift {A : Type} (r : result A) : appends (lift r).
Proof. destruct r; [apply appends_ret|apply appends_raise]. Qed.

Lemma appends_create_all (ps : list pystr) : appends (create_all ps).
Proof.
  induction ps as [|p ps IH]; cbn [create_all]; [apply appends_ret|].
  apply appends_bind; [apply appends_create|intros _; exact IH].
Qed.

Create HintDb progress.

#[local] Hint Resolve appends_ret appends_raise appends_update appends_create appends_remove
  appends_rmtree appends_spawn appends_exists_path appends_lift appends_create_all : progress.

Ltac appends_step :=
  first
    [ apply appends_bind; [|intros ?]
    | apply appends_try_except; [|intros ?]
    | apply appends_try_finally
    | solve [auto with progress]
    | match goal with
      | |- appends (match ?x with _ => _ end) => destruct x
      | |- appends (if ?b then _ else _) => destruct b
      | |- appends (let '(_, _) := ?x in _) => destruct x
      end ].

Lemma appends_run_process (program : pystr) (r : proc_result) (out : pystr) :
  appends (run_process program r out).
Proof. unfold run_process. repeat appends_step. Qed.

Lemma appends_run_process_checked (program : pystr) (r : proc_result) (out : pystr) :
  appends (run_process_checked program r out).
Proof.
  unfold run_process_checked. apply appends_bind; [apply appends_run_process|intros ?].
  repeat appends_step.
Qed.

Lemma appends_download (tc : toolchain) (url : pyval) (temp_dir : pystr) :
  appends (download_youtube_video tc url temp_dir).
Proof. unfold download_youtube_video. repeat appends_step. Qed.

Lemma appends_burn (tc : toolchain) (a b : pystr) : appends (burn_subtitles tc a b).
Proof.
  unfold burn_subtitles.
  repeat first [apply appends_run_process_checked | appends_step].
Qed.

Lemma finishes_raise (entry : Z * pystr) {A : Type} (e : exn) : finishes_with entry (@raise A e).
Proof. intros w. exists []. cbn. rewrite List.app_nil_r. reflexivity. Qed.

Lemma finishes_bind (entry : Z * pystr) {A B : Type} (m : M A) (k : A -> M B) :
  appends m -> (forall x, finishes_with entry (k x)) -> finishes_with entry (bind m k).
Proof.
  intros Hm Hk w. unfold bind. destruct (Hm w) as [l1 H1].
  destruct (m w) as [[v|e] w1]; cbn [snd] in *.
  - specialize (Hk v w1). destruct (k v w1) as [[v2|e2] w2]; destruct Hk as [l2 H2].
    + exists (l1 ++ l2). rewrite H2, H1, !List.app_assoc. reflexivity.
    + exists (l1 ++ l2). rewrite H2, H1, !List.app_assoc. reflexivity.
  - exists l1. exact H1.
Qed.

Lemma finishes_last (entry : Z * pystr) {A : Type} (v : A) :
  finishes_with entry (bind (update_job_progress (fst entry) (snd entry)) (fun _ => ret v)).
Proof. intros w. destruct entry. exists []. reflexivity. Qed.

Ltac finishes_step :=
  first
    [ apply finishes_raise
    | apply (finishes_last (100, lit "Complete"))
    | apply finishes_bind;
      [ first [ apply appends_download | apply appends_burn | apply appends_run_process_checked
              | apply appends_run_process | solve [repeat appends_step] ]
      | intros ? ]
    | match goal with
      | |- finishes_with _ (match ?x with _ => _ end) => destruct x
      | |- finishes_with _ (if ?b then _ else _) => destruct b
      | |- finishes_with _ (let '(_, _) := ?x in _) => destruct x
      end ].

Section Job.

Variable str_lower : pystr -> pystr.

(** X19. Whatever happens in [run_opus_transcription], the job ends at
    100 %: the progress log only grows, and its last entry is
    [(100, Complete)] when the function returns and [(100, Failed)] when it
    raises; and nothing is left at or below the working directory. *)
Theorem job_ends_at_100 (tc : toolchain) (p : run_params) (w : world) :
  let run := run_opus_transcription str_lower tc p w in
  (exists earlier,
      progress (snd run)
      = progress w ++ earlier
        ++ [(100, match fst run with
                  | Return _ => lit "Complete"
                  | Raise _ => lit "Failed"
                  end)]) /\
  (forall path, path ∈ fs (snd run) -> under (tc_temp_dir tc) path = false).
Proof using Type.
  cbv zeta. split; [|apply TempFiles.run_opus_transcription_cleans_temp_dir].
  unfold run_opus_transcription.
  match goal with
  | |- context [try_except ?b ?handler] => set (body := b)
  end.
  assert (Hbody : finishes_with (100, lit "Complete") body).
  { unfold body, lower_of, path_of. repeat finishes_step. }
  clearbody body.
  unfold bind, create, try_finally, try_except, rmtree, update_job_progress, raise.
  cbn [fs spawned progress].
  match goal with
  | |- context [body ?w0] => specialize (Hbody w0); destruct (body w0) as [[v|e] w1]
  end.
  - destruct Hbody as [l Hl]. cbn [fst snd progress] in *. exists l. exact Hl.
  - destruct Hbody as [l Hl]. cbn [fst snd progress] in *.
    exists l. rewrite Hl, <- List.app_assoc. reflexivity.
Qed.

End Job.

End JobProgress.

(** ** The speaker of a word *)

Module SpeakerFacts.
Import Speakers QFacts.

Local Open Scope Q_scope.

(** X20. For a word whose end is not before its start, and speaker segments
    that do not end before they start, [get_word_speaker] gives the speaker
    of the first segment that has a point in common with the word, and
    [None] when there is none (in particular when there are no segments). *)
Theorem word_speaker_is_first_overlap (word_start word_end : Q)
        (speaker_segments : list speaker_segment) :
  word_start <= word_end ->
  Forall (fun s => sp_start s <= sp_end s) speaker_segments ->
  get_word_speaker word_start word_end speaker_segments
  = match List.find (overlaps word_start word_end) speaker_segments with
    | Some segment => Some (sp_speaker segment)
    | None => None
    end.
Proof.
  intros Hword. induction 1 as [|s segs Hs Hsegs IH]; [reflexivity|].
  cbn [get_word_speaker List.find]. rewrite IH.
  assert (E : qleb (sp_start s) word_start && qleb word_start (sp_end s)
              || qleb (sp_start s) word_end && qleb word_end (sp_end s)
              || qleb word_start (sp_start s) && qleb (sp_end s) word_end
              = overlaps word_start word_end s).
  { unfold overlaps.
    destruct (qleb (sp_start s) word_start) eqn:E1;
      destruct (qleb word_start (sp_end s)) eqn:E2;
      destruct (qleb (sp_start s) word_end) eqn:E3;
      destruct (qleb word_end (sp_end s)) eqn:E4;
      destruct (qleb word_start (sp_start s)) eqn:E5;
      destruct (qleb (sp_end s) word_end) eqn:E6;
      cbn [andb orb]; try reflexivity; exfalso;
      repeat match goal with
             | H : qleb _ _ = true |- _ => apply qleb_le in H
             | H : qleb _ _ = false |- _ => apply qleb_gt in H
             end; lra. }
  rewrite E. destruct (overlaps word_start word_end s); reflexivity.
Qed.

End SpeakerFacts.

(** ** Translating captions, and converting their script *)

Module CaptionLanguageFacts.
Import CompleteViralClipGenerator CaptionLanguage Blanks BlankFacts HindiCleanupMore.

Section Libraries.

Variable TRANSLATION_AVAILABLE : bool.
Variable GoogleTranslator : pystr -> pystr -> option (pystr -> option pystr).
Variable TRANSLITERATION_AVAILABLE : bool.
Variable transliterate : pystr -> option pystr.

Lemma translate_loop_times (translate : pystr -> option pystr) (segments : list raw_segment) :
  forall translated,
    translate_loop translate segments = Some translated ->
    List.map times_of translated = List.map times_of segments.
Proof using Type.
  induction segments as [|[s|a b t] rest IH]; intros translated H; cbn [translate_loop] in H.
  - injection H as <-. reflexivity.
  - destruct (translate_loop translate rest) as [r|]; [|discriminate]. injection H as <-.
    cbn [List.map]. rewrite (IH r eq_refl). f_equal. destruct (translate (sg_text s)); reflexivity.
  - discriminate.
Qed.

Lemma convert_words_times (words : list Word) :
  forall converted,
    convert_words transliterate words = Some converted ->
    List.map Spec.timing converted = List.map Spec.timing words.
Proof using Type.
  induction words as [|w words IH]; intros converted H; cbn [convert_words] in H.
  - injection H as <-. reflexivity.
  - destruct (if Nat.ltb 0 _ then _ else _) as [text|]; [|discriminate].
    destruct (convert_words transliterate words) as [r|]; [|discriminate]. injection H as <-.
    cbn [List.map]. rewrite (IH r eq_refl). reflexivity.
Qed.

Lemma romanize_segment_times (s : Segment) :
  times_of (SegObject (romanize_segment transliterate s)) = times_of (SegObject s).
Proof using Type.
  unfold romanize_segment. destruct (Nat.ltb _ _); [|reflexivity].
  destruct (transliterate (sg_text s)); [|reflexivity].
  destruct (convert_words transliterate (sg_words s)) as [ws|] eqn:E; [|reflexivity].
  cbn [times_of sg_start sg_end sg_words]. rewrite (convert_words_times _ _ E). reflexivity.
Qed.

Lemma romanize_loop_times (segments : list raw_segment) :
  forall converted,
    romanize_loop transliterate segments = Some converted ->
    List.map times_of converted = List.map times_of segments.
Proof using Type.
  induction segments as [|[s|a b t] rest IH]; intros converted H; cbn [romanize_loop] in H.
  - injection H as <-. reflexivity.
  - destruct (romanize_loop transliterate rest) as [r|]; [|discriminate]. injection H as <-.
    cbn [List.map]. rewrite (IH r eq_refl), romanize_segment_times. reflexivity.
  - discriminate.
Qed.

(** X21. Translating the captions, or converting them from Roman to
    Devanagari script, changes texts only: the result has the same
    segments, in the same order, with the same start and end, and the same
    number of words with the same times, whatever the translator and the
    transliteration library answer, and also when they fail. *)
Theorem caption_language_keeps_times (segments : list raw_segment)
        (source_lang target_lang : pystr) :
  List.map times_of
    (_translate_segments TRANSLATION_AVAILABLE GoogleTranslator segments source_lang target_lang)
  = List.map times_of segments /\
  List.map times_of (_romanize_to_devanagari TRANSLITERATION_AVAILABLE transliterate segments)
  = List.map times_of segments.
Proof using Type.
  split.
  - unfold _translate_segments.
    destruct (negb TRANSLATION_AVAILABLE); [reflexivity|].
    destruct (str_eqb source_lang target_lang); [reflexivity|].
    destruct (GoogleTranslator source_lang target_lang) as [translate|]; [|reflexivity].
    destruct (translate_loop translate segments) as [r|] eqn:E; [|reflexivity].
    apply (translate_loop_times _ _ _ E).
  - unfold _romanize_to_devanagari.
    destruct (negb TRANSLITERATION_AVAILABLE); [reflexivity|].
    destruct (romanize_loop transliterate segments) as [r|] eqn:E; [|reflexivity].
    apply (romanize_loop_times _ _ E).
Qed.

Lemma allowed_not_latin (c : N) :
  is_devanagari_or_allowed c = true -> is_ascii_alpha c = false.
Proof using Type.
  unfold is_devanagari_or_allowed, is_ascii_alpha.
  destruct ((1536 <=? c) && (c <=? 1791))%N; [discriminate|].
  destruct ((44032 <=? c) && (c <=? 55215) || (4352 <=? c) && (c <=? 4607))%N; [discriminate|].
  destruct ((19968 <=? c) && (c <=? 40959))%N; [discriminate|].
  destruct ((65 <=? c) && (c <=? 90) || (97 <=? c) && (c <=? 122))%N; [discriminate|].
  reflexivity.
Qed.

Lemma no_latin_count (text : pystr) :
  Forall (fun c => is_devanagari_or_allowed c = true) text ->
  count_chars is_ascii_alpha text = 0%nat.
Proof using Type.
  unfold count_chars. induction 1 as [|c text Hc Ht IH]; [reflexivity|].
  cbn [List.filter]. rewrite (allowed_not_latin c Hc). exact IH.
Qed.

(** X22. Converting to Devanagari after the Hindi cleanup does nothing:
    a cleaned segment whose text kept some allowed character has no Latin
    letter left, so [_romanize_to_devanagari] returns it as it is and the
    transliteration library is not consulted for it. *)
Theorem cleaned_segments_not_romanized (segments : list Segment) :
  Forall (fun s => List.existsb (fun c => is_devanagari_or_allowed c && negb (is_space c))
                     (sg_text s) = true) segments ->
  _romanize_to_devanagari TRANSLITERATION_AVAILABLE transliterate
    (List.map (fun s => SegObject (_clean_hindi_segment s)) segments)
  = List.map (fun s => SegObject (_clean_hindi_segment s)) segments.
Proof using Type.
  intros Hall. unfold _romanize_to_devanagari.
  destruct (negb TRANSLITERATION_AVAILABLE); [reflexivity|].
  assert (Hloop : romanize_loop transliterate
                    (List.map (fun s => SegObject (_clean_hindi_segment s)) segments)
                  = Some (List.map (fun s => SegObject (_clean_hindi_segment s)) segments)).
  { induction Hall as [|s segs Hs Hsegs IH]; [reflexivity|].
    cbn [List.map romanize_loop]. rewrite IH. do 3 f_equal.
    unfold romanize_segment.
    assert (Hlatin : count_chars is_ascii_alpha (sg_text (_clean_hindi_segment s)) = 0%nat).
    { apply no_latin_count. rewrite clean_hindi_segment_eq. cbn [sg_text].
      destruct (cleaned_text_allowed (sg_text s)) as (Ha & _ & _). cbv zeta in Ha.
      destruct (strip (collapse_ws false (List.filter is_devanagari_or_allowed (sg_text s))))
        as [|c t] eqn:E; [|exact Ha].
      exfalso. apply HindiCleanup.strip_nil_iff in E. rewrite collapse_ws_blank in E.
      clear -E Hs. induction (sg_text s) as [|c t IHt]; [discriminate Hs|].
      cbn [List.existsb List.filter] in *.
      destruct (is_devanagari_or_allowed c); cbn [andb orb List.forallb] in *.
      - destruct (is_space c); cbn [negb andb orb] in *; [auto|discriminate E].
      - auto. }
    rewrite Hlatin. reflexivity. }
  rewrite Hloop. reflexivity.
Qed.

End Libraries.

End CaptionLanguageFacts.

(** ** Download and transcription for the clip generator *)

Module TranscriptionFacts.
Import World ProcessingJob Transcription.

(** X23. [_download_and_transcribe_real] returns [None] for every video,
    whatever model is loaded: the function it calls for the download,
    [download_youtube_video], is not a name of its module, and its handler
    turns the [NameError] into [None].  No downloader and no other process
    is started, and the working directory made before the call is left on
    disk. *)
Theorem transcription_returns_none (env : environment) (video_url : pyval)
        (video_language : pystr) (w : world) :
  let run := _download_and_transcribe_real env video_url video_language w in
  fst run = Return None /\
  spawned (snd run) = spawned w /\
  progress (snd run) = progress w /\
  fs (snd run) = {[env_temp_dir env]} ∪ fs w.
Proof.
  cbv zeta. unfold _download_and_transcribe_real, try_except, bind, create, raise, ret.
  cbn [fst snd spawned progress fs]. repeat split; reflexivity.
Qed.

End TranscriptionFacts.

(** ** The subtitle time format *)

Module AssTimeMore.
Import OpusProcessor NumFacts RoundFacts QFacts RoundMore AssTime.

Local Open Scope Q_scope.

(** The exact time a [format_time] field denotes: whole minutes, plus the
    seconds rounded to the hundredth. *)
Lemma ass_time_value_exact (t : Q) :
  0 <= t ->
  exists v,
    Spec.ass_time_value (format_time t) = Some v /\
    v == inject_Z (Qfloor (t / 60)) * 60
         + inject_Z (round_half_even ((t - inject_Z (Qfloor (t / 60)) * 60) * 100)) / 100.
Proof.
  intros Ht. unfold format_time, py_divmod. cbv beta zeta iota.
  set (M := Qfloor (t / 60)).
  assert (HM : (0 <= M)%Z) by (apply py_divmod_nonneg; [exact Ht|reflexivity]).
  destruct (minutes_fields M HM) as (Hh & Hm0 & Hm). cbv zeta in Hh, Hm0, Hm.
  set (h := Qfloor (inject_Z M / 60)) in *.
  set (m := inject_Z M - inject_Z h * 60) in *.
  set (s := t - inject_Z M * 60).
  destruct (py_divmod_spec t 60 ltac:(reflexivity)) as (_ & Hs0 & Hs1 & _).
  unfold py_divmod in Hs0, Hs1. cbn [fst snd] in Hs0, Hs1. fold M in Hs0, Hs1. fold s in Hs0, Hs1.
  rewrite py_int_inject_Z, (py_int_floor_nonneg m Hm0).
  pose proof (floor_nonneg m Hm0) as Hfm.
  destruct (format_05_2f_fields s Hs0) as (whole & frac & a & b & -> & Hw & Hf & Ha & Hb & Hlen & Hval).
  change (lit ":") with [58%N]. cbn [app]. unfold Spec.ass_time_value.
  rewrite split_on_app by (apply (digits_no_sep 58); [lia|apply TimestampRoundTrip.format_d_digits; assumption]).
  rewrite split_on_app by (apply (digits_no_sep 58); [lia|apply TimestampRoundTrip.format_d_digits; assumption]).
  rewrite split_on_single.
  2:{ apply List.Forall_app. split; [apply (digits_no_sep 58); [lia|exact Hw]|].
      constructor; [lia|apply (digits_no_sep 58); [lia|exact Hf]]. }
  rewrite split_on_app by (apply (digits_no_sep 46); [lia|exact Hw]).
  rewrite split_on_single by (apply (digits_no_sep 46); [lia|exact Hf]).
  unfold format_d.
  destruct (h <? 0)%Z eqn:Eh; [apply Z.ltb_lt in Eh; lia|].
  destruct (Qfloor m <? 0)%Z eqn:Em; [apply Z.ltb_lt in Em; lia|].
  rewrite !parse_nat_zfill, Ha, Hb, Hlen.
  eexists. split; [reflexivity|].
  rewrite !Z2N.id by lia.
  change (inject_Z (10 ^ Z.of_nat 2)) with 100.
  rewrite <- Qplus_assoc, Hval, Hm. unfold m. field.
Qed.

(** X25. The subtitle time format keeps the order of times: for
    [0 <= s <= t] the field printed for [s] denotes a time that is not
    after the one printed for [t] (so an event of the script does not end
    before it starts), and each field is within 5 ms of its time. *)
Theorem format_time_keeps_order (s t : Q) :
  0 <= s -> s <= t ->
  exists vs vt,
    Spec.ass_time_value (format_time s) = Some vs /\
    Spec.ass_time_value (format_time t) = Some vt /\
    vs <= vt /\ Qabs (vs - s) <= 5 # 1000 /\ Qabs (vt - t) <= 5 # 1000.
Proof.
  intros Hs Hst. assert (Ht : 0 <= t) by lra.
  destruct (ass_time_value_exact s Hs) as (vs & Es & Hvs).
  destruct (ass_time_value_exact t Ht) as (vt & Et & Hvt).
  destruct (ass_time_value_format_time s Hs) as (vs' & Es' & Hcs).
  destruct (ass_time_value_format_time t Ht) as (vt' & Et' & Hct).
  rewrite Es in Es'. injection Es' as <-. rewrite Et in Et'. injection Et' as <-.
  exists vs, vt. repeat split; try assumption.
  rewrite Hvs, Hvt.
  set (Ms := Qfloor (s / 60)). set (Mt := Qfloor (t / 60)).
  destruct (py_divmod_spec s 60 ltac:(reflexivity)) as (_ & Hs0 & Hs1 & _).
  destruct (py_divmod_spec t 60 ltac:(reflexivity)) as (_ & Ht0 & Ht1 & _).
  unfold py_divmod in Hs0, Hs1, Ht0, Ht1. cbn [fst snd] in Hs0, Hs1, Ht0, Ht1.
  fold Ms in Hs0, Hs1. fold Mt in Ht0, Ht1.
  assert (HM : (Ms <= Mt)%Z).
  { apply Qfloor_resp_le. apply Qmult_le_compat_r; [exact Hst|discriminate]. }
  assert (H100 : forall a b : Q, a <= b -> a / 100 <= b / 100).
  { intros a b Hab. apply Qmult_le_compat_r; [exact Hab|discriminate]. }
  destruct (Z.eq_dec Ms Mt) as [E|NE].
  - rewrite E.
    assert (Hr : (round_half_even ((s - inject_Z Mt * 60) * 100)
                  <= round_half_even ((t - inject_Z Mt * 60) * 100))%Z).
    { apply round_half_even_mono. lra. }
    rewrite Zle_Qle in Hr. apply (H100 _ _) in Hr.
    revert Hr. generalize (inject_Z (round_half_even ((s - inject_Z Mt * 60) * 100)) / 100).
    generalize (inject_Z (round_half_even ((t - inject_Z Mt * 60) * 100)) / 100).
    intros x y Hxy. lra.
  - assert (Hlt : (Ms + 1 <= Mt)%Z) by lia.
    rewrite Zle_Qle, inject_Z_plus in Hlt. change (inject_Z 1) with 1 in Hlt.
    assert (Hrs : (round_half_even ((s - inject_Z Ms * 60) * 100) <= 6000)%Z).
    { rewrite <- (round_half_even_whole 6000 6000) by reflexivity.
      apply round_half_even_mono. lra. }
    assert (Hrt : (0 <= round_half_even ((t - inject_Z Mt * 60) * 100))%Z).
    { apply round_half_even_nonneg. lra. }
    rewrite Zle_Qle in Hrs, Hrt. apply (H100 _ _) in Hrs, Hrt.
    assert (H60 : inject_Z 6000 / 100 == 60) by reflexivity. rewrite H60 in Hrs.
    assert (Hz : inject_Z 0 / 100 == 0) by reflexivity. rewrite Hz in Hrt.
    revert Hrs Hrt. generalize (inject_Z (round_half_even ((s - inject_Z Ms * 60) * 100)) / 100).
    generalize (inject_Z (round_half_even ((t - inject_Z Mt * 60) * 100)) / 100).
    intros x y Hy Hx. lra.
Qed.

End AssTimeMore.

(** ** Words and lines of the caption script *)

Module WordChunks.
Import OpusProcessor QFacts.

Local Open Scope Q_scope.

Lemma chunks_of_sizes {A : Type} (chunk_size : nat) :
  (0 < chunk_size)%nat ->
  forall fuel (l : list A),
    Forall (fun chunk => (0 < List.length chunk <= chunk_size)%nat)
           (chunks_of fuel chunk_size l).
Proof.
  intros Hn. induction fuel as [|fuel IH]; intros l.
  - destruct l; constructor.
  - destruct l as [|x l]; [constructor|].
    cbn [chunks_of]. constructor; [|apply IH].
    rewrite List.length_firstn. cbn [List.length]. lia.
Qed.

Lemma chunks_of_full {A : Type} (chunk_size : nat) :
  (0 < chunk_size)%nat ->
  forall fuel (l : list A) i chunk,
    (List.length l <= fuel)%nat ->
    nth_error (chunks_of fuel chunk_size l) i = Some chunk ->
    (S i < List.length (chunks_of fuel chunk_size l))%nat ->
    List.length chunk = chunk_size.
Proof.
  intros Hn. induction fuel as [|fuel IH]; intros l i chunk Hl Hi Hlast.
  - destruct l; destruct i; discriminate.
  - destruct l as [|x l]; [destruct i; discriminate|].
    cbn [chunks_of] in Hi, Hlast. cbn [List.length] in Hlast.
    destruct i as [|i]; cbn [nth_error] in Hi.
    + injection Hi as <-. rewrite List.length_firstn.
      destruct (skipn chunk_size (x :: l)) as [|y rest] eqn:Es.
      * destruct fuel; cbn [chunks_of List.length] in Hlast; lia.
      * assert (Hlen : List.length (skipn chunk_size (x :: l)) = S (List.length rest))
          by (rewrite Es; reflexivity).
        rewrite List.length_skipn in Hlen. lia.
    + apply (IH (skipn chunk_size (x :: l)) i chunk); [|exact Hi|lia].
      rewrite List.length_skipn. cbn [List.length] in *. lia.
Qed.

(** X26. [chunk_words] with a positive line size cuts the words of the
    segments into lines without losing or reordering any: the lines put end
    to end are the words, no line is empty or longer than the size, and
    every line but the last is full. *)
Theorem chunk_words_partition (segments : list raw_segment) (chunk_size : nat) :
  (0 < chunk_size)%nat ->
  let chunks := chunk_words segments chunk_size in
  List.concat chunks
  = List.concat (List.map (fun segment =>
                             match segment with
                             | SegDict d_start d_end d_text => [mkWordInfo d_text d_start d_end]
                             | SegObject _ => extract_word_timestamps segment
                             end) segments) /\
  Forall (fun chunk => (0 < List.length chunk <= chunk_size)%nat) chunks /\
  (forall i chunk, nth_error chunks i = Some chunk -> (S i < List.length chunks)%nat ->
                   List.length chunk = chunk_size).
Proof.
  intros Hn. cbv zeta. unfold chunk_words. split; [|split].
  - rewrite CaptionTiming.concat_chunks_of by lia. reflexivity.
  - apply chunks_of_sizes. exact Hn.
  - intros i chunk. apply chunks_of_full; [exact Hn|lia].
Qed.

Lemma estimated_words_nth (seg_start word_duration : Q) (words : list pystr) :
  forall k i w,
    nth_error words i = Some w ->
    exists a,
      nth_error (estimated_words seg_start word_duration k words) i
      = Some (mkWordInfo w a (a + word_duration)) /\
      a = seg_start + inject_Z (Z.of_nat (k + i)) * word_duration.
Proof.
  induction words as [|w0 words IH]; intros k i w Hi; [destruct i; discriminate|].
  destruct i as [|i]; cbn [nth_error estimated_words] in *.
  - injection Hi as ->. rewrite Nat.add_0_r. eexists. split; reflexivity.
  - destruct (IH (S k) i w Hi) as (a & Ha & Hval). exists a. split; [exact Ha|].
    rewrite Hval. replace (S k + i)%nat with (k + S i)%nat by lia. reflexivity.
Qed.

Lemma length_estimated_words (seg_start word_duration : Q) (words : list pystr) :
  forall k, List.length (estimated_words seg_start word_duration k words) = List.length words.
Proof.
  induction words as [|w words IH]; intros k; cbn [estimated_words List.length]; [reflexivity|].
  rewrite IH. reflexivity.
Qed.

(** X27. A segment without word-level times gets estimated ones: one entry
    per word of its text, each lasting the segment's duration divided by
    the number of words, word [i] starting [i] such durations after the
    segment's start; so the first word starts with the segment and the
    last one ends with it.  A segment with word-level times gets exactly
    those. *)
Theorem word_times_given_or_estimated (s : Segment) :
  (sg_words s <> [] ->
   extract_word_timestamps (SegObject s)
   = List.map (fun w => mkWordInfo (word_word w) (word_start w) (word_end w)) (sg_words s)) /\
  (sg_words s = [] ->
   let words := split_ws (strip (sg_text s)) in
   let n := inject_Z (Z.of_nat (List.length words)) in
   List.length (extract_word_timestamps (SegObject s)) = List.length words /\
   forall i w,
     nth_error words i = Some w ->
     exists a b,
       nth_error (extract_word_timestamps (SegObject s)) i = Some (mkWordInfo w a b) /\
       a == sg_start s + inject_Z (Z.of_nat i) * (sg_end s - sg_start s) / n /\
       b == sg_start s + inject_Z (Z.of_nat (i + 1)) * (sg_end s - sg_start s) / n).
Proof.
  split.
  - intros Hw. unfold extract_word_timestamps. destruct (sg_words s); [contradiction|reflexivity].
  - intros Hw. cbv zeta. unfold extract_word_timestamps. rewrite Hw.
    destruct (split_ws (strip (sg_text s))) as [|w0 words] eqn:E.
    + split; [reflexivity|]. intros i w Hi. destruct i; discriminate.
    + rewrite <- E. split; [apply length_estimated_words|].
      intros i w Hi.
      destruct (estimated_words_nth (sg_start s)
                  ((sg_end s - sg_start s)
                   / inject_Z (Z.of_nat (List.length (split_ws (strip (sg_text s))))))
                  _ 0 i w Hi) as (a & Ha & Hval).
      cbn [Nat.add] in Hval.
      assert (Hn : 0 < inject_Z (Z.of_nat (List.length (split_ws (strip (sg_text s)))))).
      { change 0 with (inject_Z 0). rewrite <- Zlt_Qlt. rewrite E. cbn [List.length]. lia. }
      eexists _, _. split; [exact Ha|]. rewrite Hval. split.
      * field. lra.
      * rewrite Nat.add_1_r, Nat2Z.inj_succ. unfold Z.succ. rewrite inject_Z_plus.
        change (inject_Z 1) with 1. field. lra.
Qed.

End WordChunks.

(** ** Lines of variable length *)

Module VariableChunks.
Import OpusProcessor.

(** No chunk of the loop is empty or longer than the larger bound. *)
Lemma variable_chunks_sizes (draw : nat -> nat) (min_w max_w : nat) :
  forall fuel k prev_size (all_words : list word_info),
    Forall (fun chunk => chunk <> [] /\ (List.length chunk <= Nat.max min_w max_w)%nat)
           (variable_chunks fuel draw k prev_size min_w max_w all_words).
Proof.
  induction fuel as [|fuel IH]; intros k prev_size all_words.
  - destruct all_words; constructor.
  - destruct all_words as [|word_info rest]; [constructor|].
    cbn [variable_chunks].
    set (size := Nat.max min_w (Nat.min max_w _)).
    destruct (firstn size (word_info :: rest)) as [|first chunk] eqn:E; [apply IH|].
    constructor; [|apply IH]. split; [discriminate|].
    rewrite <- E, List.length_firstn. subst size. lia.
Qed.

(** X31. [chunk_words_variable] with a positive lower bound, whatever sizes
    are drawn: the chunks, put end to end, are the word entries of the
    segments in their order; no chunk is empty; and no chunk has more words
    than the larger of the two bounds. *)
Theorem variable_chunks_partition (draw : nat -> nat) (segments : list raw_segment)
        (min_w max_w : nat) :
  (0 < min_w)%nat ->
  let chunks := chunk_words_variable draw segments min_w max_w in
  List.concat chunks = List.concat (List.map extract_word_timestamps segments) /\
  Forall (fun chunk => chunk <> [] /\ (List.length chunk <= Nat.max min_w max_w)%nat) chunks.
Proof.
  intros Hmin. cbv zeta. unfold chunk_words_variable. split.
  - apply CaptionTiming.concat_variable_chunks; [exact Hmin|lia].
  - apply variable_chunks_sizes.
Qed.

End VariableChunks.

(** ** The submission endpoint *)

Module Endpoint.
Import QueueManager App.

Section Json.

Variable json_loads : pystr -> option pyval.
Variable q_enqueue : job -> option exn.


End Json.

End Endpoint.

(** ** Face detection: what is read, and where the centre lies *)

Module FaceCenterMore.
Import FaceDetector QFacts.

Lemma sample_loop_first_300 (frames : list frame) :
  forall frame_count face_centers,
    sample_loop frames frame_count face_centers
    = sample_loop (firstn (300 - frame_count) frames) frame_count face_centers.
Proof.
  induction frames as [|fr frames IH]; intros n acc.
  - rewrite List.firstn_nil. reflexivity.
  - cbn [sample_loop]. destruct (Nat.leb 300 n) eqn:E.
    + apply Nat.leb_le in E. replace (300 - n)%nat with 0%nat by lia.
      cbn [firstn sample_loop]. rewrite (proj2 (Nat.leb_le 300 n) E). reflexivity.
    + apply Nat.leb_gt in E. replace (300 - n)%nat with (S (300 - S n)) by lia.
      cbn [firstn sample_loop]. rewrite (proj2 (Nat.leb_gt 300 n) E).
      destruct (Nat.eqb (Nat.modulo n 30) 0).
      * destruct (fr_detections fr); [apply IH|reflexivity].
      * apply IH.
Qed.

(** X29. [detect_face_center] looks at the first 300 frames only: frames
    after them do not change its answer. *)
Theorem face_center_reads_300_frames (frames : list frame) (prefer_left_side : bool)
        (segment_time : option Q) :
  detect_face_center (Some frames) prefer_left_side segment_time
  = detect_face_center (Some (firstn 300 frames)) prefer_left_side segment_time.
Proof.
  unfold detect_face_center.
  rewrite (sample_loop_first_300 frames 0 []).
  rewrite (sample_loop_first_300 (firstn 300 frames) 0 []).
  change (300 - 0)%nat with 300%nat. rewrite List.firstn_firstn, Nat.min_id.
  destruct frames as [|fr frames]; reflexivity.
Qed.

Lemma py_int_between (x : Q) (lo hi : Z) :
  (inject_Z lo <= x)%Q -> (x <= inject_Z hi)%Q -> lo <= py_int x <= hi.
Proof.
  destruct x as [n d]. unfold Qle, py_int. cbn [Qnum Qden inject_Z]. intros Hlo Hhi.
  pose proof (Z.quot_rem' n (Z.pos d)) as Hqr.
  destruct (Z.le_gt_cases 0 n) as [Hn|Hn].
  - pose proof (Z.rem_bound_pos n (Z.pos d) Hn ltac:(lia)). nia.
  - pose proof (Z.rem_bound_pos_neg n (Z.pos d) ltac:(lia) ltac:(lia)). nia.
Qed.

Lemma sum_between (xs : list Z) (lo hi : Z) :
  Forall (fun x => lo <= x <= hi) xs ->
  lo * Z.of_nat (List.length xs) <= List.fold_right Z.add 0 xs <= hi * Z.of_nat (List.length xs).
Proof.
  induction 1 as [|x xs Hx Hxs IH]; cbn [List.fold_right List.length]; [lia|].
  rewrite Nat2Z.inj_succ. lia.
Qed.

Lemma int_mean_between (xs : list Z) (lo hi : Z) :
  xs <> [] -> Forall (fun x => lo <= x <= hi) xs ->
  exists m, int_mean xs = Return m /\ lo <= m <= hi.
Proof.
  intros Hne Hall. destruct xs as [|x0 xs0] eqn:E; [contradiction|]. rewrite <- E in *.
  assert (Hmean : int_mean xs = Return (py_int (inject_Z (List.fold_right Z.add 0 xs)
                                                / inject_Z (Z.of_nat (List.length xs))))).
  { rewrite E. reflexivity. }
  rewrite Hmean. eexists. split; [reflexivity|].
  pose proof (sum_between xs lo hi Hall) as [Hlo Hhi].
  assert (Hn : (0 < inject_Z (Z.of_nat (List.length xs)))%Q).
  { change 0%Q with (inject_Z 0). rewrite <- Zlt_Qlt. rewrite E. cbn [List.length]. lia. }
  apply py_int_between.
  - apply Qle_shift_div_l; [exact Hn|]. rewrite <- inject_Z_mult, <- Zle_Qle. exact Hlo.
  - apply Qle_shift_div_r; [exact Hn|]. rewrite <- inject_Z_mult, <- Zle_Qle. exact Hhi.
Qed.

Lemma max_by_prominence_in (faces : list face) :
  forall best, In (max_by_prominence best faces) (best :: faces).
Proof.
  induction faces as [|f faces IH]; intros best; cbn [max_by_prominence]; [left; reflexivity|].
  destruct (IH (if qltb (prominence best) (prominence f) then f else best)) as [H|H].
  - destruct (qltb _ _); rewrite <- H; [right; left|left]; reflexivity.
  - right. right. exact H.
Qed.

Lemma select_target_faces_spec (prefer_left_side : bool) (segment_time : option Q)
      (face_centers left_faces right_faces : list face) :
  face_centers <> [] ->
  let target := select_target_faces prefer_left_side segment_time
                  face_centers left_faces right_faces in
  target <> [] /\ (target = left_faces \/ target = right_faces \/ target = face_centers).
Proof.
  intros Hne. cbv zeta. unfold select_target_faces.
  assert (Hl : forall l : list face, negb (Nat.eqb (List.length l) 0) = true -> l <> []).
  { intros [|x l]; [discriminate|discriminate]. }
  destruct segment_time as [t|];
    repeat match goal with
           | |- context [if ?b && negb (Nat.eqb (List.length ?l) 0) then _ else _] =>
               let E := fresh "E" in
               destruct (b && negb (Nat.eqb (List.length l) 0)) eqn:E;
               [apply andb_true_iff in E as [_ E]; apply Hl in E; auto|]
           end; auto.
Qed.

(** X30. When the face model answers on every sampled frame and every face
    it finds has a positive prominence, [detect_face_center] returns a
    point, and the point lies within any rectangle that holds the centres
    of all the detected faces: it is the truncated mean of some of them. *)
Theorem face_center_within_faces (frames : list frame) (faces : list face)
        (prefer_left_side : bool) (segment_time : option Q) (lo_x hi_x lo_y hi_y : Z) :
  sample_loop frames 0 [] = Return faces ->
  faces <> [] ->
  Forall (fun f => (0 < prominence f)%Q) faces ->
  Forall (fun f => lo_x <= fst (center f) <= hi_x /\ lo_y <= snd (center f) <= hi_y) faces ->
  exists x y,
    detect_face_center (Some frames) prefer_left_side segment_time = Return (x, y) /\
    lo_x <= x <= hi_x /\ lo_y <= y <= hi_y.
Proof.
  intros Hloop Hne Hpos Hbox. unfold detect_face_center. rewrite Hloop.
  destruct faces as [|face0 faces0] eqn:Ef; [contradiction|]. rewrite <- Ef in *.
  set (half := (inject_Z match frames with fr :: _ => fr_w fr | [] => 1080 end * (5 # 10))%Q).
  set (left_faces := List.filter (fun f => qltb (inject_Z (fst (center f))) half) faces).
  set (right_faces := List.filter (fun f => qleb half (inject_Z (fst (center f)))) faces).
  destruct (select_target_faces_spec prefer_left_side segment_time faces left_faces right_faces Hne)
    as [Htne Htarget]. cbv zeta in Htne, Htarget.
  set (target := select_target_faces prefer_left_side segment_time faces left_faces right_faces)
    in *.
  assert (Hsub : forall f, In f target -> In f faces).
  { intros f Hf. destruct Htarget as [H|[H|H]]; rewrite H in Hf.
    - apply List.filter_In in Hf as [Hf _]. exact Hf.
    - apply List.filter_In in Hf as [Hf _]. exact Hf.
    - exact Hf. }
  destruct target as [|f0 fs] eqn:Et; [contradiction|].
  set (best := max_by_prominence f0 fs).
  set (similar := List.filter (fun f => qltb (prominence best * (5 # 10)) (prominence f))
                    (f0 :: fs)).
  assert (Hbest : In best similar).
  { apply List.filter_In. split; [apply max_by_prominence_in|].
    rewrite List.Forall_forall in Hpos.
    pose proof (Hpos best (Hsub best (max_by_prominence_in fs f0))) as Hp.
    apply qltb_lt. lra. }
  assert (Hsim : forall f, In f similar -> In f faces).
  { intros f Hf. apply List.filter_In in Hf as [Hf _]. apply Hsub. exact Hf. }
  rewrite List.Forall_forall in Hbox.
  destruct (int_mean_between (List.map (fun f => fst (center f)) similar) lo_x hi_x)
    as (x & Hx & Hxb).
  { destruct similar; [destruct Hbest|discriminate]. }
  { apply List.Forall_forall. intros v Hv. apply List.in_map_iff in Hv as (f & <- & Hf).
    apply (Hbox f (Hsim f Hf)). }
  destruct (int_mean_between (List.map (fun f => snd (center f)) similar) lo_y hi_y)
    as (y & Hy & Hyb).
  { destruct similar; [destruct Hbest|discriminate]. }
  { apply List.Forall_forall. intros v Hv. apply List.in_map_iff in Hv as (f & <- & Hf).
    apply (Hbox f (Hsim f Hf)). }
  fold best. fold similar. rewrite Hx, Hy. exists x, y. auto.
Qed.

End FaceCenterMore.

(** ** The properties above, on sample inputs *)

Module Witnesses.
Import World ProcessingJob Samples MoreSamples.

Local Open Scope Q_scope.

Lemma candidate_is_window_witness :
  let clip := nth 0 mock_candidates (blank_clip 0 0 []) in
  In clip mock_candidates /\
  Windows.is_window
    (sorted_by ts_start_time (HookDetector.parse_whisper_segments _get_mock_transcript)) clip.
Proof.
  cbv zeta. split.
  - vm_compute. left. reflexivity.
  - apply (CandidateWindows.candidate_is_window plain_detector
             (HookDetector.parse_whisper_segments _get_mock_transcript)).
    vm_compute. left. reflexivity.
Defined.

Lemma find_viral_clips_top_witness :
  (0 <= 2)%Z /\
  Z.of_nat (List.length (HookDetector.find_viral_clips ascii_lower plain_detector
                           (HookDetector.parse_whisper_segments _get_mock_transcript) 2))
  = Z.min 2 (Z.of_nat (List.length mock_candidates)) /\
  ForallOrdPairs (fun a b => HookDetector.cd_score b <= HookDetector.cd_score a)
    (HookDetector.find_viral_clips ascii_lower plain_detector
       (HookDetector.parse_whisper_segments _get_mock_transcript) 2).
Proof.
  split; [lia|].
  apply (RankingMore.find_viral_clips_top ascii_lower plain_detector
           (HookDetector.parse_whisper_segments _get_mock_transcript) 2).
  lia.
Defined.

Lemma timestamp_round_trip_witness :
  (0 <= 3725 < 86400 * 10 ^ 9)%Z /\
  CompleteViralClipGenerator._parse_timestamp (HookDetector._format_timestamp (inject_Z 3725))
  = Return 3725%Z.
Proof.
  split; [lia|]. apply (TimestampMore.timestamp_round_trip 3725). lia.
Defined.

Lemma to_dict_rounding_witness :
  vc_viral_score (blank_clip 0 30 []) <= vc_viral_score half_second_clip /\
  HookDetector.cd_score (HookDetector.to_dict (blank_clip 0 30 []))
  <= HookDetector.cd_score (HookDetector.to_dict half_second_clip).
Proof.
  assert (H : vc_viral_score (blank_clip 0 30 [])
              <= vc_viral_score half_second_clip) by (vm_compute; discriminate).
  split; [exact H|].
  apply (proj2 (proj2 (proj2 (TimestampMore.to_dict_rounding (blank_clip 0 30 []))))
           half_second_clip H).
Defined.

Lemma parse_timestamp_witness :
  (List.length (List.filter (N.eqb 58) (lit "12:30")) < 2)%nat /\
  exists e, CompleteViralClipGenerator._parse_timestamp (lit "12:30") = Raise e.
Proof.
  split; [vm_compute; lia|].
  apply (TimestampMore.parse_timestamp_needs_three_fields (lit "12:30")). vm_compute. lia.
Defined.

Lemma viral_moments_head_witness :
  CompleteViralClipGenerator._find_viral_moments ascii_lower plain_generator
    _get_mock_transcript 2 4 20 40 = Return mock_selection /\
  exists n,
    mock_selection
    = slice_to n (HookDetector.find_viral_clips ascii_lower
                    (CompleteViralClipGenerator.hook_detector plain_generator)
                    (HookDetector.parse_whisper_segments _get_mock_transcript) (2 * 3)).
Proof.
  split; [vm_compute; reflexivity|].
  apply (SelectionMore.viral_moments_head_of_ranking ascii_lower plain_generator
           _get_mock_transcript 2 4 20 40 mock_selection).
  vm_compute. reflexivity.
Defined.

Lemma viral_moments_edge_witness :
  (0 + 0 == 0 /\
   CompleteViralClipGenerator.video_duration_seconds _get_mock_transcript = Return (75 - 0) /\
   exists msg,
     CompleteViralClipGenerator._find_viral_moments ascii_lower plain_generator
       _get_mock_transcript 2 4 0 0 = Raise (ZeroDivisionError msg)) /\
  (~ 20 + 40 == 0 /\
   CompleteViralClipGenerator._find_viral_moments ascii_lower plain_generator [] 2 4 20 40
   = Return []).
Proof.
  split.
  - split; [reflexivity|]. split; [reflexivity|].
    apply (proj1 (SelectionMore.viral_moments_edge_cases ascii_lower plain_generator 2 4 0 0)
             ltac:(reflexivity) _get_mock_transcript (75 - 0) ltac:(reflexivity)).
  - split; [discriminate|].
    apply (proj2 (SelectionMore.viral_moments_edge_cases ascii_lower plain_generator 2 4 20 40)).
    discriminate.
Defined.

Lemma clean_text_witness :
  List.existsb (fun c => CompleteViralClipGenerator.is_devanagari_or_allowed c
                         && negb (is_space c)) (sg_text mixed_token_segment) = true /\
  sg_text (CompleteViralClipGenerator._clean_hindi_segment mixed_token_segment) <> [] /\
  List.existsb (fun c => CompleteViralClipGenerator.is_devanagari_or_allowed c
                         && negb (is_space c)) (sg_text arabic_segment) = false /\
  sg_text (CompleteViralClipGenerator._clean_hindi_segment arabic_segment)
  = sg_text arabic_segment.
Proof.
  split; [reflexivity|]. split.
  - apply (proj1 (HindiCleanupMore.clean_hindi_segment_text mixed_token_segment)). reflexivity.
  - split; [reflexivity|].
    apply (proj1 (proj2 (HindiCleanupMore.clean_hindi_segment_text arabic_segment))).
    reflexivity.
Defined.

Lemma fallback_captions_witness :
  0 < 10 /\
  List.length (CompleteViralClipGenerator.caption_segments_of 0 10 (lit "so it begins") [])
  = List.length (split_ws (lit "so it begins")).
Proof.
  split; [reflexivity|].
  apply (CaptionSegments.fallback_captions_tile 0 10 (lit "so it begins")). reflexivity.
Defined.

Lemma dictionary_segments_witness :
  two_mock_entries <> [] /\
  List.map (fun e => (OpusProcessor.ev_start e, OpusProcessor.ev_end e))
    (OpusProcessor.tiktok_viral_events
       (CompleteViralClipGenerator.caption_segments_of 8 15 [] two_mock_entries))
  = [ (OpusProcessor.format_time 0, OpusProcessor.format_time 8);
      (OpusProcessor.format_time 8, OpusProcessor.format_time 15) ].
Proof.
  split; [discriminate|].
  apply (CaptionSegments.dictionary_segments_not_shifted 8 15 [] two_mock_entries
           [ (0, 8, lit "This is the biggest secret nobody told you about making viral videos.");
             (8, 15,
              lit "Today I'm going to reveal the crazy mistake that's killing your engagement.") ]).
  - discriminate.
  - reflexivity.
Defined.

Lemma layout_outcomes_witness :
  (exists msg,
      fst (ProcessingTools.process_video_for_layout ascii_lower unreadable_video
             (lit "in.mp4") (lit "out.mp4") (lit "square") 1080 1920 empty_world)
      = Raise (ValueError msg)) /\
  fst (ProcessingTools.process_video_for_layout ascii_lower working_layout
         (lit "in.mp4") (lit "out.mp4") (lit "square") 1080 1920 empty_world)
  = Return (lit "out.mp4") /\
  (exists msg,
      fst (ProcessingTools.process_video_for_layout ascii_lower failing_layout
             (lit "in.mp4") (lit "out.mp4") (lit "square") 1080 1920 empty_world)
      = Raise (AttributeError msg)).
Proof.
  split; [|split].
  - apply (proj1 (LayoutStep.layout_outcomes ascii_lower unreadable_video
                    (lit "in.mp4") (lit "out.mp4") (lit "square") 1080 1920 empty_world)).
    reflexivity.
  - apply (proj1 (proj2 (LayoutStep.layout_outcomes ascii_lower working_layout
                           (lit "in.mp4") (lit "out.mp4") (lit "square") 1080 1920 empty_world)));
      reflexivity.
  - apply (proj2 (proj2 (LayoutStep.layout_outcomes ascii_lower failing_layout
                           (lit "in.mp4") (lit "out.mp4") (lit "square") 1080 1920 empty_world))
             ltac:(reflexivity) ltac:(reflexivity)).
Defined.

Lemma job_ends_at_100_witness :
  let run := run_opus_transcription ascii_lower good_toolchain
               (params_for (lit "https://youtu.be/dQw4w9WgXcQ")) empty_world in
  lit "exports/processed_youtube_dQw4w9WgXcQ_opus_karaoke_1700000000.mp4" ∈ fs (snd run) /\
  under (tc_temp_dir good_toolchain)
    (lit "exports/processed_youtube_dQw4w9WgXcQ_opus_karaoke_1700000000.mp4") = false.
Proof.
  cbv zeta.
  assert (H : lit "exports/processed_youtube_dQw4w9WgXcQ_opus_karaoke_1700000000.mp4"
              ∈ fs (snd (run_opus_transcription ascii_lower good_toolchain
                           (params_for (lit "https://youtu.be/dQw4w9WgXcQ")) empty_world))).
  { vm_compute. reflexivity. }
  split; [exact H|].
  apply (proj2 (JobProgress.job_ends_at_100 ascii_lower good_toolchain
                  (params_for (lit "https://youtu.be/dQw4w9WgXcQ")) empty_world) _ H).
Defined.

Lemma word_speaker_witness :
  3 <= 6 /\
  Forall (fun s => Speakers.sp_start s <= Speakers.sp_end s) two_speakers /\
  Speakers.get_word_speaker 3 6 two_speakers = Some (lit "SPEAKER_00").
Proof.
  assert (Hsegs : Forall (fun s => Speakers.sp_start s <= Speakers.sp_end s) two_speakers).
  { repeat constructor; discriminate. }
  split; [discriminate|]. split; [exact Hsegs|].
  rewrite (SpeakerFacts.word_speaker_is_first_overlap 3 6 two_speakers); [reflexivity| |exact Hsegs].
  discriminate.
Defined.

Lemma cleaned_not_romanized_witness :
  Forall (fun s => List.existsb (fun c => CompleteViralClipGenerator.is_devanagari_or_allowed c
                                          && negb (is_space c)) (sg_text s) = true)
         [mixed_token_segment] /\
  CaptionLanguage._romanize_to_devanagari true failing_transliterate
    [SegObject (CompleteViralClipGenerator._clean_hindi_segment mixed_token_segment)]
  = [SegObject (CompleteViralClipGenerator._clean_hindi_segment mixed_token_segment)].
Proof.
  assert (H : Forall (fun s => List.existsb
                                 (fun c => CompleteViralClipGenerator.is_devanagari_or_allowed c
                                           && negb (is_space c)) (sg_text s) = true)
                     [mixed_token_segment]).
  { repeat constructor. }
  split; [exact H|].
  apply (CaptionLanguageFacts.cleaned_segments_not_romanized true failing_transliterate
           [mixed_token_segment] H).
Defined.

Lemma format_time_order_witness :
  0 <= 1 # 2 /\ 1 # 2 <= 3 # 2 /\
  exists vs vt,
    Spec.ass_time_value (OpusProcessor.format_time (1 # 2)) = Some vs /\
    Spec.ass_time_value (OpusProcessor.format_time (3 # 2)) = Some vt /\
    vs <= vt /\ Qabs (vs - (1 # 2)) <= 5 # 1000 /\ Qabs (vt - (3 # 2)) <= 5 # 1000.
Proof.
  split; [discriminate|]. split; [discriminate|].
  apply (AssTimeMore.format_time_keeps_order (1 # 2) (3 # 2)); discriminate.
Defined.

Lemma chunk_words_witness :
  (0 < 4)%nat /\
  Forall (fun chunk => (0 < List.length chunk <= 4)%nat)
         (OpusProcessor.chunk_words _get_mock_transcript 4).
Proof.
  split; [lia|].
  apply (WordChunks.chunk_words_partition _get_mock_transcript 4). lia.
Defined.

Lemma variable_chunks_witness :
  let segments := CompleteViralClipGenerator.adjusted_caption_segments 72 (vc_segments minute_clip) in
  let chunks := OpusProcessor.chunk_words_variable (fun _ => 1%nat) segments 1 3 in
  (0 < 1)%nat /\
  List.concat chunks = List.concat (List.map OpusProcessor.extract_word_timestamps segments) /\
  Forall (fun chunk => chunk <> [] /\ (List.length chunk <= Nat.max 1 3)%nat) chunks.
Proof.
  split; [lia|].
  apply (VariableChunks.variable_chunks_partition (fun _ => 1%nat)
           (CompleteViralClipGenerator.adjusted_caption_segments 72 (vc_segments minute_clip))
           1 3).
  lia.
Defined.

Lemma word_times_witness :
  sg_words untimed_segment = [] /\
  List.length (OpusProcessor.extract_word_timestamps (SegObject untimed_segment))
  = List.length (split_ws (strip (sg_text untimed_segment))) /\
  sg_words mixed_token_segment <> [] /\
  OpusProcessor.extract_word_timestamps (SegObject mixed_token_segment)
  = List.map (fun w => OpusProcessor.mkWordInfo (word_word w) (word_start w) (word_end w))
      (sg_words mixed_token_segment).
Proof.
  split; [reflexivity|]. split.
  - apply (proj2 (WordChunks.word_times_given_or_estimated untimed_segment)). reflexivity.
  - split; [discriminate|].
    apply (proj1 (WordChunks.word_times_given_or_estimated mixed_token_segment)). discriminate.
Defined.


Lemma face_center_within_witness :
  FaceDetector.sample_loop [face_frame; empty_frame] 0 [] = Return faces_of_face_frame /\
  faces_of_face_frame <> [] /\
  exists x y,
    FaceDetector.detect_face_center (Some [face_frame; empty_frame]) true None = Return (x, y) /\
    (0 <= x <= 1920)%Z /\ (0 <= y <= 1080)%Z.
Proof.
  split; [vm_compute; reflexivity|]. split; [discriminate|].
  apply (FaceCenterMore.face_center_within_faces [face_frame; empty_frame] faces_of_face_frame
           true None 0 1920 0 1080).
  - vm_compute. reflexivity.
  - discriminate.
  - repeat constructor.
  - repeat constructor; vm_compute; discriminate.
Defined.

End Witnesses.

